(** * kakeiboApp: the spreadsheet-to-CSV converters, embedded and verified

    The repository holds five converter scripts that read a household
    ledger workbook and write CSV files:

    - [convert_excel.py]                      (module [Basic])
    - [convert_excel_split.py]                (module [Split])
    - [convert_excel_final.py]                (module [Final])
    - [convert_excel_preserve_categories.py]  (module [Preserve])
    - [convert_excel_with_subcategories.py]   (module [Subcat])

    Each Rocq module below carries the functions of one script under the
    names they have in the source.  Python values are modelled by the
    types of the first part of the file; the workbook library (openpyxl)
    and the standard library functions the scripts call ([str.strip],
    [re.match], [datetime.strptime], [list.sort], ...) are modelled by the
    functions that follow them.  Of the text that the scripts print, the
    lines of the loop over the sheets are kept as a list of messages; a
    run that ends in an unhandled exception is [None].  *)

From Stdlib Require Import ZArith QArith String Ascii List Lia Bool.
From Stdlib Require Import DecimalString DecimalZ DecimalN DecimalPos DecimalFacts.
From Stdlib Require Import Sorted Permutation.
From Stdlib Require OrderedTypeEx Qround.
From stdpp Require Import gmap strings list fin_maps sorting.

Import ListNotations.
Local Open Scope string_scope.
Local Open Scope list_scope.
Local Open Scope Z_scope.

(** ** Python strings

    A Python [str] is modelled by the [string] of its UTF-8 bytes.  The
    keyword tables of the scripts are written as literals, so they read as
    in the source.  UTF-8 is self-synchronising and order preserving:
    substring tests, [replace] and comparisons on the bytes agree with the
    same operations on the code points. *)

(** [word in text] *)
Fixpoint contains (word text : string) : bool :=
  String.prefix word text
  || match text with
     | EmptyString => false
     | String _ rest => contains word rest
     end.

(** [any(word in text for word in words)] *)
Definition any_in (words : list string) (text : string) : bool :=
  existsb (fun word => contains word text) words.

(** [x in words] for a list of strings *)
Definition mem_string (x : string) (words : list string) : bool :=
  existsb (String.eqb x) words.

(** [s.replace(old, '')]: the occurrences of [old] are removed, scanning
    from the left; an empty [old] leaves [s] as it is. *)
Fixpoint drop_prefix (n : nat) (s : string) : string :=
  match n, s with
  | S n', String _ rest => drop_prefix n' rest
  | _, _ => s
  end.

Fixpoint remove_fuel (fuel : nat) (old s : string) : string :=
  match fuel with
  | O => s
  | S fuel' =>
      match s with
      | EmptyString => EmptyString
      | String c rest =>
          if String.prefix old s
          then remove_fuel fuel' old (drop_prefix (String.length old) s)
          else String c (remove_fuel fuel' old rest)
      end
  end.

Definition remove (old s : string) : string :=
  match old with
  | EmptyString => s
  | _ => remove_fuel (String.length s) old s
  end.

(** Whitespace as [str.strip()] sees it: the code points U+0009..U+000D,
    U+001C..U+0020, U+0085, U+00A0, U+1680, U+2000..U+200A, U+2028,
    U+2029, U+202F, U+205F and U+3000, here in their UTF-8 encoding of
    one, two or three bytes. *)
Definition ws1 (c : ascii) : bool :=
  let n := nat_of_ascii c in
  ((9 <=? n) && (n <=? 13) || (28 <=? n) && (n <=? 32))%nat.

Definition ws2 (c1 c2 : ascii) : bool :=
  let a := nat_of_ascii c1 in
  let b := nat_of_ascii c2 in
  ((a =? 194) && ((b =? 133) || (b =? 160)))%nat.

Definition ws3 (c1 c2 c3 : ascii) : bool :=
  let a := nat_of_ascii c1 in
  let b := nat_of_ascii c2 in
  let c := nat_of_ascii c3 in
  ((a =? 225) && (b =? 154) && (c =? 128)
   || (a =? 226) && (b =? 128)
      && ((128 <=? c) && (c <=? 138) || (c =? 168) || (c =? 169) || (c =? 175))
   || (a =? 226) && (b =? 129) && (c =? 159)
   || (a =? 227) && (b =? 128) && (c =? 128))%nat.

(** [lstrip]; with [mirror] set the string is read from its end, the
    bytes of each character arriving last byte first. *)
Fixpoint lstrip_gen (mirror : bool) (s : string) : string :=
  match s with
  | EmptyString => EmptyString
  | String c1 s1 =>
      if ws1 c1 then lstrip_gen mirror s1
      else
        match s1 with
        | String c2 s2 =>
            if (if mirror then ws2 c2 c1 else ws2 c1 c2)
            then lstrip_gen mirror s2
            else
              match s2 with
              | String c3 s3 =>
                  if (if mirror then ws3 c3 c2 c1 else ws3 c1 c2 c3)
                  then lstrip_gen mirror s3
                  else s
              | EmptyString => s
              end
        | EmptyString => s
        end
  end.

Definition string_rev (s : string) : string :=
  string_of_list_ascii (List.rev (list_ascii_of_string s)).

(** [s.strip()] *)
Definition strip (s : string) : string :=
  string_rev (lstrip_gen true (string_rev (lstrip_gen false s))).

(** [s.split(sep)] for a separator of one character *)
Fixpoint split (sep : ascii) (s : string) : list string :=
  match s with
  | EmptyString => [EmptyString]
  | String c rest =>
      if Ascii.eqb c sep then EmptyString :: split sep rest
      else
        match split sep rest with
        | tok :: toks => String c tok :: toks
        | [] => [String c EmptyString]
        end
  end.

(** ** Decimal numerals *)

(** [str(n)] for an [int] *)
Definition str_int (n : Z) : string :=
  NilZero.string_of_int (Z.to_int n).

(** The value of a non-empty string of ASCII digits; [None] otherwise.
    It models [int(s)] on the digit strings the scripts pass to it: the
    groups of a sheet name and the year of a date string.  (Digits are
    the ASCII digits throughout; a sheet name written with other decimal
    digits of Unicode is outside the model.) *)
Definition int_str (s : string) : option Z :=
  match s with
  | EmptyString => None
  | _ => option_map Z.of_uint (NilEmpty.uint_of_string s)
  end.

Fixpoint zeros (n : nat) : string :=
  match n with
  | O => EmptyString
  | S n' => String "0" (zeros n')
  end.

(** [f"{n:0<width>d}"] for [n >= 0]: decimal digits, padded with zeros on
    the left up to [width] characters. *)
Definition fmt_0d (width : nat) (n : Z) : string :=
  let digits := str_int n in
  zeros (width - String.length digits) +:+ digits.

Definition fmt_0d_signed (width : nat) (n : Z) : string :=
  if n <? 0
  then String "-" (fmt_0d (width - 1) (- n))
  else fmt_0d width n.

(** ** Python values held by spreadsheet cells

    openpyxl hands a cell over as [None], a [str], an [int], a [float], a
    [bool], or another object (a [datetime], a [time], ...).  A finite
    float is the rational number it denotes: the scripts only compare
    floats with zero and truncate them, and both operations are exact.
    An object of another type is kept by its truth value and its
    [str()]. *)

Inductive pyfloat : Type :=
| Finite (q : Q)
| PosInf
| NegInf
| NaN.

Inductive cell : Type :=
| CNone
| CStr (s : string)
| CInt (n : Z)
| CFloat (f : pyfloat)
| CBool (b : bool)
| COther (truth : bool) (repr : string).

(** A row is the tuple of its cell values. *)
Abbreviation row := (list cell).

(** [isinstance(v, (int, float))]; [bool] is a subclass of [int]. *)
Definition is_number (v : cell) : bool :=
  match v with
  | CInt _ | CFloat _ | CBool _ => true
  | _ => false
  end.

(** [isinstance(v, str)] *)
Definition is_str (v : cell) : bool :=
  match v with
  | CStr _ => true
  | _ => false
  end.

(** [v <= 0] for a number [v] *)
Definition le_zero (v : cell) : bool :=
  match v with
  | CInt n => n <=? 0
  | CFloat (Finite q) => Qle_bool q 0
  | CFloat NegInf => true
  | CFloat PosInf => false
  | CFloat NaN => false
  | CBool b => negb b
  | _ => false
  end.

(** [int(v)] for a number [v]: truncation toward zero.  [None] stands for
    the exception that [int] raises on an infinity or a NaN. *)
Definition trunc (q : Q) : Z := Z.quot (Qnum q) (Zpos (Qden q)).

Definition int_num (v : cell) : option Z :=
  match v with
  | CInt n => Some n
  | CFloat (Finite q) => Some (trunc q)
  | CBool b => Some (if b then 1 else 0)
  | _ => None
  end.

(** [bool(v)], the truth value that [if v], [v or ''] and [v and ...]
    test. *)
Definition truthy (v : cell) : bool :=
  match v with
  | CNone => false
  | CStr s => negb (String.eqb s EmptyString)
  | CInt n => negb (n =? 0)
  | CFloat (Finite q) => negb (Qeq_bool q 0)
  | CFloat _ => true
  | CBool b => b
  | COther truth _ => truth
  end.

(** [v is not None] *)
Definition is_not_none (v : cell) : bool :=
  match v with
  | CNone => false
  | _ => true
  end.

(** [row[i] if len(row) > i else None] *)
Definition cell_at (r : row) (i : nat) : cell := nth i r CNone.

(** Library functions whose tables are not part of the repository:
    [str.lower] and [str.isdigit] (Unicode case mapping and digit
    classes) and [str()] of a float (shortest round-trip decimal).  The
    development is parametric in them. *)
Class PyLib : Type := {
  lower : string -> string;
  isdigit : string -> bool;
  str_float : pyfloat -> string
}.

Section Values.
Context `{PyLib}.

(** [str(v)] *)
Definition str (v : cell) : string :=
  match v with
  | CNone => "None"
  | CStr s => s
  | CInt n => str_int n
  | CFloat f => str_float f
  | CBool true => "True"
  | CBool false => "False"
  | COther _ repr => repr
  end.

(** [v or ''] *)
Definition or_empty (v : cell) : cell :=
  if truthy v then v else CStr EmptyString.

(** [str(v) if v else ''] *)
Definition str_or_empty (v : cell) : string :=
  if truthy v then str v else EmptyString.

End Values.

(** An instance for evaluating the model on ASCII text with finite
    floats whose value is a whole number or a half. *)
Definition ascii_lower_char (c : ascii) : ascii :=
  let n := nat_of_ascii c in
  if ((65 <=? n) && (n <=? 90))%nat then ascii_of_nat (n + 32) else c.

Fixpoint ascii_lower (s : string) : string :=
  match s with
  | EmptyString => EmptyString
  | String c rest => String (ascii_lower_char c) (ascii_lower rest)
  end.

Definition is_digit_char (c : ascii) : bool :=
  let n := nat_of_ascii c in
  ((48 <=? n) && (n <=? 57))%nat.

Fixpoint all_digits (s : string) : bool :=
  match s with
  | EmptyString => true
  | String c rest => is_digit_char c && all_digits rest
  end.

Definition ascii_isdigit (s : string) : bool :=
  match s with
  | EmptyString => false
  | _ => all_digits s
  end.

Definition simple_str_float (f : pyfloat) : string :=
  match f with
  | Finite q =>
      if (Zpos (Qden q) =? 1) then str_int (Qnum q) +:+ ".0"
      else if (Zpos (Qden q) =? 2) && Z.odd (Qnum q)
           then (if (Qnum q <? 0) && (-2 <? Qnum q) then "-" else "")
                +:+ str_int (Z.quot (Qnum q) 2) +:+ ".5"
           else "?"
  | PosInf => "inf"
  | NegInf => "-inf"
  | NaN => "nan"
  end.

Definition ascii_pylib : PyLib :=
  {| lower := ascii_lower; isdigit := ascii_isdigit; str_float := simple_str_float |}.

(** ** The regular expression [(\d+)\.(\d+)] *)

(** The longest prefix of digits, and what follows it. *)
Fixpoint span_digits (s : string) : string * string :=
  match s with
  | EmptyString => (EmptyString, EmptyString)
  | String c rest =>
      if is_digit_char c
      then let '(ds, tl) := span_digits rest in (String c ds, tl)
      else (EmptyString, s)
  end.

(** [re.match(r'(\d+)\.(\d+)', name)]: the two groups when the name starts
    with digits, a dot, digits.  Both groups are greedy, and no shorter
    first group can be followed by a dot. *)
Definition re_match_period (name : string) : option (string * string) :=
  match span_digits name with
  | (EmptyString, _) => None
  | (g1, String "." rest) =>
      match span_digits rest with
      | (EmptyString, _) => None
      | (g2, _) => Some (g1, g2)
      end
  | _ => None
  end.

(** ** [datetime.strptime(s, '%Y-%m-%d')]

    The format compiles to
    [(\d\d\d\d)-(1[0-2]|0[1-9]|[1-9])-(3[01]|[12]\d|0[1-9]|[1-9]| [1-9])],
    which must match the whole of [s]; the three numbers must then form a
    date of the proleptic Gregorian calendar with a year of 1 to 9999.
    No token holds a hyphen, so [s] matches exactly when it splits at its
    hyphens into three tokens that match the three groups. *)

Definition year_token (s : string) : option Z :=
  if (String.length s =? 4)%nat then int_str s else None.

(** [1[0-2]|0[1-9]|[1-9]]: one or two digits with a value of 1 to 12 *)
Definition month_token (s : string) : option Z :=
  if (String.length s <=? 2)%nat
  then match int_str s with
       | Some m => if (1 <=? m) && (m <=? 12) then Some m else None
       | None => None
       end
  else None.

(** [3[01]|[12]\d|0[1-9]|[1-9]| [1-9]]: one or two digits with a value of
    1 to 31, or a space and a digit of 1 to 9 *)
Definition day_token (s : string) : option Z :=
  let digits :=
    match s with
    | String " " rest =>
        if (String.length rest =? 1)%nat then rest else EmptyString
    | _ => if (String.length s <=? 2)%nat then s else EmptyString
    end in
  match int_str digits with
  | Some d =>
      if (1 <=? d) && (d <=? 31) then
        match s with
        | String " " _ => if d <=? 9 then Some d else None
        | _ => Some d
        end
      else None
  | None => None
  end.

Definition is_leap (y : Z) : bool :=
  ((y mod 4 =? 0) && negb (y mod 100 =? 0)) || (y mod 400 =? 0).

Definition days_in_month (y m : Z) : Z :=
  match m with
  | 1 | 3 | 5 | 7 | 8 | 10 | 12 => 31
  | 4 | 6 | 9 | 11 => 30
  | 2 => if is_leap y then 29 else 28
  | _ => 0
  end.

(** The parsed date, or [None] for [ValueError]. *)
Definition strptime_ymd (s : string) : option (Z * Z * Z) :=
  match split "-" s with
  | [ys; ms; ds] =>
      match year_token ys, month_token ms, day_token ds with
      | Some y, Some m, Some d =>
          if (1 <=? y) && (d <=? days_in_month y m) then Some (y, m, d)
          else None
      | _, _, _ => None
      end
  | _ => None
  end.

(** ** Records, workbooks, groups *)

(** An expense record: the dict that the extractors build.  The key
    [subcategory] exists only in the records of [Subcat]; it is [None]
    where the dict has no such key. *)
Record expense : Type := {
  date : string;
  category : string;
  subcategory : option string;
  amount : Z;
  place : string;
  description : string
}.

(** A worksheet: its name and the rows that [ws.iter_rows] serves, the
    spreadsheet row [r] at position [r - 1]. *)
Record sheet : Type := {
  sheet_name : string;
  sheet_rows : list row
}.

Abbreviation workbook := (list sheet).

(** [ws.iter_rows(min_row=lo, max_row=hi, values_only=True)] *)
Definition iter_rows (lo hi : nat) (ws : sheet) : list row :=
  firstn (hi + 1 - lo) (skipn (lo - 1) (sheet_rows ws)).

(** [ws.iter_rows(min_row=lo, values_only=True)] *)
Definition iter_rows_from (lo : nat) (ws : sheet) : list row :=
  skipn (lo - 1) (sheet_rows ws).

(** [re.match(r'\d+\.\d+', name)] as a condition *)
Definition is_month_sheet (name : string) : bool :=
  match re_match_period name with
  | Some _ => true
  | None => false
  end.

(** What the extractors print while they go through the sheets. *)
Inductive message : Type :=
| Processing (name : string)
| SkippedSheet (name : string)
| Extracted (count : nat).

(** [groups[key].append(e)] on a [defaultdict(list)] *)
Definition group_append `{Countable K} (key : K) (e : expense)
    (groups : gmap K (list expense)) : gmap K (list expense) :=
  <[key := default [] (groups !! key) ++ [e]]> groups.

(** The loop over the data rows of a sheet: [body] is the [try] block,
    [None] when it reaches a [continue] or raises; a record is appended
    to its group and counted. *)
Definition scan_rows `{Countable K} (body : row -> option (K * expense))
    (rows : list row) (groups : gmap K (list expense))
    : gmap K (list expense) * nat :=
  fold_left
    (fun '(g, count) r =>
       match body r with
       | Some (key, e) => (group_append key e g, S count)
       | None => (g, count)
       end)
    rows (groups, 0%nat).

(** ** [list.sort(key=lambda x: x['date'])]

    Python's sort is stable and compares the keys as strings.  The model
    is the stable insertion sort: a record goes in front of the first
    record whose date is not smaller. *)
Fixpoint insert_by_date (e : expense) (l : list expense) : list expense :=
  match l with
  | [] => [e]
  | x :: rest =>
      if String.leb (date e) (date x) then e :: l
      else x :: insert_by_date e rest
  end.

Fixpoint sort_by_date (l : list expense) : list expense :=
  match l with
  | [] => []
  | e :: rest => insert_by_date e (sort_by_date rest)
  end.

(** The order of the sort keys, and the records of one date. *)
Definition date_le (e1 e2 : expense) : Prop :=
  String.leb (date e1) (date e2) = true.

Definition same_date (d : string) (e : expense) : bool :=
  String.eqb (date e) d.

(** [l] is [l0] sorted by date, stably: ascending in the date strings,
    the same records, and the records of one date in the order they have
    in [l0]. *)
Definition sorted_stably (l l0 : list expense) : Prop :=
  StronglySorted date_le l
  /\ Permutation l l0
  /\ forall d, List.filter (same_date d) l = List.filter (same_date d) l0.

(** ** [csv.writer]: a file is the list of the rows written to it, each
    row the list of its fields as [str()] renders them. *)
Abbreviation csv_file := (list (list string)).
Abbreviation file_store := (gmap string csv_file).

(** [f"{year:04d}-{month:02d}-{day:02d}"] *)
Definition date_string (year month day : Z) : string :=
  fmt_0d_signed 4 year +:+ "-" +:+ fmt_0d_signed 2 month
  +:+ "-" +:+ fmt_0d_signed 2 day.

(** ** The body that the five [parse_date] functions share *)

(** The date string, the year and the month; [None] where the source
    returns [None] (or a tuple of [None]s), also through the handler of
    [except Exception]. *)
Definition parse_date_with (sheet_name : string) (day : cell)
    (year_offset : Z) : option (string * Z * Z) :=
  match re_match_period sheet_name with
  | None => None
  | Some (g1, g2) =>
      match int_str g1, int_str g2 with
      | Some year_short, Some month =>
          let year := 2000 + year_short + year_offset in
          if negb (is_number day) then None
          else
            match int_num day with
            | None => None
            | Some day =>
                if (day <? 1) || (day >? 31) then None
                else
                  let date_str := date_string year month day in
                  match strptime_ymd date_str with
                  | Some _ => Some (date_str, year, month)
                  | None => None
                  end
            end
      | _, _ => None
      end
  end.

(** [int(date.split('-')[0])] *)
Definition year_of_date (date : string) : option Z :=
  match split "-" date with
  | tok :: _ => int_str tok
  | [] => None
  end.

(** ** The column map that [find_columns] builds

    The dict has the keys [day], [place], [amount], [description] when a
    header cell was recognised for them ([None] here when the key is
    absent), and in the structured modes the list [categories] and the
    dict [subcategories]. *)
Record columns : Type := {
  col_day : option nat;
  col_place : option nat;
  col_amount : option nat;
  col_description : option nat;
  col_categories : list (nat * string);
  col_subcategories : gmap string nat
}.

Definition no_columns : columns :=
  {| col_day := None; col_place := None; col_amount := None;
     col_description := None; col_categories := [];
     col_subcategories := ∅ |}.

(** [all(k in columns for k in ['day', 'place', 'amount', 'description'])] *)
Definition has_required (c : columns) : bool :=
  match col_day c, col_place c, col_amount c, col_description c with
  | Some _, Some _, Some _, Some _ => true
  | _, _, _, _ => false
  end.

(** The first four branches of the [if]/[elif] chain of [find_columns],
    the same in the three scripts that resolve columns; [None] when the
    cell falls through to the branches after them. *)
Section BasicColumns.
Context `{PyLib}.

Definition basic_column (i : nat) (cell_str : string) (c : columns)
    : option columns :=
  if String.eqb "日" cell_str || contains "day" (lower cell_str) then
    Some (match col_day c with
          | None =>
              {| col_day := Some i; col_place := col_place c;
                 col_amount := col_amount c;
                 col_description := col_description c;
                 col_categories := col_categories c;
                 col_subcategories := col_subcategories c |}
          | Some _ => c
          end)
  else if contains "場所" cell_str || contains "place" (lower cell_str) then
    Some {| col_day := col_day c; col_place := Some i;
            col_amount := col_amount c;
            col_description := col_description c;
            col_categories := col_categories c;
            col_subcategories := col_subcategories c |}
  else if contains "価格" cell_str || contains "金額" cell_str
          || contains "price" (lower cell_str) then
    Some {| col_day := col_day c; col_place := col_place c;
            col_amount := Some i;
            col_description := col_description c;
            col_categories := col_categories c;
            col_subcategories := col_subcategories c |}
  else if contains "商品" cell_str || contains "item" (lower cell_str) then
    Some {| col_day := col_day c; col_place := col_place c;
            col_amount := col_amount c;
            col_description := Some i;
            col_categories := col_categories c;
            col_subcategories := col_subcategories c |}
  else None.

(** [for i, cell_value in enumerate(header_row)] with the loop body
    [step]; a falsy cell is passed over. *)
Fixpoint scan_header (step : nat -> string -> columns -> columns)
    (i : nat) (header_row : row) (c : columns) : columns :=
  match header_row with
  | [] => c
  | cell_value :: rest =>
      scan_header step (S i) rest
        (if truthy cell_value then step i (strip (str cell_value)) c else c)
  end.

End BasicColumns.

(** ** What [main] reports

    [main] catches every exception and prints it ([Failed]); it returns
    early when no record was extracted ([NoData]); otherwise it writes
    its files and prints its figures.  The files are a store in which
    every path can be written. *)
Inductive outcome (A : Type) : Type :=
| Failed
| NoData
| Done (figures : A).

Arguments Failed {A}.
Arguments NoData {A}.
Arguments Done {A} figures.

(** [sorted(expenses_by_year.keys())] for years that are numbers *)
Definition sorted_years (expenses_by_year : gmap Z (list expense))
    : list Z :=
  merge_sort Z.le (List.map fst (map_to_list expenses_by_year)).

(** The order in which Python compares two [str] values, on the UTF-8
    bytes of the model. *)
Definition string_le (a b : string) : Prop := String.leb a b = true.

#[global] Instance string_le_dec (a b : string) : Decision (string_le a b) :=
  decide (String.leb a b = true).

(** * convert_excel_final.py *)
Module Final.
Section Script.
Context `{PyLib}.

Definition fixed_cost_words : list string :=
  ["ローン"; "保険"; "loan"; "insurance"; "メットライフ";
   "アクサ"; "車両保険"; "aig"; "ネオファースト"].

Definition communication_words : list string :=
  ["ソネット"; "モバイル"; "携帯"; "スマホ"; "wifi";
   "インターネット"; "ネット"; "通信"; "ドコモ"; "netflix"].

Definition utility_words : list string :=
  ["電気"; "水道"; "ガス"; "光熱"; "でんき"; "みず";
   "東京電力"; "東京ガス"; "下水"; "水道局"].

Definition leisure_words : list string :=
  ["ジム"; "アッティーボ"; "映画"; "レジャー"; "娯楽"].

Definition transport_words : list string :=
  ["ガソリン"; "電車"; "バス"; "交通"; "えき"; "タクシー";
   "suica"; "パスモ"; "etc"].

Definition medical_words : list string :=
  ["病院"; "薬"; "医療"; "クリニック"; "びょういん";
   "ドラッグ"; "薬局"].

(** [f"{place or ''} {description or ''}".lower()] *)
Definition item_text (place description : cell) : string :=
  lower (str (or_empty place) +:+ " " +:+ str (or_empty description)).

Definition categorize_item (place description : cell) : string :=
  let text := item_text place description in
  if any_in fixed_cost_words text then "固定費"
  else if any_in communication_words text then "固定費"
  else if any_in utility_words text then "光熱費"
  else if any_in leisure_words text then "娯楽費"
  else if any_in transport_words text then "交通費"
  else if any_in medical_words text then "医療費"
  else "食費".

Definition parse_date (sheet_name : string) (day : cell) : option string :=
  match parse_date_with sheet_name day 0 with
  | Some (date_str, _, _) => Some date_str
  | None => None
  end.

Definition find_columns (header_row : row) : columns :=
  scan_header
    (fun i cell_str c =>
       match basic_column i cell_str c with
       | Some c' => c'
       | None => c
       end)
    0%nat header_row no_columns.

(** The body of the loop over the data rows, for the column indices
    [day], [place], [amount], [description] of the sheet: the group key
    and the record, or [None] when the row is passed over. *)
Definition extract_row (sheet_name : string) (i_day i_place i_amount
    i_description : nat) (r : row) : option (Z * expense) :=
  match r with
  | [] => None
  | _ =>
      let day := cell_at r i_day in
      let place := cell_at r i_place in
      let amount := cell_at r i_amount in
      let description := cell_at r i_description in
      if negb (is_number amount) || le_zero amount then None
      else if negb (is_number day) then None
      else
        match parse_date sheet_name day with
        | None => None
        | Some date =>
            match year_of_date date with
            | None => None
            | Some year =>
                let place_str := str_or_empty place in
                let desc_str := str_or_empty description in
                let category :=
                  categorize_item (CStr place_str) (CStr desc_str) in
                match int_num amount with
                | None => None
                | Some amount =>
                    Some (year,
                          {| date := date; category := category;
                             subcategory := None; amount := amount;
                             place := place_str;
                             description := desc_str |})
                end
            end
        end
  end.

(** One turn of the loop over the month sheets.  [None] is the
    [IndexError] of taking the header of a sheet without rows, which
    nothing in [extract_expenses] handles. *)
Definition extract_sheet (ws : sheet)
    (st : gmap Z (list expense) * list message)
    : option (gmap Z (list expense) * list message) :=
  let '(groups, log) := st in
  match iter_rows 1 1 ws with
  | [] => None
  | header :: _ =>
      let c := find_columns header in
      match col_day c, col_place c, col_amount c, col_description c with
      | Some i_day, Some i_place, Some i_amount, Some i_description =>
          let '(groups', count) :=
            scan_rows
              (extract_row (sheet_name ws) i_day i_place i_amount
                 i_description)
              (iter_rows 2 1000 ws) groups in
          Some (groups',
                log ++ [Processing (sheet_name ws); Extracted count])
      | _, _, _, _ => Some (groups, log ++ [SkippedSheet (sheet_name ws)])
      end
  end.

Fixpoint extract_sheets (sheets : list sheet)
    (st : gmap Z (list expense) * list message)
    : option (gmap Z (list expense) * list message) :=
  match sheets with
  | [] => Some st
  | ws :: rest =>
      match extract_sheet ws st with
      | Some st' => extract_sheets rest st'
      | None => None
      end
  end.

Definition month_sheets (wb : workbook) : list sheet :=
  List.filter (fun ws => is_month_sheet (sheet_name ws)) wb.

(** The groups as the loops leave them, before the final sort. *)
Definition collect (wb : workbook)
    : option (gmap Z (list expense) * list message) :=
  extract_sheets (month_sheets wb) (∅, []).

Definition extract_expenses (wb : workbook)
    : option (gmap Z (list expense) * list message) :=
  match collect wb with
  | Some (groups, log) => Some (sort_by_date <$> groups, log)
  | None => None
  end.

Definition csv_header : list string :=
  ["日付"; "カテゴリ"; "金額"; "場所"; "商品名・メモ"].

Definition csv_row (e : expense) : list string :=
  [date e; category e; str_int (amount e); place e; description e].

(** The file is opened with mode ['w']: what it held before is lost. *)
Definition save_to_csv (expenses : list expense) (output_file : string)
    (files : file_store) : file_store :=
  <[output_file := csv_header :: List.map csv_row expenses]> files.

Definition output_dir : string := "/Users/runa/kakeibo-app".

(** [f"{output_dir}/imported_data_{year}.csv"] *)
Definition output_file (year : Z) : string :=
  output_dir +:+ "/imported_data_" +:+ str_int year +:+ ".csv".

(** One turn of the loop over the years in [main]: the file of the year
    is written, and its count is printed and added to the total. *)
Definition save_year (expenses_by_year : gmap Z (list expense))
    (st : file_store * list (Z * nat) * nat) (year : Z)
    : file_store * list (Z * nat) * nat :=
  let '(files, printed, total_count) := st in
  let expenses := default [] (expenses_by_year !! year) in
  (save_to_csv expenses (output_file year) files,
   printed ++ [(year, length expenses)],
   (total_count + length expenses)%nat).

(** The files after [main], with the counts printed per year and the
    total. *)
Definition main (wb : workbook) (files : file_store)
    : file_store * outcome (list (Z * nat) * nat) :=
  match extract_expenses wb with
  | None => (files, Failed)
  | Some (expenses_by_year, _) =>
      if bool_decide (expenses_by_year = ∅) then (files, NoData)
      else
        let '(files', printed, total_count) :=
          fold_left (save_year expenses_by_year)
            (sorted_years expenses_by_year) (files, [], 0%nat) in
        (files', Done (printed, total_count))
  end.

End Script.
End Final.

(** * convert_excel_split.py *)
Module Split.
Section Script.
Context `{PyLib}.

Definition fixed_cost_words : list string :=
  ["ローン"; "保険"; "loan"; "insurance"; "メットライフ";
   "アクサ"; "車両保険"; "aig"].

Definition communication_words : list string :=
  ["ソネット"; "モバイル"; "携帯"; "スマホ"; "wifi";
   "インターネット"; "ネット"; "通信"].

Definition utility_words : list string :=
  ["電気"; "水道"; "ガス"; "光熱"; "でんき"; "みず";
   "東京電力"; "東京ガス"; "下水"; "水道局"].

Definition leisure_words : list string :=
  ["ジム"; "アッティーボ"; "映画"; "レジャー"; "娯楽"].

Definition transport_words : list string :=
  ["ガソリン"; "電車"; "バス"; "交通"; "えき"; "タクシー";
   "suica"; "パスモ"].

Definition medical_words : list string :=
  ["病院"; "薬"; "医療"; "クリニック"; "びょういん";
   "ドラッグ"; "薬局"].

Definition item_text (place description : cell) : string :=
  lower (str (or_empty place) +:+ " " +:+ str (or_empty description)).

Definition categorize_item (place description : cell) : string :=
  let text := item_text place description in
  if any_in fixed_cost_words text then "固定費"
  else if any_in communication_words text then "固定費"
  else if any_in utility_words text then "光熱費"
  else if any_in leisure_words text then "娯楽費"
  else if any_in transport_words text then "交通費"
  else if any_in medical_words text then "医療費"
  else "食費".

Definition parse_date (sheet_name : string) (day : cell) (year_offset : Z)
    : option string :=
  match parse_date_with sheet_name day year_offset with
  | Some (date_str, _, _) => Some date_str
  | None => None
  end.

(** The body of the loop over the data rows; the columns are fixed:
    [row[3]], [row[5]], [row[6]], [row[7]]. *)
Definition extract_row (sheet_name : string) (r : row)
    : option (Z * expense) :=
  match r with
  | [] => None
  | _ =>
      if (length r <? 8)%nat then None
      else
        let day := cell_at r 3 in
        let place := cell_at r 5 in
        let amount := cell_at r 6 in
        let description := cell_at r 7 in
        if negb (is_number amount) || le_zero amount then None
        else if negb (is_number day) then None
        else
          match parse_date sheet_name day 0 with
          | None => None
          | Some date =>
              match year_of_date date with
              | None => None
              | Some year =>
                  let place_str := or_empty place in
                  let category := categorize_item place_str description in
                  let memo := or_empty description in
                  match int_num amount with
                  | None => None
                  | Some amount =>
                      Some (year,
                            {| date := date; category := category;
                               subcategory := None; amount := amount;
                               place := str place_str;
                               description := str memo |})
                  end
              end
          end
  end.

Definition extract_sheet (ws : sheet)
    (st : gmap Z (list expense) * list message)
    : gmap Z (list expense) * list message :=
  let '(groups, log) := st in
  (fst (scan_rows (extract_row (sheet_name ws)) (iter_rows 2 1000 ws) groups),
   log ++ [Processing (sheet_name ws)]).

Definition month_sheets (wb : workbook) : list sheet :=
  List.filter (fun ws => is_month_sheet (sheet_name ws)) wb.

Definition collect (wb : workbook) : gmap Z (list expense) * list message :=
  fold_left (fun st ws => extract_sheet ws st) (month_sheets wb) (∅, []).

Definition extract_expenses (wb : workbook)
    : gmap Z (list expense) * list message :=
  let '(groups, log) := collect wb in
  (sort_by_date <$> groups, log).

Definition csv_header : list string :=
  ["日付"; "カテゴリ"; "金額"; "場所"; "商品名・メモ"].

Definition csv_row (e : expense) : list string :=
  [date e; category e; str_int (amount e); place e; description e].

Definition save_to_csv (expenses : list expense) (output_file : string)
    (files : file_store) : file_store :=
  <[output_file := csv_header :: List.map csv_row expenses]> files.

Definition output_dir : string := "/Users/runa/kakeibo-app".

(** [f"{output_dir}/imported_data_{year}.csv"] *)
Definition output_file (year : Z) : string :=
  output_dir +:+ "/imported_data_" +:+ str_int year +:+ ".csv".

(** One turn of the loop over the years in [main]. *)
Definition save_year (expenses_by_year : gmap Z (list expense))
    (st : file_store * list (Z * nat)) (year : Z)
    : file_store * list (Z * nat) :=
  let '(files, printed) := st in
  let expenses := default [] (expenses_by_year !! year) in
  (save_to_csv expenses (output_file year) files,
   printed ++ [(year, length expenses)]).

(** The files after [main], with the counts printed per year. *)
Definition main (wb : workbook) (files : file_store)
    : file_store * outcome (list (Z * nat)) :=
  let '(expenses_by_year, _) := extract_expenses wb in
  if bool_decide (expenses_by_year = ∅) then (files, NoData)
  else
    let '(files', printed) :=
      fold_left (save_year expenses_by_year)
        (sorted_years expenses_by_year) (files, []) in
    (files', Done printed).

End Script.
End Split.

(** * convert_excel.py *)
Module Basic.
Section Script.
Context `{PyLib}.

(** The keyword tables are those of [convert_excel_split.py]. *)
Definition categorize_item (place description : cell) : string :=
  let text :=
    lower (str (or_empty place) +:+ " " +:+ str (or_empty description)) in
  if any_in Split.fixed_cost_words text then "固定費"
  else if any_in Split.communication_words text then "固定費"
  else if any_in Split.utility_words text then "光熱費"
  else if any_in Split.leisure_words text then "娯楽費"
  else if any_in Split.transport_words text then "交通費"
  else if any_in Split.medical_words text then "医療費"
  else "食費".

Definition parse_date (sheet_name : string) (day : cell) (year_offset : Z)
    : option string :=
  match parse_date_with sheet_name day year_offset with
  | Some (date_str, _, _) => Some date_str
  | None => None
  end.

(** The body of the loop over the rows: the columns are fixed, the place
    must be a non-empty text, and the rows go to one list. *)
Definition extract_row (sheet_name : string) (r : row) : option expense :=
  match r with
  | [] => None
  | _ =>
      if (length r <? 8)%nat then None
      else
        let day := cell_at r 3 in
        let place := cell_at r 5 in
        let amount := cell_at r 6 in
        let description := cell_at r 7 in
        if negb (is_number amount) || le_zero amount then None
        else if truthy place && is_str place then
          match parse_date sheet_name day 0 with
          | None => None
          | Some date =>
              let category := categorize_item place description in
              let memo := or_empty description in
              match int_num amount with
              | None => None
              | Some amount =>
                  Some {| date := date; category := category;
                          subcategory := None; amount := amount;
                          place := str (or_empty place);
                          description := str memo |}
              end
          end
        else None
  end.

Definition month_sheets (wb : workbook) : list sheet :=
  List.filter (fun ws => is_month_sheet (sheet_name ws)) wb.

(** The rows of a sheet from the second on, with no upper limit. *)
Definition extract_sheet (ws : sheet) (expenses : list expense)
    : list expense :=
  fold_left
    (fun acc r =>
       match extract_row (sheet_name ws) r with
       | Some e => acc ++ [e]
       | None => acc
       end)
    (iter_rows_from 2 ws) expenses.

(** The list as the loops leave it, before the final sort. *)
Definition collect (wb : workbook) : list expense :=
  fold_left (fun acc ws => extract_sheet ws acc) (month_sheets wb) [].

Definition extract_expenses (wb : workbook) : list expense :=
  sort_by_date (collect wb).

Definition csv_header : list string :=
  ["日付"; "カテゴリ"; "金額"; "場所"; "商品名・メモ"].

Definition csv_row (e : expense) : list string :=
  [date e; category e; str_int (amount e); place e; description e].

Definition save_to_csv (expenses : list expense) (output_file : string)
    (files : file_store) : file_store :=
  <[output_file := csv_header :: List.map csv_row expenses]> files.

Definition output_file : string :=
  "/Users/runa/kakeibo-app/imported_data.csv".

(** The loop of [main] that counts the records of each category:
    [category_counts[cat] = category_counts.get(cat, 0) + 1]. *)
Definition category_counts (expenses : list expense) : gmap string nat :=
  fold_left
    (fun counts exp =>
       <[category exp := (default 0%nat (counts !! category exp) + 1)%nat]>
         counts)
    expenses ∅.

(** The figures that [main] prints: the number of records saved, the
    count of each category (printed in the order of the names), and the
    dates of the first and of the last record. *)
Record statistics : Type := {
  saved : nat;
  per_category : gmap string nat;
  first_date : string;
  last_date : string
}.

Definition main (wb : workbook) (files : file_store)
    : file_store * outcome statistics :=
  let expenses := extract_expenses wb in
  match expenses with
  | [] => (files, NoData)
  | first :: _ =>
      (save_to_csv expenses output_file files,
       Done {| saved := length expenses;
               per_category := category_counts expenses;
               first_date := date first;
               last_date := date (List.last expenses first) |})
  end.

End Script.
End Basic.

(** The closed list of main category names, the same in
    [convert_excel_preserve_categories.py] ([valid_categories]) and in
    [convert_excel_with_subcategories.py] ([main_categories]). *)
Definition main_categories : list string :=
  ["食品"; "日用品"; "外食費"; "衣類"; "家具・家電"; "美容";
   "医療費"; "交際費"; "レジャー"; "ガソリン・ETC"; "光熱費";
   "通信費"; "保険"; "車関連【車検・税金・積立】"; "税金"; "経費"; "ローン"].

(** [columns['categories'].append({'index': i, 'name': cell_str})] *)
Definition add_category (i : nat) (name : string) (c : columns) : columns :=
  {| col_day := col_day c; col_place := col_place c;
     col_amount := col_amount c; col_description := col_description c;
     col_categories := col_categories c ++ [(i, name)];
     col_subcategories := col_subcategories c |}.

(** [columns['subcategories'][main_cat] = i] *)
Definition add_subcategory (main_cat : string) (i : nat) (c : columns)
    : columns :=
  {| col_day := col_day c; col_place := col_place c;
     col_amount := col_amount c; col_description := col_description c;
     col_categories := col_categories c;
     col_subcategories := <[main_cat := i]> (col_subcategories c) |}.

(** * convert_excel_preserve_categories.py *)
Module Preserve.
Section Script.
Context `{PyLib}.

Definition find_columns (header_row : row) : columns :=
  scan_header
    (fun i cell_str c =>
       match basic_column i cell_str c with
       | Some c' => c'
       | None =>
           if mem_string cell_str main_categories
           then add_category i cell_str c
           else c
       end)
    0%nat header_row no_columns.

Fixpoint extract_category (r : row) (category_columns : list (nat * string))
    : string :=
  match category_columns with
  | [] => "その他"
  | (idx, name) :: rest =>
      let value := cell_at r idx in
      if is_not_none value
         && truthy value
         && negb (String.eqb (strip (str value)) EmptyString)
      then name
      else extract_category r rest
  end.

Definition parse_date (sheet_name : string) (day : cell)
    : option (string * Z * Z) :=
  parse_date_with sheet_name day 0.

(** The body of the loop over the data rows; the group key is
    [f"{year}-{month:02d}"]. *)
Definition extract_row (sheet_name : string) (c : columns) (i_day i_place
    i_amount i_description : nat) (r : row) : option (string * expense) :=
  match r with
  | [] => None
  | _ =>
      let day := cell_at r i_day in
      let place := cell_at r i_place in
      let amount := cell_at r i_amount in
      let description := cell_at r i_description in
      if negb (is_number amount) || le_zero amount then None
      else if negb (is_number day) then None
      else
        match parse_date sheet_name day with
        | None => None
        | Some (date, year, month) =>
            let category := extract_category r (col_categories c) in
            let place_str := str_or_empty place in
            let desc_str := str_or_empty description in
            match int_num amount with
            | None => None
            | Some amount =>
                Some (str_int year +:+ "-" +:+ fmt_0d_signed 2 month,
                      {| date := date; category := category;
                         subcategory := None; amount := amount;
                         place := place_str; description := desc_str |})
            end
        end
  end.

Definition extract_sheet (ws : sheet)
    (st : gmap string (list expense) * list message)
    : option (gmap string (list expense) * list message) :=
  let '(groups, log) := st in
  match iter_rows 1 1 ws with
  | [] => None
  | header :: _ =>
      let c := find_columns header in
      match col_day c, col_place c, col_amount c, col_description c with
      | Some i_day, Some i_place, Some i_amount, Some i_description =>
          let '(groups', count) :=
            scan_rows
              (extract_row (sheet_name ws) c i_day i_place i_amount
                 i_description)
              (iter_rows 2 1000 ws) groups in
          Some (groups',
                log ++ [Processing (sheet_name ws); Extracted count])
      | _, _, _, _ => Some (groups, log ++ [SkippedSheet (sheet_name ws)])
      end
  end.

Fixpoint extract_sheets (sheets : list sheet)
    (st : gmap string (list expense) * list message)
    : option (gmap string (list expense) * list message) :=
  match sheets with
  | [] => Some st
  | ws :: rest =>
      match extract_sheet ws st with
      | Some st' => extract_sheets rest st'
      | None => None
      end
  end.

Definition month_sheets (wb : workbook) : list sheet :=
  List.filter (fun ws => is_month_sheet (sheet_name ws)) wb.

Definition collect (wb : workbook)
    : option (gmap string (list expense) * list message) :=
  extract_sheets (month_sheets wb) (∅, []).

Definition extract_expenses (wb : workbook)
    : option (gmap string (list expense) * list message) :=
  match collect wb with
  | Some (groups, log) => Some (sort_by_date <$> groups, log)
  | None => None
  end.

Definition csv_header : list string :=
  ["日付"; "カテゴリ"; "金額"; "場所"; "商品名・メモ"].

Definition csv_row (e : expense) : list string :=
  [date e; category e; str_int (amount e); place e; description e].

Definition save_to_csv (expenses : list expense) (output_file : string)
    (files : file_store) : file_store :=
  <[output_file := csv_header :: List.map csv_row expenses]> files.

Definition output_dir : string := "/Users/runa/kakeibo-app".

(** [f"{output_dir}/imported_data_{year}.csv"]; the year is a text
    here. *)
Definition output_file (year : string) : string :=
  output_dir +:+ "/imported_data_" +:+ year +:+ ".csv".

(** [year_month.split('-')[0]] *)
Definition year_of_key (year_month : string) : string :=
  List.hd EmptyString (split "-" year_month).

(** The first loop of [main]: the months of one year are joined, in the
    order in which the dict hands its items over:
    [expenses_by_year[year].extend(expenses)]. *)
Definition join_years (items : list (string * list expense))
    : gmap string (list expense) :=
  fold_left
    (fun by_year item =>
       let year := year_of_key (fst item) in
       <[year := default [] (by_year !! year) ++ snd item]> by_year)
    items ∅.

(** [sorted(expenses_by_year.keys())] for years that are texts *)
Definition sorted_names (expenses_by_year : gmap string (list expense))
    : list string :=
  merge_sort string_le
    (List.map fst (map_to_list expenses_by_year)).

(** One turn of the second loop of [main]: the records of the year are
    sorted by date, written and counted. *)
Definition save_year (expenses_by_year : gmap string (list expense))
    (st : file_store * list (string * nat) * nat) (year : string)
    : file_store * list (string * nat) * nat :=
  let '(files, printed, total_count) := st in
  let expenses := sort_by_date (default [] (expenses_by_year !! year)) in
  (save_to_csv expenses (output_file year) files,
   printed ++ [(year, length expenses)],
   (total_count + length expenses)%nat).

(** The two loops of [main], for the items of the dict in the order
    [items]. *)
Definition main_from (items : list (string * list expense))
    (files : file_store)
    : file_store * outcome (list (string * nat) * nat) :=
  let expenses_by_year := join_years items in
  let '(files', printed, total_count) :=
    fold_left (save_year expenses_by_year)
      (sorted_names expenses_by_year) (files, [], 0%nat) in
  (files', Done (printed, total_count)).

(** A Python dict hands its items over in the order in which the keys
    were inserted.  The map of the model keeps no such order: [main]
    takes the items as [map_to_list] lists them, and [main_from] is
    there for any other order. *)
Definition main (wb : workbook) (files : file_store)
    : file_store * outcome (list (string * nat) * nat) :=
  match extract_expenses wb with
  | None => (files, Failed)
  | Some (expenses_by_year_month, _) =>
      if bool_decide (expenses_by_year_month = ∅) then (files, NoData)
      else main_from (map_to_list expenses_by_year_month) files
  end.

End Script.
End Preserve.

(** * convert_excel_with_subcategories.py *)
Module Subcat.
Section Script.
Context `{PyLib}.

Definition find_columns (header_row : row) : columns :=
  scan_header
    (fun i cell_str c =>
       match basic_column i cell_str c with
       | Some c' => c'
       | None =>
           if mem_string cell_str main_categories
           then add_category i cell_str c
           else if contains "内訳" cell_str
           then add_subcategory (remove "内訳" cell_str) i c
           else c
       end)
    0%nat header_row no_columns.

(** The first loop of [extract_category_and_subcategory]: the name of
    the column at which it breaks and the stripped text of its cell, or
    [None] when it runs to its end. *)
Fixpoint find_category (r : row) (category_columns : list (nat * string))
    : option (string * string) :=
  match category_columns with
  | [] => None
  | (idx, name) :: rest =>
      let value := cell_at r idx in
      if is_not_none value
         && truthy value
         && negb (String.eqb (strip (str value)) EmptyString)
      then Some (name, strip (str value))
      else find_category r rest
  end.

(** [s.replace('.', '').replace('-', '').isdigit()] *)
Definition numeric_text (s : string) : bool :=
  isdigit (remove "-" (remove "." s)).

(** [s.replace('.', '').replace('-', '').replace(':', '')
      .replace(' ', '').isdigit()] *)
Definition numeric_or_time_text (s : string) : bool :=
  isdigit (remove " " (remove ":" (remove "-" (remove "." s)))).

Definition extract_category_and_subcategory (r : row)
    (category_columns : list (nat * string))
    (subcategory_columns : gmap string nat) : string * string :=
  let '(main_category, cat_column_value) :=
    match find_category r category_columns with
    | Some (name, text) => (name, Some text)
    | None => ("その他", None)
    end in
  let subcategory :=
    match cat_column_value with
    | Some text =>
        if negb (String.eqb text EmptyString) && negb (numeric_text text)
        then text
        else EmptyString
    | None => EmptyString
    end in
  let subcategory :=
    if negb (String.eqb main_category "その他") then
      match subcategory_columns !! main_category with
      | Some sub_idx =>
          let sub_value := cell_at r sub_idx in
          if is_not_none sub_value
             && truthy sub_value
             && negb (String.eqb (strip (str sub_value)) EmptyString)
          then
            let sub_str := strip (str sub_value) in
            if negb (numeric_or_time_text sub_str) then sub_str
            else subcategory
          else subcategory
      | None => subcategory
      end
    else subcategory in
  (main_category, subcategory).

Definition parse_date (sheet_name : string) (day : cell)
    : option (string * Z * Z) :=
  parse_date_with sheet_name day 0.

Definition extract_row (sheet_name : string) (c : columns) (i_day i_place
    i_amount i_description : nat) (r : row) : option (Z * expense) :=
  match r with
  | [] => None
  | _ =>
      let day := cell_at r i_day in
      let place := cell_at r i_place in
      let amount := cell_at r i_amount in
      let description := cell_at r i_description in
      if negb (is_number amount) || le_zero amount then None
      else if negb (is_number day) then None
      else
        match parse_date sheet_name day with
        | None => None
        | Some (date, year, month) =>
            let '(category, subcategory) :=
              extract_category_and_subcategory r (col_categories c)
                (col_subcategories c) in
            let place_str := str_or_empty place in
            let desc_str := str_or_empty description in
            match int_num amount with
            | None => None
            | Some amount =>
                Some (year,
                      {| date := date; category := category;
                         subcategory := Some subcategory; amount := amount;
                         place := place_str; description := desc_str |})
            end
        end
  end.

Definition extract_sheet (ws : sheet)
    (st : gmap Z (list expense) * list message)
    : option (gmap Z (list expense) * list message) :=
  let '(groups, log) := st in
  match iter_rows 1 1 ws with
  | [] => None
  | header :: _ =>
      let c := find_columns header in
      match col_day c, col_place c, col_amount c, col_description c with
      | Some i_day, Some i_place, Some i_amount, Some i_description =>
          let '(groups', count) :=
            scan_rows
              (extract_row (sheet_name ws) c i_day i_place i_amount
                 i_description)
              (iter_rows 2 1000 ws) groups in
          Some (groups',
                log ++ [Processing (sheet_name ws); Extracted count])
      | _, _, _, _ => Some (groups, log ++ [SkippedSheet (sheet_name ws)])
      end
  end.

Fixpoint extract_sheets (sheets : list sheet)
    (st : gmap Z (list expense) * list message)
    : option (gmap Z (list expense) * list message) :=
  match sheets with
  | [] => Some st
  | ws :: rest =>
      match extract_sheet ws st with
      | Some st' => extract_sheets rest st'
      | None => None
      end
  end.

Definition month_sheets (wb : workbook) : list sheet :=
  List.filter (fun ws => is_month_sheet (sheet_name ws)) wb.

Definition collect (wb : workbook)
    : option (gmap Z (list expense) * list message) :=
  extract_sheets (month_sheets wb) (∅, []).

Definition extract_expenses (wb : workbook)
    : option (gmap Z (list expense) * list message) :=
  match collect wb with
  | Some (groups, log) => Some (sort_by_date <$> groups, log)
  | None => None
  end.

Definition csv_header : list string :=
  ["日付"; "カテゴリ"; "小項目"; "金額"; "場所"; "商品名・メモ"].

(** One row of the file; [None] is the [KeyError] of a record without
    the key ['subcategory']. *)
Definition csv_row (e : expense) : option (list string) :=
  match subcategory e with
  | Some sub =>
      Some [date e; category e; sub; str_int (amount e); place e;
            description e]
  | None => None
  end.

(** The rows written for a list of records, up to the first record that
    raises, and whether the loop came to its end. *)
Fixpoint csv_rows (expenses : list expense) : list (list string) * bool :=
  match expenses with
  | [] => ([], true)
  | e :: rest =>
      match csv_row e with
      | Some r => let '(rows, ok) := csv_rows rest in (r :: rows, ok)
      | None => ([], false)
      end
  end.

(** The file after [save_to_csv], and whether it returned. *)
Definition save_to_csv (expenses : list expense) (output_file : string)
    (files : file_store) : file_store * bool :=
  let '(rows, ok) := csv_rows expenses in
  (<[output_file := csv_header :: rows]> files, ok).

Definition output_dir : string := "/Users/runa/kakeibo-app".

(** [f"{output_dir}/imported_data_{year}.csv"] *)
Definition output_file (year : Z) : string :=
  output_dir +:+ "/imported_data_" +:+ str_int year +:+ ".csv".

(** One turn of the loop over the years in [main]: the records of the
    year are sorted again and written; the last component tells whether
    the loop is still running ([false] after an exception). *)
Definition save_year (expenses_by_year : gmap Z (list expense))
    (st : file_store * list (Z * nat) * nat * bool) (year : Z)
    : file_store * list (Z * nat) * nat * bool :=
  let '(files, printed, total_count, running) := st in
  if running then
    let expenses := sort_by_date (default [] (expenses_by_year !! year)) in
    let '(files', returned) :=
      save_to_csv expenses (output_file year) files in
    if returned
    then (files', printed ++ [(year, length expenses)],
          (total_count + length expenses)%nat, true)
    else (files', printed, total_count, false)
  else st.

Definition main (wb : workbook) (files : file_store)
    : file_store * outcome (list (Z * nat) * nat) :=
  match extract_expenses wb with
  | None => (files, Failed)
  | Some (expenses_by_year, _) =>
      if bool_decide (expenses_by_year = ∅) then (files, NoData)
      else
        let '(files', printed, total_count, running) :=
          fold_left (save_year expenses_by_year)
            (sorted_years expenses_by_year) (files, [], 0%nat, true) in
        if running then (files', Done (printed, total_count))
        else (files', Failed)
  end.

End Script.
End Subcat.

(** * Notions that the properties are stated with *)

(** A day that exists in the calendar. *)
Definition valid_date (y m d : Z) : Prop :=
  1 <= y /\ 1 <= m <= 12 /\ 1 <= d <= days_in_month y m.

(** The record [e] carries the date that the sheet name [YY.MM] and the
    day cell give: a numeric day that truncates into 1..31 and exists in
    month [MM] of the year [2000 + YY]. *)
Definition dated_validly (sheet_name : string) (day : cell) (e : expense)
    : Prop :=
  exists g1 g2 yy mm dd,
    re_match_period sheet_name = Some (g1, g2)
    /\ int_str g1 = Some yy /\ int_str g2 = Some mm
    /\ is_number day = true
    /\ int_num day = Some dd
    /\ 1 <= dd <= 31
    /\ valid_date (2000 + yy) mm dd
    /\ date e = date_string (2000 + yy) mm dd.

(** The stored amount [a] comes from the raw cell value [v]: a number
    above zero, truncated. *)
Definition positive_raw (v : cell) (a : Z) : Prop :=
  is_number v = true /\ le_zero v = false /\ int_num v = Some a.

(** A sheet cut after its first [n] rows. *)
Definition first_rows (n : nat) (ws : sheet) : sheet :=
  {| sheet_name := sheet_name ws; sheet_rows := firstn n (sheet_rows ws) |}.

Section Notions.
Context `{PyLib}.

(** The keyword classifier as an ordered list of (keywords, label) pairs,
    tried from the top; the first pair with a keyword in the text gives
    the label. *)
Definition priority_groups : list (list string * string) :=
  [(Final.fixed_cost_words, "固定費");
   (Final.communication_words, "固定費");
   (Final.utility_words, "光熱費");
   (Final.leisure_words, "娯楽費");
   (Final.transport_words, "交通費");
   (Final.medical_words, "医療費")].

(** The same for the tables of [convert_excel_split.py], which
    [convert_excel.py] shares. *)
Definition split_priority_groups : list (list string * string) :=
  [(Split.fixed_cost_words, "固定費");
   (Split.communication_words, "固定費");
   (Split.utility_words, "光熱費");
   (Split.leisure_words, "娯楽費");
   (Split.transport_words, "交通費");
   (Split.medical_words, "医療費")].

Fixpoint first_label (groups : list (list string * string)) (text : string)
    (default : string) : string :=
  match groups with
  | [] => default
  | (words, label) :: rest =>
      if any_in words text then label else first_label rest text default
  end.

(** A blank cell: no value, or a text that is empty once stripped. *)
Definition blank (v : cell) : bool :=
  match v with
  | CNone => true
  | _ => String.eqb (strip (str v)) EmptyString
  end.

(** The test that the structured classifiers apply to a cell:
    [v is not None], [v] truthy, and [str(v).strip()] non-empty. *)
Definition counts_as_value (v : cell) : bool :=
  is_not_none v && truthy v
  && negb (String.eqb (strip (str v)) EmptyString).

(** The subcategory as the specification words it: the stripped text of
    the breakdown cell registered for the main category when that cell is
    neither blank nor purely numeric, and the empty string otherwise. *)
Definition claimed_subcategory (r : row) (main_category : string)
    (subcategory_columns : gmap string nat) : string :=
  match subcategory_columns !! main_category with
  | Some sub_idx =>
      let sub_str := strip (str (cell_at r sub_idx)) in
      if negb (blank (cell_at r sub_idx))
         && negb (Subcat.numeric_or_time_text sub_str)
      then sub_str
      else EmptyString
  | None => EmptyString
  end.

End Notions.


(** The record [e] was made from a day cell and an amount cell that
    passed the checks of the loop body. *)
Definition row_facts (sheet_name : string) (day amount_cell : cell)
    (e : expense) : Prop :=
  positive_raw amount_cell (amount e)
  /\ exists y m, parse_date_with sheet_name day 0 = Some (date e, y, m).

Section GroupNotions.
Context `{Countable K}.

(** Every record of every group satisfies [P]. *)
Definition groups_all (P : expense -> Prop) (g : gmap K (list expense)) : Prop :=
  forall k l, g !! k = Some l -> Forall P l.

End GroupNotions.

(** The sheet [ws] with the rows [extra] after its own. *)
Definition with_more_rows (ws : sheet) (extra : list row) : sheet :=
  {| sheet_name := sheet_name ws; sheet_rows := sheet_rows ws ++ extra |}.

(** * Sample data *)

(** A sheet in the layout of the ledger: the header and two data rows,
    the second with an amount of one half. *)
Definition sample_header : row :=
  [CStr "日"; CStr "場所"; CStr "価格"; CStr "商品名"].

Definition sample_sheet : sheet :=
  {| sheet_name := "24.06";
     sheet_rows :=
       [sample_header;
        [CInt 15; CStr "SuperMart"; CInt 1200; CStr "groceries"];
        [CInt 3; CStr "Kiosk"; CFloat (Finite (1 # 2)); CStr "candy"]] |}.

Definition half_record : expense :=
  {| date := "2024-06-03"; category := "食費"; subcategory := None;
     amount := 0; place := "Kiosk"; description := "candy" |}.


(** A later month sheet with one record. *)
Definition later_sheet : sheet :=
  {| sheet_name := "24.08";
     sheet_rows :=
       [sample_header;
        [CInt 2; CStr "Bakery"; CInt 480; CStr "bread"]] |}.

(** A sheet of 1000 rows: the header, one record, and empty rows. *)
Definition full_sheet : sheet :=
  {| sheet_name := "24.06";
     sheet_rows :=
       sample_header
       :: [CInt 15; CStr "SuperMart"; CInt 1200; CStr "groceries"]
       :: repeat [] 998 |}.

(** A sheet of 1000 empty rows. *)
Definition blank_sheet : sheet :=
  {| sheet_name := "24.06"; sheet_rows := repeat [] 1000 |}.


(** * Notions for the further properties *)

(** The position of the first, and of the last, element that satisfies
    [p]. *)
Fixpoint first_index {A} (p : A -> bool) (l : list A) : option nat :=
  match l with
  | [] => None
  | x :: rest => if p x then Some 0%nat else option_map S (first_index p rest)
  end.

Fixpoint last_index {A} (p : A -> bool) (l : list A) : option nat :=
  match l with
  | [] => None
  | x :: rest =>
      match last_index p rest with
      | Some j => Some (S j)
      | None => if p x then Some 0%nat else None
      end
  end.

(** What a header cell is recognised as. *)
Inductive field : Type :=
| FDay
| FPlace
| FAmount
| FDescription.

Definition field_eqb (a b : field) : bool :=
  match a, b with
  | FDay, FDay | FPlace, FPlace | FAmount, FAmount
  | FDescription, FDescription => true
  | _, _ => false
  end.

Section HeaderNotions.
Context `{PyLib}.

(** The conditions of the [if]/[elif] chain of [find_columns], on the
    stripped text of a header cell. *)
Definition is_day_label (cell_str : string) : bool :=
  String.eqb "日" cell_str || contains "day" (lower cell_str).

Definition is_place_label (cell_str : string) : bool :=
  contains "場所" cell_str || contains "place" (lower cell_str).

Definition is_amount_label (cell_str : string) : bool :=
  contains "価格" cell_str || contains "金額" cell_str
  || contains "price" (lower cell_str).

Definition is_description_label (cell_str : string) : bool :=
  contains "商品" cell_str || contains "item" (lower cell_str).

(** The branch of the chain that a header cell takes: none for a falsy
    cell and for a text that matches none of the four conditions. *)
Definition label_field (cell_str : string) : option field :=
  if is_day_label cell_str then Some FDay
  else if is_place_label cell_str then Some FPlace
  else if is_amount_label cell_str then Some FAmount
  else if is_description_label cell_str then Some FDescription
  else None.

Definition header_field (v : cell) : option field :=
  if truthy v then label_field (strip (str v)) else None.

Definition has_field (f : field) (v : cell) : bool :=
  match header_field v with
  | Some f' => field_eqb f f'
  | None => false
  end.

(** A header cell that names a main category, and one that names a
    breakdown column. *)
Definition is_category_cell (v : cell) : bool :=
  truthy v
  && match label_field (strip (str v)) with
     | Some _ => false
     | None => mem_string (strip (str v)) main_categories
     end.


End HeaderNotions.

Section HeaderCells.
Context `{PyLib}.

(** The category columns of a header, from position [i] on: the
    position and the stripped text of every cell that names a main
    category, from left to right. *)
Fixpoint category_cells_from (i : nat) (header_row : row)
    : list (nat * string) :=
  match header_row with
  | [] => []
  | v :: rest =>
      if is_category_cell v
      then (i, strip (str v)) :: category_cells_from (S i) rest
      else category_cells_from (S i) rest
  end.


End HeaderCells.

Section HeaderTurns.
Context `{PyLib}.

(** How one turn of the loop of [find_columns] changes the four basic
    fields: the first day column stays, the other three fields take the
    latest column. *)
Definition basic_turn (step : nat -> string -> columns -> columns) : Prop :=
  forall i s c,
    col_day (step i s c)
    = match label_field s, col_day c with
      | Some FDay, None => Some i
      | _, d => d
      end
    /\ col_place (step i s c)
       = match label_field s with
         | Some FPlace => Some i
         | _ => col_place c
         end
    /\ col_amount (step i s c)
       = match label_field s with
         | Some FAmount => Some i
         | _ => col_amount c
         end
    /\ col_description (step i s c)
       = match label_field s with
         | Some FDescription => Some i
         | _ => col_description c
         end.

End HeaderTurns.

(** The labels that the keyword classifier gives, and those that the
    structured classifiers give for the headers they accept. *)
Definition keyword_labels : list string :=
  ["固定費"; "光熱費"; "娯楽費"; "交通費"; "医療費"; "食費"].

Definition structured_labels : list string :=
  main_categories ++ ["その他"].

(** The date of [e] is a day of the year [year]; the date of [e] is a day
    of the month that the key ["YYYY-MM"] names. *)
Definition dated_in_year (year : Z) (e : expense) : Prop :=
  exists m d,
    2000 <= year <= 9999 /\ valid_date year m d
    /\ date e = date_string year m d.

Definition dated_in_month (key : string) (e : expense) : Prop :=
  exists y m d,
    2000 <= y <= 9999 /\ valid_date y m d
    /\ key = str_int y +:+ "-" +:+ fmt_0d 2 m
    /\ date e = key +:+ "-" +:+ fmt_0d 2 d.

Section KeyedGroups.
Context `{Countable K}.

(** Every record of the group of a key [k] satisfies [P k]. *)
Definition groups_keyed (P : K -> expense -> Prop)
    (g : gmap K (list expense)) : Prop :=
  forall k l, g !! k = Some l -> Forall (P k) l.

End KeyedGroups.

(** The number of records in all groups, and the sum of the counts that
    the sheets report. *)
Definition total_records `{Countable K} (g : gmap K (list expense)) : nat :=
  sum_list (List.map (fun kl => length (snd kl)) (map_to_list g)).

Fixpoint extracted_total (log : list message) : nat :=
  match log with
  | [] => 0
  | Extracted count :: rest => count + extracted_total rest
  | _ :: rest => extracted_total rest
  end.

(** The rows that a loop body accepts. *)
Definition accepted {A} (body : row -> option A) (rows : list row)
    : list row :=
  List.filter (fun r => match body r with Some _ => true | None => false end)
    rows.

(** The keywords that [convert_excel_final.py] adds to the tables of
    [convert_excel_split.py]: three for the fixed costs, one for the
    transport. *)
Definition added_fixed_cost_keywords : list string :=
  ["ネオファースト"; "ドコモ"; "netflix"].

Definition added_transport_keyword : string := "etc".

(** A record with another category. *)
Definition with_category (c : string) (e : expense) : expense :=
  {| date := date e; category := c; subcategory := subcategory e;
     amount := amount e; place := place e; description := description e |}.

(** The calendar order of two days, as a comparison. *)
Definition compare_days (y1 m1 d1 y2 m2 d2 : Z) : comparison :=
  match y1 ?= y2 with
  | Eq => match m1 ?= m2 with
          | Eq => d1 ?= d2
          | c => c
          end
  | c => c
  end.

Definition comparison_eqb (a b : comparison) : bool :=
  match a, b with
  | Eq, Eq | Lt, Lt | Gt, Gt => true
  | _, _ => false
  end.

(** The files after a run of [main] that writes one file per year:
    the file of each year holds the header and the rows of the records
    of that year, in their order, and no other file is touched. *)
Definition year_files (path : Z -> string) (header : list string)
    (row : expense -> list string) (g : gmap Z (list expense))
    (files files' : file_store) : Prop :=
  (forall year l,
      g !! year = Some l ->
      files' !! path year = Some (header :: List.map row l))
  /\ (forall p,
      (forall year, is_Some (g !! year) -> p <> path year) ->
      files' !! p = files !! p).

(** The counts that [main] prints: one line per year, in ascending order
    of the years, with the number of records of the year. *)
Definition year_counts (g : gmap Z (list expense))
    (printed : list (Z * nat)) : Prop :=
  StronglySorted Z.le (List.map fst printed)
  /\ NoDup (List.map fst printed)
  /\ forall y n,
      In (y, n) printed <-> exists l, g !! y = Some l /\ n = length l.

(** The number of the records of one category. *)
Definition count_category (cat : string) (expenses : list expense) : nat :=
  length (List.filter (fun e => String.eqb (category e) cat) expenses).

(** The six fields of a row of [convert_excel_with_subcategories.py],
    for a record that has its sub-category. *)
Definition six_fields (e : expense) : list string :=
  [date e; category e; default EmptyString (subcategory e);
   str_int (amount e); place e; description e].

(** The records of the months of one year, month after month in the
    order of the items. *)
Definition months_of (year : string) (items : list (string * list expense))
    : list expense :=
  concat
    (List.map snd
       (List.filter
          (fun item => String.eqb (Preserve.year_of_key (fst item)) year)
          items)).

(** * Proofs *)

#[local] Arguments String.append !s1 s2 : simpl nomatch.

(** ** Decimal numerals: what formatting and parsing do to each other *)

Lemma uint_of_char_digit a d u :
  uint_of_char a d = Some u -> is_digit_char a = true.
Proof.
  destruct d as [d|]; [|discriminate].
  destruct a as [[] [] [] [] [] [] [] []]; simpl; try discriminate; reflexivity.
Qed.

Lemma uint_of_string_all_digits s u :
  NilEmpty.uint_of_string s = Some u -> all_digits s = true.
Proof.
  revert u. induction s as [|a s IH]; intros u Hu; [reflexivity|].
  simpl in Hu. simpl.
  destruct (NilEmpty.uint_of_string s) as [d|] eqn:Hd.
  - rewrite (uint_of_char_digit _ _ _ Hu). simpl. eapply IH. reflexivity.
  - destruct a as [[] [] [] [] [] [] [] []]; discriminate.
Qed.

Lemma str_int_nonneg n :
  0 <= n ->
  exists u, NilEmpty.uint_of_string (str_int n) = Some u /\ Z.of_uint u = n
            /\ str_int n <> EmptyString.
Proof.
  intros Hn. unfold str_int.
  pose proof (DecimalZ.of_to n) as Hof.
  destruct n as [|p|p]; [| |lia].
  - exists (Decimal.D0 Decimal.Nil). repeat split; discriminate.
  - simpl in *. exists (Pos.to_uint p).
    unfold NilZero.string_of_uint.
    destruct (Pos.to_uint p) eqn:E;
      try (split; [apply NilEmpty.usu | split; [exact Hof | discriminate]]).
    discriminate Hof.
Qed.

Lemma uint_of_string_zeros k s :
  NilEmpty.uint_of_string (zeros k +:+ s)
  = option_map (Nat.iter k Decimal.D0) (NilEmpty.uint_of_string s).
Proof.
  induction k as [|k IH]; simpl.
  - destruct (NilEmpty.uint_of_string s); reflexivity.
  - rewrite IH. destruct (NilEmpty.uint_of_string s); reflexivity.
Qed.

Lemma of_uint_zeros k u : Z.of_uint (Nat.iter k Decimal.D0 u) = Z.of_uint u.
Proof. induction k as [|k IH]; [reflexivity|]. simpl. exact IH. Qed.

Lemma append_empty_inv a b : a +:+ b = EmptyString -> b = EmptyString.
Proof. destruct a; simpl; [tauto | discriminate]. Qed.

(** Parsing a padded numeral gives the number back. *)
Lemma int_str_fmt_0d w n : 0 <= n -> int_str (fmt_0d w n) = Some n.
Proof.
  intros Hn. destruct (str_int_nonneg n Hn) as (u & Hu & Hv & Hne).
  unfold int_str, fmt_0d.
  destruct (zeros _ +:+ str_int n) eqn:E.
  - apply append_empty_inv in E. contradiction.
  - rewrite <- E, uint_of_string_zeros, Hu. simpl.
    now rewrite of_uint_zeros, Hv.
Qed.

Lemma all_digits_app a b :
  all_digits (a +:+ b) = all_digits a && all_digits b.
Proof.
  induction a as [|c a IH]; simpl; [reflexivity|].
  rewrite IH. now rewrite andb_assoc.
Qed.

Lemma all_digits_zeros k : all_digits (zeros k) = true.
Proof. induction k; simpl; auto. Qed.

Lemma all_digits_fmt_0d w n : 0 <= n -> all_digits (fmt_0d w n) = true.
Proof.
  intros Hn. destruct (str_int_nonneg n Hn) as (u & Hu & _).
  unfold fmt_0d. rewrite all_digits_app, all_digits_zeros.
  simpl. eapply uint_of_string_all_digits, Hu.
Qed.

Lemma fmt_0d_signed_nonneg w n : 0 <= n -> fmt_0d_signed w n = fmt_0d w n.
Proof.
  intros Hn. unfold fmt_0d_signed.
  destruct (n <? 0) eqn:E; [apply Z.ltb_lt in E; lia | reflexivity].
Qed.

(** ** Splitting at hyphens *)

Lemma split_nonempty sep s : split sep s <> [].
Proof.
  destruct s as [|c s]; simpl; [discriminate|].
  destruct (Ascii.eqb c sep); [discriminate|].
  destruct (split sep s); discriminate.
Qed.

Lemma split_digits_then s rest :
  all_digits s = true ->
  split "-" (s +:+ String "-" rest) = s :: split "-" rest.
Proof.
  induction s as [|c s IH]; intros Hs; simpl.
  - reflexivity.
  - simpl in Hs. apply andb_true_iff in Hs as [Hc Hs].
    destruct (Ascii.eqb c "-") eqn:E.
    + apply Ascii.eqb_eq in E. subst c. discriminate Hc.
    + rewrite (IH Hs). reflexivity.
Qed.

Lemma split_digits s : all_digits s = true -> split "-" s = [s].
Proof.
  induction s as [|c s IH]; intros Hs; simpl.
  - reflexivity.
  - simpl in Hs. apply andb_true_iff in Hs as [Hc Hs].
    destruct (Ascii.eqb c "-") eqn:E.
    + apply Ascii.eqb_eq in E. subst c. discriminate Hc.
    + rewrite (IH Hs). reflexivity.
Qed.

(** ** What a successful [strptime] and [parse_date] tell *)

Lemma int_str_nonneg s n : int_str s = Some n -> 0 <= n.
Proof.
  unfold int_str. destruct s; [discriminate|].
  destruct (NilEmpty.uint_of_string _); [|discriminate].
  simpl. intros [= <-]. unfold Z.of_uint. lia.
Qed.

Lemma day_token_digits s :
  all_digits s = true ->
  day_token s
  = if (String.length s <=? 2)%nat
    then match int_str s with
         | Some d => if (1 <=? d) && (d <=? 31) then Some d else None
         | None => None
         end
    else None.
Proof.
  intros Hs. unfold day_token.
  destruct s as [|c s]; [reflexivity|].
  simpl in Hs. apply andb_true_iff in Hs as [Hc _].
  destruct c as [[] [] [] [] [] [] [] []]; try discriminate Hc;
    destruct (String.length _ <=? 2)%nat; try reflexivity;
    destruct (int_str _) as [d|]; try reflexivity;
    destruct ((1 <=? d) && (d <=? 31)); reflexivity.
Qed.

Lemma split_date_string y m d :
  0 <= y -> 0 <= m -> 0 <= d ->
  split "-" (date_string y m d) = [fmt_0d 4 y; fmt_0d 2 m; fmt_0d 2 d].
Proof.
  intros Hy Hm Hd. unfold date_string.
  rewrite !fmt_0d_signed_nonneg by assumption.
  simpl.
  rewrite split_digits_then by now apply all_digits_fmt_0d.
  rewrite split_digits_then by now apply all_digits_fmt_0d.
  rewrite split_digits by now apply all_digits_fmt_0d.
  reflexivity.
Qed.

Lemma strptime_date_string y m d t :
  0 <= y -> 0 <= m -> 0 <= d ->
  strptime_ymd (date_string y m d) = Some t ->
  1 <= y /\ 1 <= m <= 12 /\ 1 <= d <= days_in_month y m.
Proof.
  intros Hy Hm Hd. unfold strptime_ymd.
  rewrite split_date_string by assumption.
  unfold year_token, month_token.
  rewrite day_token_digits by now apply all_digits_fmt_0d.
  rewrite !int_str_fmt_0d by assumption.
  destruct (String.length (fmt_0d 4 y) =? 4)%nat; [|discriminate].
  destruct (String.length (fmt_0d 2 m) <=? 2)%nat; [|discriminate].
  destruct ((1 <=? m) && (m <=? 12)) eqn:Em; [|discriminate].
  destruct (String.length (fmt_0d 2 d) <=? 2)%nat; [|discriminate].
  destruct ((1 <=? d) && (d <=? 31)) eqn:Ed; [|discriminate].
  destruct ((1 <=? y) && (d <=? days_in_month y m)) eqn:Ey; [|discriminate].
  intros _. lia.
Qed.

Lemma year_of_date_string y m d :
  0 <= y -> 0 <= m -> 0 <= d -> year_of_date (date_string y m d) = Some y.
Proof.
  intros Hy Hm Hd. unfold year_of_date.
  rewrite split_date_string by assumption.
  now apply int_str_fmt_0d.
Qed.

(** A date comes out of [parse_date] only for a sheet name [YY.MM...], a
    numeric day that truncates into 1..31, and a day that exists in
    month [MM] of the year [2000 + YY]. *)
Lemma parse_date_with_inv sheet_name day t :
  parse_date_with sheet_name day 0 = Some t ->
  exists g1 g2 yy mm dd,
    re_match_period sheet_name = Some (g1, g2)
    /\ int_str g1 = Some yy /\ int_str g2 = Some mm
    /\ is_number day = true /\ int_num day = Some dd
    /\ 1 <= dd <= 31
    /\ 1 <= mm <= 12 /\ dd <= days_in_month (2000 + yy) mm
    /\ t = (date_string (2000 + yy) mm dd, 2000 + yy, mm).
Proof.
  unfold parse_date_with.
  destruct (re_match_period sheet_name) as [[g1 g2]|]; [|discriminate].
  destruct (int_str g1) as [yy|] eqn:Hy; [|discriminate].
  destruct (int_str g2) as [mm|] eqn:Hm; [|discriminate].
  destruct (is_number day) eqn:Hnum; [|discriminate]. simpl.
  destruct (int_num day) as [dd|] eqn:Hd; [|discriminate].
  destruct ((dd <? 1) || (dd >? 31)) eqn:Hrange; [discriminate|].
  destruct (strptime_ymd _) as [t'|] eqn:Hp; [|discriminate].
  intros [= <-].
  apply int_str_nonneg in Hy as Hy0. apply int_str_nonneg in Hm as Hm0.
  replace (2000 + yy + 0) with (2000 + yy) in * by lia.
  apply strptime_date_string in Hp; [|lia..].
  exists g1, g2, yy, mm, dd. repeat split; try easy; lia.
Qed.

(** ** The stable sort by date *)

Lemma string_leb_refl s : String.leb s s = true.
Proof. destruct (String.leb_total s s); assumption. Qed.

Lemma string_leb_iff a b :
  String.leb a b = true <-> a = b \/ OrderedTypeEx.String_as_OT.lt a b.
Proof.
  unfold String.leb.
  pose proof (OrderedTypeEx.String_as_OT.cmp_lt a b) as Hlt.
  pose proof (OrderedTypeEx.String_as_OT.cmp_eq a b) as Heq.
  unfold OrderedTypeEx.String_as_OT.cmp in *.
  destruct (String.compare a b); split; intros Hx; try reflexivity.
  - left. now apply Heq.
  - right. now apply Hlt.
  - discriminate.
  - destruct Hx as [Hx|Hx]; [apply Heq in Hx | apply Hlt in Hx]; discriminate.
Qed.

Lemma string_leb_trans a b c :
  String.leb a b = true -> String.leb b c = true -> String.leb a c = true.
Proof.
  rewrite !string_leb_iff. intros [->|Hab] [->|Hbc]; auto.
  right. eapply OrderedTypeEx.String_as_OT.lt_trans; eassumption.
Qed.

Lemma date_le_trans e1 e2 e3 : date_le e1 e2 -> date_le e2 e3 -> date_le e1 e3.
Proof. apply string_leb_trans. Qed.

Lemma insert_by_date_perm e l : Permutation (insert_by_date e l) (e :: l).
Proof.
  induction l as [|x l IH]; simpl; [reflexivity|].
  destruct (String.leb (date e) (date x)); [reflexivity|].
  rewrite IH. apply perm_swap.
Qed.

Lemma sort_by_date_perm l : Permutation (sort_by_date l) l.
Proof.
  induction l as [|e l IH]; simpl; [reflexivity|].
  rewrite insert_by_date_perm. now constructor.
Qed.

Lemma insert_by_date_sorted e l :
  StronglySorted date_le l -> StronglySorted date_le (insert_by_date e l).
Proof.
  induction 1 as [|x l Hl IH Hx]; simpl.
  - repeat constructor.
  - destruct (String.leb (date e) (date x)) eqn:E.
    + constructor; [now constructor|].
      constructor; [exact E|].
      eapply Forall_impl; [exact Hx|].
      intros y Hy. eapply date_le_trans; [exact E | exact Hy].
    + constructor; [exact IH|].
      rewrite (insert_by_date_perm e l). constructor; [|exact Hx].
      destruct (String.leb_total (date e) (date x)) as [Hc|Hc];
        [congruence | exact Hc].
Qed.

Lemma sort_by_date_sorted l : StronglySorted date_le (sort_by_date l).
Proof.
  induction l as [|e l IH]; simpl; [constructor|].
  now apply insert_by_date_sorted.
Qed.

(** A sorted list is left as it is. *)
Lemma sort_by_date_fixpoint l :
  StronglySorted date_le l -> sort_by_date l = l.
Proof.
  induction 1 as [|x l Hl IH Hx]; simpl; [reflexivity|].
  rewrite IH. destruct l as [|y l]; [reflexivity|]. simpl.
  apply Forall_inv in Hx. unfold date_le in Hx. now rewrite Hx.
Qed.

Lemma sort_by_date_idempotent l :
  sort_by_date (sort_by_date l) = sort_by_date l.
Proof. apply sort_by_date_fixpoint, sort_by_date_sorted. Qed.

(** Stability: the records of one date keep their order. *)
Lemma insert_by_date_same_date d e l :
  List.filter (same_date d) (insert_by_date e l)
  = List.filter (same_date d) (e :: l).
Proof.
  induction l as [|x l IH]; [reflexivity|].
  cbn [insert_by_date].
  destruct (String.leb (date e) (date x)) eqn:E; [reflexivity|].
  cbn [List.filter] in *. rewrite IH.
  unfold same_date.
  destruct (String.eqb (date x) d) eqn:Ex; [|reflexivity].
  destruct (String.eqb (date e) d) eqn:Ee; [|reflexivity].
  apply String.eqb_eq in Ex, Ee.
  rewrite Ex, Ee, string_leb_refl in E. discriminate.
Qed.

Lemma sort_by_date_stable d l :
  List.filter (same_date d) (sort_by_date l) = List.filter (same_date d) l.
Proof.
  induction l as [|e l IH]; [reflexivity|].
  cbn [sort_by_date]. rewrite insert_by_date_same_date.
  cbn [List.filter]. now rewrite IH.
Qed.

(** ** Groups of records *)

Section Groups.
Context `{Countable K}.

Lemma groups_all_empty P : groups_all P (∅ : gmap K (list expense)).
Proof. intros k l Hk. rewrite lookup_empty in Hk. discriminate. Qed.

Lemma groups_all_append P k e (g : gmap K (list expense)) :
  P e -> groups_all P g -> groups_all P (group_append k e g).
Proof.
  intros He Hg k' l. unfold group_append.
  destruct (decide (k = k')) as [->|Hne].
  - rewrite lookup_insert_eq. intros [= <-].
    apply Forall_app. split; [|now repeat constructor].
    destruct (g !! k') as [l0|] eqn:E; simpl; [now apply (Hg k')|constructor].
  - rewrite lookup_insert_ne by assumption. apply Hg.
Qed.

Lemma scan_rows_step (body : row -> option (K * expense)) rows g n :
  fold_left
    (fun '(g, count) r =>
       match body r with
       | Some (key, e) => (group_append key e g, S count)
       | None => (g, count)
       end)
    rows (g, n)
  = (fst (scan_rows body rows g), (n + snd (scan_rows body rows g))%nat).
Proof.
  unfold scan_rows. revert g n.
  induction rows as [|r rows IH]; intros g n; simpl.
  - f_equal. lia.
  - destruct (body r) as [[k e]|].
    + rewrite (IH _ (S n)), (IH _ 1%nat). simpl. f_equal. lia.
    + rewrite (IH _ n), (IH _ 0%nat). reflexivity.
Qed.

Lemma scan_rows_nil (body : row -> option (K * expense)) g :
  scan_rows body [] g = (g, 0%nat).
Proof. reflexivity. Qed.

Lemma scan_rows_cons (body : row -> option (K * expense)) r rows g :
  fst (scan_rows body (r :: rows) g)
  = fst (scan_rows body rows
           (match body r with
            | Some (key, e) => group_append key e g
            | None => g
            end)).
Proof.
  unfold scan_rows at 1. simpl.
  destruct (body r) as [[k e]|]; now rewrite scan_rows_step.
Qed.

Lemma scan_rows_all P (body : row -> option (K * expense)) rows g :
  (forall r k e, body r = Some (k, e) -> P e) ->
  groups_all P g -> groups_all P (fst (scan_rows body rows g)).
Proof.
  intros Hbody. revert g.
  induction rows as [|r rows IH]; intros g Hg; [exact Hg|].
  rewrite scan_rows_cons. apply IH.
  destruct (body r) as [[k e]|] eqn:E; [|exact Hg].
  apply groups_all_append; [eapply Hbody, E | exact Hg].
Qed.

(** Rows that the body passes over leave the groups as they are. *)
Lemma scan_rows_none (body : row -> option (K * expense)) rows g :
  (forall r, body r = None) -> scan_rows body rows g = (g, 0%nat).
Proof.
  intros Hnone. unfold scan_rows.
  induction rows as [|r rows IH]; simpl; [reflexivity|].
  now rewrite Hnone.
Qed.

Lemma groups_all_sorted P (g : gmap K (list expense)) :
  groups_all P g -> groups_all P (sort_by_date <$> g).
Proof.
  intros Hg k l. rewrite lookup_fmap.
  destruct (g !! k) as [l0|] eqn:E; simpl; [|discriminate].
  intros [= <-]. rewrite sort_by_date_perm. now apply (Hg k).
Qed.

End Groups.

(** ** What an accepted row tells *)

Section Rows.
Context `{PyLib}.

Lemma amount_checks v :
  negb (is_number v) || le_zero v = false ->
  is_number v = true /\ le_zero v = false.
Proof.
  intros Hv. apply orb_false_iff in Hv as [Hn Hz].
  apply negb_false_iff in Hn. now split.
Qed.

Lemma final_extract_row_facts sheet_name i_day i_place i_amount
    i_description r key e :
  Final.extract_row sheet_name i_day i_place i_amount i_description r
  = Some (key, e) ->
  row_facts sheet_name (cell_at r i_day) (cell_at r i_amount) e.
Proof.
  unfold Final.extract_row, Final.parse_date.
  destruct r as [|c r]; [discriminate|].
  set (row := c :: r).
  destruct (negb (is_number (cell_at row i_amount)) || le_zero _) eqn:Ha;
    [discriminate|].
  apply amount_checks in Ha as [Hnum Hpos].
  destruct (negb (is_number (cell_at row i_day))); [discriminate|].
  destruct (parse_date_with _ _ 0) as [[[ds y] m]|] eqn:Hd; [|discriminate].
  destruct (year_of_date ds); [|discriminate].
  destruct (int_num (cell_at row i_amount)) eqn:Hi; [|discriminate].
  intros [= <- <-]. simpl. split; [now repeat split | eauto].
Qed.

Lemma split_extract_row_facts sheet_name r key e :
  Split.extract_row sheet_name r = Some (key, e) ->
  row_facts sheet_name (cell_at r 3) (cell_at r 6) e.
Proof.
  unfold Split.extract_row, Split.parse_date.
  destruct r as [|c r]; [discriminate|].
  set (row := c :: r).
  destruct (length row <? 8)%nat; [discriminate|].
  destruct (negb (is_number (cell_at row 6)) || le_zero _) eqn:Ha;
    [discriminate|].
  apply amount_checks in Ha as [Hnum Hpos].
  destruct (negb (is_number (cell_at row 3))); [discriminate|].
  destruct (parse_date_with _ _ 0) as [[[ds y] m]|] eqn:Hd; [|discriminate].
  destruct (year_of_date ds); [|discriminate].
  destruct (int_num (cell_at row 6)) eqn:Hi; [|discriminate].
  intros [= <- <-]. simpl. split; [now repeat split | eauto].
Qed.

Lemma basic_extract_row_facts sheet_name r e :
  Basic.extract_row sheet_name r = Some e ->
  row_facts sheet_name (cell_at r 3) (cell_at r 6) e.
Proof.
  unfold Basic.extract_row, Basic.parse_date.
  destruct r as [|c r]; [discriminate|].
  set (row := c :: r).
  destruct (length row <? 8)%nat; [discriminate|].
  destruct (negb (is_number (cell_at row 6)) || le_zero _) eqn:Ha;
    [discriminate|].
  apply amount_checks in Ha as [Hnum Hpos].
  destruct (truthy (cell_at row 5) && is_str _); [|discriminate].
  destruct (parse_date_with _ _ 0) as [[[ds y] m]|] eqn:Hd; [|discriminate].
  destruct (int_num (cell_at row 6)) eqn:Hi; [|discriminate].
  intros [= <-]. simpl. split; [now repeat split | eauto].
Qed.

Lemma preserve_extract_row_facts sheet_name c i_day i_place i_amount
    i_description r key e :
  Preserve.extract_row sheet_name c i_day i_place i_amount i_description r
  = Some (key, e) ->
  row_facts sheet_name (cell_at r i_day) (cell_at r i_amount) e.
Proof.
  unfold Preserve.extract_row, Preserve.parse_date.
  destruct r as [|c0 r]; [discriminate|].
  set (row := c0 :: r).
  destruct (negb (is_number (cell_at row i_amount)) || le_zero _) eqn:Ha;
    [discriminate|].
  apply amount_checks in Ha as [Hnum Hpos].
  destruct (negb (is_number (cell_at row i_day))); [discriminate|].
  destruct (parse_date_with _ _ 0) as [[[ds y] m]|] eqn:Hd; [|discriminate].
  destruct (int_num (cell_at row i_amount)) eqn:Hi; [|discriminate].
  intros [= <- <-]. simpl. split; [now repeat split | eauto].
Qed.

Lemma subcat_extract_row_facts sheet_name c i_day i_place i_amount
    i_description r key e :
  Subcat.extract_row sheet_name c i_day i_place i_amount i_description r
  = Some (key, e) ->
  row_facts sheet_name (cell_at r i_day) (cell_at r i_amount) e.
Proof.
  unfold Subcat.extract_row, Subcat.parse_date.
  destruct r as [|c0 r]; [discriminate|].
  set (row := c0 :: r).
  destruct (negb (is_number (cell_at row i_amount)) || le_zero _) eqn:Ha;
    [discriminate|].
  apply amount_checks in Ha as [Hnum Hpos].
  destruct (negb (is_number (cell_at row i_day))); [discriminate|].
  destruct (parse_date_with _ _ 0) as [[[ds y] m]|] eqn:Hd; [|discriminate].
  destruct (Subcat.extract_category_and_subcategory _ _ _) as [cat sub].
  destruct (int_num (cell_at row i_amount)) eqn:Hi; [|discriminate].
  intros [= <- <-]. simpl. split; [now repeat split | eauto].
Qed.

End Rows.


(** ** From the rows to the whole run *)

Section Runs.
Context `{PyLib}.
Variable P : expense -> Prop.

Ltac sheet_step Hbody Hg :=
  match goal with
  | |- context [scan_rows ?body ?rows ?g] =>
      let E := fresh "E" in
      let gs := fresh "gs" in
      let n := fresh "n" in
      destruct (scan_rows body rows g) as [gs n] eqn:E;
      intros [= <- <-];
      change gs with (fst (gs, n)); rewrite <- E;
      apply scan_rows_all; [intros ? ? ?; apply Hbody | exact Hg]
  end.

Lemma final_extract_sheets_all sheets g log g' log' :
  (forall s d p a ds r k e,
      Final.extract_row s d p a ds r = Some (k, e) -> P e) ->
  groups_all P g ->
  Final.extract_sheets sheets (g, log) = Some (g', log') ->
  groups_all P g'.
Proof.
  intros Hbody. revert g log.
  induction sheets as [|ws sheets IH]; intros g log Hg;
    cbn [Final.extract_sheets].
  - now intros [= <- <-].
  - destruct (Final.extract_sheet ws (g, log)) as [[g1 log1]|] eqn:E;
      [|discriminate].
    apply IH. revert E. unfold Final.extract_sheet.
    destruct (iter_rows 1 1 ws); [discriminate|]. cbv zeta.
    destruct (col_day _); [|now intros [= <- <-]].
    destruct (col_place _); [|now intros [= <- <-]].
    destruct (col_amount _); [|now intros [= <- <-]].
    destruct (col_description _); [|now intros [= <- <-]].
    sheet_step Hbody Hg.
Qed.

Lemma final_extract_expenses_all wb g log :
  (forall s d p a ds r k e,
      Final.extract_row s d p a ds r = Some (k, e) -> P e) ->
  Final.extract_expenses wb = Some (g, log) -> groups_all P g.
Proof.
  intros Hbody. unfold Final.extract_expenses, Final.collect.
  destruct (Final.extract_sheets _ _) as [[g0 log0]|] eqn:E; [|discriminate].
  intros [= <- <-]. apply groups_all_sorted.
  eapply final_extract_sheets_all; [exact Hbody | | exact E].
  apply groups_all_empty.
Qed.





Lemma split_collect_all sheets st :
  (forall s r k e, Split.extract_row s r = Some (k, e) -> P e) ->
  groups_all P (fst st) ->
  groups_all P
    (fst (fold_left (fun st ws => Split.extract_sheet ws st) sheets st)).
Proof.
  intros Hbody. revert st.
  induction sheets as [|ws sheets IH]; intros [g log] Hg; simpl; [exact Hg|].
  apply IH. simpl. apply scan_rows_all; [|exact Hg].
  intros ? ? ?. apply Hbody.
Qed.

Lemma split_extract_expenses_all wb :
  (forall s r k e, Split.extract_row s r = Some (k, e) -> P e) ->
  groups_all P (fst (Split.extract_expenses wb)).
Proof.
  intros Hbody. unfold Split.extract_expenses, Split.collect.
  pose proof (split_collect_all (Split.month_sheets wb) (∅, []) Hbody
                (groups_all_empty P)) as Hall.
  destruct (fold_left _ _ _) as [g log]. simpl in *.
  now apply groups_all_sorted.
Qed.

Lemma basic_extract_sheet_all ws acc :
  (forall s r e, Basic.extract_row s r = Some e -> P e) ->
  Forall P acc -> Forall P (Basic.extract_sheet ws acc).
Proof.
  intros Hbody. unfold Basic.extract_sheet.
  generalize (iter_rows_from 2 ws). intros rows. revert acc.
  induction rows as [|r rows IH]; intros acc Hacc; simpl; [exact Hacc|].
  apply IH. destruct (Basic.extract_row _ r) eqn:E; [|exact Hacc].
  apply Forall_app. split; [exact Hacc|].
  repeat constructor. eapply Hbody, E.
Qed.

Lemma basic_extract_expenses_all wb :
  (forall s r e, Basic.extract_row s r = Some e -> P e) ->
  Forall P (Basic.extract_expenses wb).
Proof.
  intros Hbody. unfold Basic.extract_expenses, Basic.collect.
  rewrite sort_by_date_perm.
  generalize (Basic.month_sheets wb). intros sheets.
  assert (Hnil : Forall P []) by constructor. revert Hnil.
  generalize (@nil expense).
  induction sheets as [|ws sheets IH]; intros acc Hacc; simpl; [exact Hacc|].
  apply IH. now apply basic_extract_sheet_all.
Qed.

End Runs.

(** * The claims *)


Section Claim1.
Context `{PyLib}.



End Claim1.


Section Claim2.
Context `{PyLib}.

Lemma parse_date_with_year sheet_name day date y m :
  parse_date_with sheet_name day 0 = Some (date, y, m) ->
  is_number day = true /\ year_of_date date = Some y.
Proof.
  intros E.
  apply parse_date_with_inv in E
    as (g1 & g2 & yy & mm & dd & _ & Hy & Hm & Hnum & _ & Hdd & _ & _ & Ht).
  injection Ht as -> -> _. split; [exact Hnum|].
  apply int_str_nonneg in Hy, Hm.
  apply year_of_date_string; lia.
Qed.

Lemma float_above_zero q : (0 < q)%Q -> Qle_bool q 0 = false.
Proof.
  intros Hq. destruct (Qle_bool q 0) eqn:E; [|reflexivity].
  apply Qle_bool_iff in E. exfalso. eapply Qlt_not_le; eassumption.
Qed.

Lemma trunc_floor q :
  (0 < q)%Q -> (inject_Z (trunc q) <= q /\ q < inject_Z (trunc q) + 1)%Q.
Proof.
  intros Hq. unfold trunc. destruct q as [n d]. simpl.
  assert (Hn : 0 < n) by (unfold Qlt in Hq; simpl in Hq; lia).
  rewrite Z.quot_div_nonneg by lia.
  change (n / Z.pos d) with (Qround.Qfloor (n # d)).
  split; [apply Qround.Qfloor_le|].
  pose proof (Qround.Qlt_floor (n # d)) as Hlt.
  rewrite inject_Z_plus in Hlt. exact Hlt.
Qed.

(** Rows whose raw amount is not above zero are passed over. *)
Lemma le_zero_rejected sheet_name r :
  (forall i_day i_place i_amount i_description,
      le_zero (cell_at r i_amount) = true ->
      Final.extract_row sheet_name i_day i_place i_amount i_description r
      = None)
  /\ (le_zero (cell_at r 6) = true -> Split.extract_row sheet_name r = None)
  /\ (le_zero (cell_at r 6) = true -> Basic.extract_row sheet_name r = None)
  /\ (forall c i_day i_place i_amount i_description,
      le_zero (cell_at r i_amount) = true ->
      Preserve.extract_row sheet_name c i_day i_place i_amount
        i_description r = None)
  /\ (forall c i_day i_place i_amount i_description,
      le_zero (cell_at r i_amount) = true ->
      Subcat.extract_row sheet_name c i_day i_place i_amount
        i_description r = None).
Proof.
  split; [|split; [|split; [|split]]]; intros.
  - unfold Final.extract_row. destruct r; [reflexivity|].
    match goal with Hz : le_zero _ = true |- _ =>
      now rewrite Hz, orb_true_r end.
  - unfold Split.extract_row. destruct r; [reflexivity|].
    destruct (length _ <? 8)%nat; [reflexivity|].
    match goal with Hz : le_zero _ = true |- _ =>
      now rewrite Hz, orb_true_r end.
  - unfold Basic.extract_row. destruct r; [reflexivity|].
    destruct (length _ <? 8)%nat; [reflexivity|].
    match goal with Hz : le_zero _ = true |- _ =>
      now rewrite Hz, orb_true_r end.
  - unfold Preserve.extract_row. destruct r; [reflexivity|].
    match goal with Hz : le_zero _ = true |- _ =>
      now rewrite Hz, orb_true_r end.
  - unfold Subcat.extract_row. destruct r; [reflexivity|].
    match goal with Hz : le_zero _ = true |- _ =>
      now rewrite Hz, orb_true_r end.
Qed.

(** A row with a float amount above zero and a date is accepted, and the
    amount is stored truncated. *)
Lemma final_float_accepted sheet_name i_day i_place i_amount i_description
    r q date :
  r <> [] ->
  cell_at r i_amount = CFloat (Finite q) -> (0 < q)%Q ->
  Final.parse_date sheet_name (cell_at r i_day) = Some date ->
  exists key e,
    Final.extract_row sheet_name i_day i_place i_amount i_description r
    = Some (key, e)
    /\ amount e = trunc q.
Proof.
  intros Hr Ha Hq Hd. unfold Final.extract_row.
  destruct r as [|c r]; [contradiction|].
  rewrite Hd. unfold Final.parse_date in Hd.
  destruct (parse_date_with _ _ 0) as [[[ds y] m]|] eqn:E; [|discriminate].
  injection Hd as ->.
  destruct (parse_date_with_year _ _ _ _ _ E) as [Hnum Hy].
  rewrite Ha, Hnum, Hy. simpl. rewrite (float_above_zero q Hq).
  eexists _, _. split; reflexivity.
Qed.

Lemma split_float_accepted sheet_name r q date :
  (8 <= length r)%nat ->
  cell_at r 6 = CFloat (Finite q) -> (0 < q)%Q ->
  Split.parse_date sheet_name (cell_at r 3) 0 = Some date ->
  exists key e,
    Split.extract_row sheet_name r = Some (key, e) /\ amount e = trunc q.
Proof.
  intros Hr Ha Hq Hd. unfold Split.extract_row.
  destruct r as [|c r]; [simpl in Hr; lia|].
  destruct (length (c :: r) <? 8)%nat eqn:El;
    [apply Nat.ltb_lt in El; lia|].
  rewrite Hd. unfold Split.parse_date in Hd.
  destruct (parse_date_with _ _ 0) as [[[ds y] m]|] eqn:E; [|discriminate].
  injection Hd as ->.
  destruct (parse_date_with_year _ _ _ _ _ E) as [Hnum Hy].
  rewrite Ha, Hnum, Hy. simpl. rewrite (float_above_zero q Hq).
  eexists _, _. split; reflexivity.
Qed.

Lemma basic_float_accepted sheet_name r q date :
  (8 <= length r)%nat ->
  cell_at r 6 = CFloat (Finite q) -> (0 < q)%Q ->
  truthy (cell_at r 5) && is_str (cell_at r 5) = true ->
  Basic.parse_date sheet_name (cell_at r 3) 0 = Some date ->
  exists e, Basic.extract_row sheet_name r = Some e /\ amount e = trunc q.
Proof.
  intros Hr Ha Hq Hp Hd. unfold Basic.extract_row.
  destruct r as [|c r]; [simpl in Hr; lia|].
  destruct (length (c :: r) <? 8)%nat eqn:El;
    [apply Nat.ltb_lt in El; lia|].
  rewrite Hd, Hp, Ha. simpl. rewrite (float_above_zero q Hq).
  eexists. split; reflexivity.
Qed.

Lemma preserve_float_accepted sheet_name c i_day i_place i_amount
    i_description r q t :
  r <> [] ->
  cell_at r i_amount = CFloat (Finite q) -> (0 < q)%Q ->
  Preserve.parse_date sheet_name (cell_at r i_day) = Some t ->
  exists key e,
    Preserve.extract_row sheet_name c i_day i_place i_amount i_description r
    = Some (key, e)
    /\ amount e = trunc q.
Proof.
  intros Hr Ha Hq Hd. unfold Preserve.extract_row.
  destruct r as [|c0 r]; [contradiction|].
  rewrite Hd. unfold Preserve.parse_date in Hd. destruct t as [[ds y] m].
  destruct (parse_date_with_year _ _ _ _ _ Hd) as [Hnum Hy].
  rewrite Ha, Hnum. simpl. rewrite (float_above_zero q Hq).
  eexists _, _. split; reflexivity.
Qed.

Lemma subcat_float_accepted sheet_name c i_day i_place i_amount
    i_description r q t :
  r <> [] ->
  cell_at r i_amount = CFloat (Finite q) -> (0 < q)%Q ->
  Subcat.parse_date sheet_name (cell_at r i_day) = Some t ->
  exists key e,
    Subcat.extract_row sheet_name c i_day i_place i_amount i_description r
    = Some (key, e)
    /\ amount e = trunc q.
Proof.
  intros Hr Ha Hq Hd. unfold Subcat.extract_row.
  destruct r as [|c0 r]; [contradiction|].
  rewrite Hd. unfold Subcat.parse_date in Hd. destruct t as [[ds y] m].
  destruct (parse_date_with_year _ _ _ _ _ Hd) as [Hnum Hy].
  rewrite Ha, Hnum. simpl. rewrite (float_above_zero q Hq).
  destruct (Subcat.extract_category_and_subcategory _ _ _) as [cat sub].
  eexists _, _. split; reflexivity.
Qed.

(** C2: the positivity check is applied to the raw amount, before the
    truncation.  A row whose amount is -500 or 0 is passed over (as is
    every row whose raw amount is not above zero); a row whose amount is
    a float [q > 0] is accepted whenever its date is, and the stored
    amount is [q] with its fractional part cut off, not rounded: for 0.5
    the record holds the amount 0.  The other four scripts check and
    truncate in the same order. *)
Theorem positivity_checked_before_truncation sheet_name i_day i_place
    i_amount i_description r :
  let extracted :=
    Final.extract_row sheet_name i_day i_place i_amount i_description r in
  (le_zero (cell_at r i_amount) = true -> extracted = None)
  /\ (cell_at r i_amount = CInt (-500) -> extracted = None)
  /\ (cell_at r i_amount = CInt 0 -> extracted = None)
  /\ (forall q date,
         r <> [] ->
         cell_at r i_amount = CFloat (Finite q) -> (0 < q)%Q ->
         Final.parse_date sheet_name (cell_at r i_day) = Some date ->
         exists key e,
           extracted = Some (key, e) /\ amount e = trunc q
           /\ (inject_Z (amount e) <= q /\ q < inject_Z (amount e) + 1)%Q)
  /\ (forall date,
         r <> [] ->
         cell_at r i_amount = CFloat (Finite (1 # 2)) ->
         Final.parse_date sheet_name (cell_at r i_day) = Some date ->
         exists key e, extracted = Some (key, e) /\ amount e = 0)
  /\ ((le_zero (cell_at r 6) = true -> Split.extract_row sheet_name r = None)
      /\ (le_zero (cell_at r 6) = true ->
          Basic.extract_row sheet_name r = None)
      /\ (forall c,
          le_zero (cell_at r i_amount) = true ->
          Preserve.extract_row sheet_name c i_day i_place i_amount
            i_description r = None)
      /\ (forall c,
          le_zero (cell_at r i_amount) = true ->
          Subcat.extract_row sheet_name c i_day i_place i_amount
            i_description r = None))
  /\ (forall q,
         (0 < q)%Q ->
         (forall date,
             (8 <= length r)%nat ->
             cell_at r 6 = CFloat (Finite q) ->
             Split.parse_date sheet_name (cell_at r 3) 0 = Some date ->
             exists key e,
               Split.extract_row sheet_name r = Some (key, e)
               /\ amount e = trunc q)
         /\ (forall date,
             (8 <= length r)%nat ->
             cell_at r 6 = CFloat (Finite q) ->
             truthy (cell_at r 5) && is_str (cell_at r 5) = true ->
             Basic.parse_date sheet_name (cell_at r 3) 0 = Some date ->
             exists e,
               Basic.extract_row sheet_name r = Some e /\ amount e = trunc q)
         /\ (forall c t,
             r <> [] ->
             cell_at r i_amount = CFloat (Finite q) ->
             Preserve.parse_date sheet_name (cell_at r i_day) = Some t ->
             exists key e,
               Preserve.extract_row sheet_name c i_day i_place i_amount
                 i_description r = Some (key, e)
               /\ amount e = trunc q)
         /\ (forall c t,
             r <> [] ->
             cell_at r i_amount = CFloat (Finite q) ->
             Subcat.parse_date sheet_name (cell_at r i_day) = Some t ->
             exists key e,
               Subcat.extract_row sheet_name c i_day i_place i_amount
                 i_description r = Some (key, e)
               /\ amount e = trunc q)).
Proof.
  intros extracted.
  destruct (le_zero_rejected sheet_name r)
    as (Hfinal & Hsplit & Hbasic & Hpreserve & Hsubcat).
  split; [apply Hfinal|].
  split; [intros Ha; apply Hfinal; now rewrite Ha|].
  split; [intros Ha; apply Hfinal; now rewrite Ha|].
  split; [|split; [|split]].
  - intros q date Hr Ha Hq Hd.
    destruct (final_float_accepted _ i_day i_place i_amount i_description
                _ _ _ Hr Ha Hq Hd) as (key & e & He & Hamt).
    exists key, e. rewrite Hamt. repeat split; try assumption;
      now apply trunc_floor.
  - intros date Hr Ha Hd.
    apply (final_float_accepted _ i_day i_place i_amount i_description
             _ (1 # 2) date Hr Ha eq_refl Hd).
  - split; [exact Hsplit|]. split; [exact Hbasic|].
    split; intros c; [apply Hpreserve | apply Hsubcat].
  - intros q Hq. repeat split; intros.
    + eapply split_float_accepted; eassumption.
    + eapply basic_float_accepted; eassumption.
    + eapply preserve_float_accepted; eassumption.
    + eapply subcat_float_accepted; eassumption.
Qed.

End Claim2.

Lemma positivity_checked_before_truncation_witness :
  exists key e,
    @Final.extract_row ascii_pylib "24.06" 0 1 2 3
      [CInt 3; CStr "Kiosk"; CFloat (Finite (1 # 2)); CStr "candy"]
    = Some (key, e)
    /\ amount e = 0.
Proof.
  apply (proj1 (proj2 (proj2 (proj2 (proj2
           (@positivity_checked_before_truncation ascii_pylib "24.06" 0 1 2 3
              [CInt 3; CStr "Kiosk"; CFloat (Finite (1 # 2));
               CStr "candy"])))))
           "2024-06-03").
  - discriminate.
  - reflexivity.
  - vm_compute. reflexivity.
Defined.

Section Claim3.
Context `{PyLib}.

Lemma final_extract_row_key sheet_name i_day i_place i_amount
    i_description r key e :
  Final.extract_row sheet_name i_day i_place i_amount i_description r
  = Some (key, e) ->
  year_of_date (date e) = Some key.
Proof.
  unfold Final.extract_row.
  destruct r as [|c r]; [discriminate|].
  set (row := c :: r).
  destruct (negb (is_number (cell_at row i_amount)) || le_zero _);
    [discriminate|].
  destruct (negb (is_number (cell_at row i_day))); [discriminate|].
  destruct (Final.parse_date _ _) as [ds|]; [|discriminate].
  destruct (year_of_date ds) eqn:Hy; [|discriminate].
  destruct (int_num (cell_at row i_amount)); [|discriminate].
  now intros [= <- <-].
Qed.

Lemma row_facts_dated sheet_name day v e :
  row_facts sheet_name day v e -> dated_validly sheet_name day e.
Proof.
  intros [_ (y & m & Hd)].
  apply parse_date_with_inv in Hd
    as (g1 & g2 & yy & mm & dd & Hre & Hy & Hm & Hnum & Hint & Hdd & Hmm
        & Hdim & Ht).
  injection Ht as Hdate _ _.
  exists g1, g2, yy, mm, dd.
  apply int_str_nonneg in Hy as Hy0.
  repeat split; try assumption; lia.
Qed.

Lemma dated_validly_year sheet_name day e :
  dated_validly sheet_name day e ->
  exists g1 g2 yy,
    re_match_period sheet_name = Some (g1, g2) /\ int_str g1 = Some yy
    /\ year_of_date (date e) = Some (2000 + yy).
Proof.
  intros (g1 & g2 & yy & mm & dd & Hre & Hy & Hm & _ & _ & Hdd & _ & Hdate).
  exists g1, g2, yy. split; [exact Hre|]. split; [exact Hy|].
  apply int_str_nonneg in Hy as Hy0. apply int_str_nonneg in Hm as Hm0.
  rewrite Hdate. apply year_of_date_string; lia.
Qed.

Lemma no_date_in_month_13 day e : ~ dated_validly "23.13" day e.
Proof.
  intros (g1 & g2 & yy & mm & dd & Hre & _ & Hm & _ & _ & _ & Hvalid & _).
  vm_compute in Hre. injection Hre as <- <-.
  vm_compute in Hm. injection Hm as <-.
  destruct Hvalid as (_ & Hmonth & _). lia.
Qed.

(** C3: a record is produced only when the sheet name reads [YY.MM], the
    day cell is a number that truncates to an integer of 1 to 31, and
    that day exists in month [MM] of the year [2000 + YY]; the record
    carries this date and goes to the group of that year, and the row of
    any other combination is passed over.  In a sheet named "23.13" every
    row is passed over.  The five scripts agree on this. *)
Theorem record_only_for_valid_date :
  (forall sheet_name i_day i_place i_amount i_description r key e,
      Final.extract_row sheet_name i_day i_place i_amount i_description r
      = Some (key, e) ->
      dated_validly sheet_name (cell_at r i_day) e
      /\ exists g1 g2 yy,
           re_match_period sheet_name = Some (g1, g2)
           /\ int_str g1 = Some yy /\ key = 2000 + yy)
  /\ (forall sheet_name i_day i_place i_amount i_description r g1 g2 yy mm dd,
      re_match_period sheet_name = Some (g1, g2) ->
      int_str g1 = Some yy -> int_str g2 = Some mm ->
      int_num (cell_at r i_day) = Some dd ->
      ~ valid_date (2000 + yy) mm dd ->
      Final.extract_row sheet_name i_day i_place i_amount i_description r
      = None)
  /\ (forall i_day i_place i_amount i_description r,
      Final.extract_row "23.13" i_day i_place i_amount i_description r
      = None)
  /\ (forall sheet_name r,
      (forall key e,
          Split.extract_row sheet_name r = Some (key, e) ->
          dated_validly sheet_name (cell_at r 3) e)
      /\ (forall e,
          Basic.extract_row sheet_name r = Some e ->
          dated_validly sheet_name (cell_at r 3) e)
      /\ (forall c i_day i_place i_amount i_description key e,
          Preserve.extract_row sheet_name c i_day i_place i_amount
            i_description r = Some (key, e) ->
          dated_validly sheet_name (cell_at r i_day) e)
      /\ (forall c i_day i_place i_amount i_description key e,
          Subcat.extract_row sheet_name c i_day i_place i_amount
            i_description r = Some (key, e) ->
          dated_validly sheet_name (cell_at r i_day) e))
  /\ (forall r,
      Split.extract_row "23.13" r = None
      /\ Basic.extract_row "23.13" r = None
      /\ (forall c i_day i_place i_amount i_description,
          Preserve.extract_row "23.13" c i_day i_place i_amount
            i_description r = None)
      /\ (forall c i_day i_place i_amount i_description,
          Subcat.extract_row "23.13" c i_day i_place i_amount
            i_description r = None)).
Proof.
  assert (Hfinal : forall sheet_name i_day i_place i_amount i_description r
                     key e,
      Final.extract_row sheet_name i_day i_place i_amount i_description r
      = Some (key, e) ->
      dated_validly sheet_name (cell_at r i_day) e
      /\ exists g1 g2 yy,
           re_match_period sheet_name = Some (g1, g2)
           /\ int_str g1 = Some yy /\ key = 2000 + yy).
  { intros sheet_name i_day i_place i_amount i_description r key e He.
    pose proof (final_extract_row_key _ _ _ _ _ _ _ _ He) as Hkey.
    apply final_extract_row_facts, row_facts_dated in He.
    split; [exact He|].
    destruct (dated_validly_year _ _ _ He) as (g1 & g2 & yy & Hre & Hy & Hyear).
    exists g1, g2, yy. split; [exact Hre|]. split; [exact Hy|]. congruence. }
  split; [exact Hfinal|]. split; [|split; [|split]].
  - intros sheet_name i_day i_place i_amount i_description r g1 g2 yy mm dd
      Hre Hy Hm Hint Hbad.
    destruct (Final.extract_row _ _ _ _ _ r) as [[key e]|] eqn:He;
      [|reflexivity].
    apply Hfinal in He
      as [(g1' & g2' & yy' & mm' & dd' & Hre' & Hy' & Hm' & _ & Hint' & _
           & Hvalid & _) _].
    exfalso. apply Hbad. congruence.
  - intros i_day i_place i_amount i_description r.
    destruct (Final.extract_row _ _ _ _ _ r) as [[key e]|] eqn:He;
      [|reflexivity].
    apply Hfinal in He as [He _]. now apply no_date_in_month_13 in He.
  - intros sheet_name r. repeat split; intros.
    + eapply row_facts_dated, split_extract_row_facts; eassumption.
    + eapply row_facts_dated, basic_extract_row_facts; eassumption.
    + eapply row_facts_dated, preserve_extract_row_facts; eassumption.
    + eapply row_facts_dated, subcat_extract_row_facts; eassumption.
  - intros r. repeat split; intros.
    + destruct (Split.extract_row _ r) as [[key e]|] eqn:He; [|reflexivity].
      apply split_extract_row_facts, row_facts_dated in He.
      now apply no_date_in_month_13 in He.
    + destruct (Basic.extract_row _ r) as [e|] eqn:He; [|reflexivity].
      apply basic_extract_row_facts, row_facts_dated in He.
      now apply no_date_in_month_13 in He.
    + destruct (Preserve.extract_row _ _ _ _ _ _ r) as [[key e]|] eqn:He;
        [|reflexivity].
      apply preserve_extract_row_facts, row_facts_dated in He.
      now apply no_date_in_month_13 in He.
    + destruct (Subcat.extract_row _ _ _ _ _ _ r) as [[key e]|] eqn:He;
        [|reflexivity].
      apply subcat_extract_row_facts, row_facts_dated in He.
      now apply no_date_in_month_13 in He.
Qed.

End Claim3.

Lemma record_only_for_valid_date_witness :
  dated_validly "24.06" (CInt 3) half_record
  /\ exists g1 g2 yy,
       re_match_period "24.06" = Some (g1, g2)
       /\ int_str g1 = Some yy /\ 2024 = 2000 + yy.
Proof.
  apply (proj1 (@record_only_for_valid_date ascii_pylib) "24.06"
           0%nat 1%nat 2%nat 3%nat
           [CInt 3; CStr "Kiosk"; CFloat (Finite (1 # 2)); CStr "candy"]
           2024 half_record).
  vm_compute. reflexivity.
Defined.

(** ** Sheets, one after the other *)

Lemma month_sheets_app_cons (pre post : workbook) ws :
  is_month_sheet (sheet_name ws) = true ->
  List.filter (fun ws => is_month_sheet (sheet_name ws)) (pre ++ ws :: post)
  = List.filter (fun ws => is_month_sheet (sheet_name ws)) pre
    ++ ws :: List.filter (fun ws => is_month_sheet (sheet_name ws)) post.
Proof.
  intros Hm. rewrite List.filter_app. simpl. now rewrite Hm.
Qed.




Ltac sheets_app_proof :=
  intros a; induction a as [|ws a IH]; intros b st; simpl;
  [ reflexivity
  | match goal with
    | |- context [match ?x with Some _ => _ | None => _ end] =>
        destruct x; [apply IH | reflexivity]
    end ].

Section Sheets.
Context `{PyLib}.



Lemma final_extract_sheets_app a : forall b st,
  Final.extract_sheets (a ++ b) st
  = match Final.extract_sheets a st with
    | Some st' => Final.extract_sheets b st'
    | None => None
    end.
Proof. revert a. sheets_app_proof. Qed.



Lemma preserve_extract_sheets_app a : forall b st,
  Preserve.extract_sheets (a ++ b) st
  = match Preserve.extract_sheets a st with
    | Some st' => Preserve.extract_sheets b st'
    | None => None
    end.
Proof. revert a. sheets_app_proof. Qed.



Lemma subcat_extract_sheets_app a : forall b st,
  Subcat.extract_sheets (a ++ b) st
  = match Subcat.extract_sheets a st with
    | Some st' => Subcat.extract_sheets b st'
    | None => None
    end.
Proof. revert a. sheets_app_proof. Qed.

End Sheets.

Section Claim4.
Context `{PyLib}.








End Claim4.


Section Claim5.
Context `{PyLib}.

(** C5: the keyword classifier tests the six keyword groups in their
    fixed order (fixed cost, communications folded into fixed cost,
    utilities, leisure, transport, medical) over the lower-cased text
    "place description"; the first group with a keyword in the text gives
    the category, so a text with a fixed-cost keyword is fixed cost also
    when it holds a leisure keyword, and a text with no keyword of any
    group is food.  The classifiers of [convert_excel_split.py] and
    [convert_excel.py] do the same over their own tables. *)
Theorem categorize_item_first_group_wins (place description : cell) :
  let text := Final.item_text place description in
  text = lower (str (or_empty place) +:+ " " +:+ str (or_empty description))
  /\ Final.categorize_item place description
     = first_label priority_groups text "食費"
  /\ (any_in Final.fixed_cost_words text = true ->
      any_in Final.leisure_words text = true ->
      Final.categorize_item place description = "固定費")
  /\ (forallb (fun group => negb (any_in (fst group) text)) priority_groups
      = true ->
      Final.categorize_item place description = "食費")
  /\ Split.categorize_item place description
     = first_label split_priority_groups text "食費"
  /\ Basic.categorize_item place description
     = first_label split_priority_groups text "食費".
Proof.
  intros text. split; [reflexivity|].
  assert (Heq : Final.categorize_item place description
                = first_label priority_groups text "食費") by reflexivity.
  split; [exact Heq|]. split; [|split; [|split; reflexivity]].
  - intros Hfixed _. unfold Final.categorize_item. fold text.
    now rewrite Hfixed.
  - intros Hnone. rewrite Heq. simpl in Hnone. simpl.
    repeat match type of Hnone with
      | negb ?b && _ = true =>
          let Hb := fresh in
          apply andb_true_iff in Hnone as [Hb Hnone];
          apply negb_true_iff in Hb; rewrite Hb
      end.
    reflexivity.
Qed.

End Claim5.

Lemma categorize_item_first_group_wins_witness :
  @Final.categorize_item ascii_pylib (CStr "AIG Insurance") (CStr "ジム 月会費")
  = "固定費".
Proof.
  apply (proj1 (proj2 (proj2
           (@categorize_item_first_group_wins ascii_pylib
              (CStr "AIG Insurance") (CStr "ジム 月会費")))));
    vm_compute; reflexivity.
Defined.

Section Claim6.
Context `{PyLib}.

(** What the two structured classifiers compute: the label of the first
    category column whose cell passes [counts_as_value], and the default
    label when no cell does. *)
Lemma extract_category_first_value r before idx name after :
  Forall (fun c => counts_as_value (cell_at r (fst c)) = false) before ->
  counts_as_value (cell_at r idx) = true ->
  Preserve.extract_category r (before ++ (idx, name) :: after) = name
  /\ Subcat.find_category r (before ++ (idx, name) :: after)
     = Some (name, strip (str (cell_at r idx))).
Proof.
  unfold counts_as_value. intros Hbefore Hidx.
  induction Hbefore as [|[i n] before Hi _ IH]; simpl.
  - now rewrite Hidx.
  - simpl in Hi. now rewrite Hi.
Qed.

Lemma extract_category_default r cols :
  Forall (fun c => counts_as_value (cell_at r (fst c)) = false) cols ->
  Preserve.extract_category r cols = "その他"
  /\ Subcat.find_category r cols = None.
Proof.
  unfold counts_as_value. intros Hcols.
  induction Hcols as [|[i n] cols Hi _ IH]; simpl; [now split|].
  simpl in Hi. now rewrite Hi.
Qed.

(** On a cell that is no zero number, no [False] and no falsy object,
    the test of the code is the test for a cell that is not blank. *)
Lemma counts_as_value_not_blank v :
  match v with
  | CInt n => n <> 0
  | CFloat (Finite q) => ~ (q == 0)%Q
  | CBool b => b = true
  | COther truth _ => truth = true
  | _ => True
  end ->
  counts_as_value v = negb (blank v).
Proof.
  unfold counts_as_value, blank.
  destruct v as [|s|n|[q| | |]|b|t s]; simpl; intros Hv; try reflexivity.
  - destruct (String.eqb s EmptyString) eqn:E.
    + apply String.eqb_eq in E. subst s. reflexivity.
    + reflexivity.
  - destruct (n =? 0) eqn:E; [apply Z.eqb_eq in E; contradiction|].
    reflexivity.
  - destruct (Qeq_bool q 0) eqn:E; [apply Qeq_bool_iff in E; contradiction|].
    reflexivity.
  - now subst b.
  - now subst t.
Qed.

(** C6 (the code departs from it): a category cell that holds the number
    0 is not blank, yet [if value and ...] treats it as if it were.  With
    0 under the first category column and a text under the second, both
    structured classifiers return the label of the second column; with
    0 under the only category column they return the default label. *)
Theorem zero_cell_passed_over :
  blank (CInt 0) = false
  /\ Preserve.extract_category [CInt 0; CStr "x"]
       [(0%nat, "食品"); (1%nat, "日用品")] = "日用品"
  /\ fst (Subcat.extract_category_and_subcategory [CInt 0; CStr "x"]
            [(0%nat, "食品"); (1%nat, "日用品")] ∅) = "日用品"
  /\ Preserve.extract_category [CInt 0] [(0%nat, "食品")] = "その他"
  /\ fst (Subcat.extract_category_and_subcategory [CInt 0]
            [(0%nat, "食品")] ∅) = "その他".
Proof. repeat split. Qed.

End Claim6.

(** C7, as stated, fails: with the text "野菜" under the category column
    食品 and no breakdown column at all, the subcategory is "野菜" (the
    first of the two methods of the source takes the text of the category
    cell itself), not the empty string. *)
Lemma subcategory_from_category_cell_counterexample :
  @Subcat.extract_category_and_subcategory ascii_pylib
    [CStr "野菜"] [(0%nat, "食品")] ∅
  = ("食品", "野菜")
  /\ @claimed_subcategory ascii_pylib [CStr "野菜"] "食品" ∅ = EmptyString
  /\ snd (@Subcat.extract_category_and_subcategory ascii_pylib
            [CStr "野菜"] [(0%nat, "食品")] ∅)
     <> @claimed_subcategory ascii_pylib [CStr "野菜"] "食品" ∅.
Proof.
  split; [vm_compute; reflexivity|].
  split; [vm_compute; reflexivity|].
  vm_compute. discriminate.
Qed.

Section Claim7.
Context `{PyLib}.

Lemma find_category_text r cats name text :
  Subcat.find_category r cats = Some (name, text) ->
  String.eqb text EmptyString = false.
Proof.
  induction cats as [|[idx n] cats IH]; simpl; [discriminate|].
  destruct (is_not_none _ && truthy _ && negb _) eqn:E; [|exact IH].
  intros [= <- <-]. apply andb_true_iff in E as [_ E].
  now apply negb_true_iff in E.
Qed.

(** C7 (amended): the subcategory is the stripped text of the breakdown
    cell registered for the resolved main category (a column found, not
    the default label) when that cell holds a truthy value whose stripped
    text is not empty and not numeric (digits once '.', '-', ':' and
    spaces are removed); otherwise it is the stripped text of the matched
    category cell itself when that text is not numeric (digits once '.'
    and '-' are removed); otherwise it is the empty string. *)
Theorem subcategory_sources (r : row) (category_columns : list (nat * string))
    (subcategory_columns : gmap string nat) :
  let found := Subcat.find_category r category_columns in
  let main_category :=
    match found with
    | Some (name, _) => name
    | None => "その他"
    end in
  let from_breakdown :=
    if String.eqb main_category "その他" then None
    else
      match subcategory_columns !! main_category with
      | Some sub_idx =>
          let sub_str := strip (str (cell_at r sub_idx)) in
          if counts_as_value (cell_at r sub_idx)
             && negb (Subcat.numeric_or_time_text sub_str)
          then Some sub_str
          else None
      | None => None
      end in
  let from_category_cell :=
    match found with
    | Some (_, text) =>
        if Subcat.numeric_text text then None else Some text
    | None => None
    end in
  Subcat.extract_category_and_subcategory r category_columns
    subcategory_columns
  = (main_category,
     match from_breakdown, from_category_cell with
     | Some sub_str, _ => sub_str
     | None, Some text => text
     | None, None => EmptyString
     end).
Proof.
  cbv zeta. unfold Subcat.extract_category_and_subcategory, counts_as_value.
  destruct (Subcat.find_category r category_columns) as [[name text]|] eqn:E.
  - rewrite (find_category_text _ _ _ _ E). simpl.
    destruct (String.eqb name "その他"); simpl.
    + destruct (Subcat.numeric_text text); reflexivity.
    + destruct (subcategory_columns !! name) as [sub_idx|];
        [|destruct (Subcat.numeric_text text); reflexivity].
      destruct (is_not_none _ && truthy _ && negb _); simpl;
        [|destruct (Subcat.numeric_text text); reflexivity].
      destruct (Subcat.numeric_or_time_text _); simpl;
        destruct (Subcat.numeric_text text); reflexivity.
  - reflexivity.
Qed.

End Claim7.

(** ** The groups after the final sort *)

Lemma sort_by_date_sorted_stably l0 : sorted_stably (sort_by_date l0) l0.
Proof.
  split; [apply sort_by_date_sorted|].
  split; [apply sort_by_date_perm|].
  intros d. apply sort_by_date_stable.
Qed.


Section Claim8.
Context `{PyLib}.


End Claim8.


(** ** The row limit *)

Lemma iter_rows_first_rows lo ws :
  (1 <= lo)%nat ->
  iter_rows lo 1000 (first_rows 1000 ws) = iter_rows lo 1000 ws.
Proof.
  intros Hlo. unfold iter_rows, first_rows. simpl sheet_rows.
  rewrite List.skipn_firstn_comm, List.firstn_firstn.
  f_equal. lia.
Qed.

Lemma header_first_rows ws :
  iter_rows 1 1 (first_rows 1000 ws) = iter_rows 1 1 ws.
Proof.
  unfold iter_rows, first_rows. simpl sheet_rows.
  change (skipn (1 - 1)) with (fun l : list row => l). cbv beta.
  rewrite List.firstn_firstn. reflexivity.
Qed.

Lemma month_sheets_first_rows (wb : workbook) :
  List.filter (fun ws => is_month_sheet (sheet_name ws))
    (List.map (first_rows 1000) wb)
  = List.map (first_rows 1000)
      (List.filter (fun ws => is_month_sheet (sheet_name ws)) wb).
Proof.
  induction wb as [|ws wb IH]; simpl; [reflexivity|].
  destruct (is_month_sheet (sheet_name ws)); simpl; now rewrite IH.
Qed.

Lemma first_rows_with_more_rows ws extra :
  (1000 <= length (sheet_rows ws))%nat ->
  first_rows 1000 (with_more_rows ws extra) = first_rows 1000 ws.
Proof.
  intros Hlen. unfold first_rows, with_more_rows. simpl. f_equal.
  rewrite List.firstn_app.
  replace (1000 - length (sheet_rows ws))%nat with 0%nat by lia.
  simpl. apply app_nil_r.
Qed.

(** C9, as stated, fails in [convert_excel.py], which calls
    [iter_rows(min_row=2)] with no [max_row]: after 1000 empty rows, the
    row at position 1001 gives a record. *)
Lemma row_1001_extracted_counterexample :
  length (sheet_rows blank_sheet) = 1000%nat
  /\ @Basic.extract_expenses ascii_pylib [blank_sheet] = []
  /\ @Basic.extract_expenses ascii_pylib
       [with_more_rows blank_sheet
          [[CNone; CNone; CNone; CInt 3; CNone; CStr "Kiosk"; CInt 300;
            CStr "candy"]]]
     = [{| date := "2024-06-03"; category := "食費"; subcategory := None;
           amount := 300; place := "Kiosk"; description := "candy" |}].
Proof. repeat split; vm_compute; reflexivity. Qed.

Section Claim9.
Context `{PyLib}.

Lemma final_first_rows wb :
  Final.extract_expenses (List.map (first_rows 1000) wb)
  = Final.extract_expenses wb.
Proof.
  unfold Final.extract_expenses, Final.collect, Final.month_sheets.
  rewrite month_sheets_first_rows.
  generalize (List.filter (fun ws => is_month_sheet (sheet_name ws)) wb).
  intros sheets. generalize (∅ : gmap Z (list expense), @nil message).
  induction sheets as [|ws sheets IH]; intros st; [reflexivity|].
  assert (Hsheet : Final.extract_sheet (first_rows 1000 ws) st
                   = Final.extract_sheet ws st).
  { unfold Final.extract_sheet.
    now rewrite header_first_rows, iter_rows_first_rows by lia. }
  assert (Hstep : forall st0,
             match Final.extract_sheets (List.map (first_rows 1000) sheets) st0
             with
             | Some (groups, log) => Some (sort_by_date <$> groups, log)
             | None => None
             end
             = match Final.extract_sheets sheets st0 with
               | Some (groups, log) => Some (sort_by_date <$> groups, log)
               | None => None
               end) by exact IH.
  simpl. rewrite Hsheet.
  destruct (Final.extract_sheet ws st); [apply Hstep | reflexivity].
Qed.

Lemma preserve_first_rows wb :
  Preserve.extract_expenses (List.map (first_rows 1000) wb)
  = Preserve.extract_expenses wb.
Proof.
  unfold Preserve.extract_expenses, Preserve.collect, Preserve.month_sheets.
  rewrite month_sheets_first_rows.
  generalize (List.filter (fun ws => is_month_sheet (sheet_name ws)) wb).
  intros sheets. generalize (∅ : gmap string (list expense), @nil message).
  induction sheets as [|ws sheets IH]; intros st; [reflexivity|].
  assert (Hsheet : Preserve.extract_sheet (first_rows 1000 ws) st
                   = Preserve.extract_sheet ws st).
  { unfold Preserve.extract_sheet.
    now rewrite header_first_rows, iter_rows_first_rows by lia. }
  simpl. rewrite Hsheet.
  destruct (Preserve.extract_sheet ws st); [apply IH | reflexivity].
Qed.

Lemma subcat_first_rows wb :
  Subcat.extract_expenses (List.map (first_rows 1000) wb)
  = Subcat.extract_expenses wb.
Proof.
  unfold Subcat.extract_expenses, Subcat.collect, Subcat.month_sheets.
  rewrite month_sheets_first_rows.
  generalize (List.filter (fun ws => is_month_sheet (sheet_name ws)) wb).
  intros sheets. generalize (∅ : gmap Z (list expense), @nil message).
  induction sheets as [|ws sheets IH]; intros st; [reflexivity|].
  assert (Hsheet : Subcat.extract_sheet (first_rows 1000 ws) st
                   = Subcat.extract_sheet ws st).
  { unfold Subcat.extract_sheet.
    now rewrite header_first_rows, iter_rows_first_rows by lia. }
  simpl. rewrite Hsheet.
  destruct (Subcat.extract_sheet ws st); [apply IH | reflexivity].
Qed.

Lemma split_first_rows wb :
  Split.extract_expenses (List.map (first_rows 1000) wb)
  = Split.extract_expenses wb.
Proof.
  unfold Split.extract_expenses, Split.collect, Split.month_sheets.
  rewrite month_sheets_first_rows.
  generalize (List.filter (fun ws => is_month_sheet (sheet_name ws)) wb).
  intros sheets. generalize (∅ : gmap Z (list expense), @nil message).
  induction sheets as [|ws sheets IH]; intros st; [reflexivity|].
  assert (Hsheet : Split.extract_sheet (first_rows 1000 ws) st
                   = Split.extract_sheet ws st).
  { unfold Split.extract_sheet.
    now rewrite iter_rows_first_rows by lia. }
  simpl. rewrite Hsheet. apply IH.
Qed.

Lemma map_first_rows_more pre ws post extra :
  (1000 <= length (sheet_rows ws))%nat ->
  List.map (first_rows 1000) (pre ++ with_more_rows ws extra :: post)
  = List.map (first_rows 1000) (pre ++ ws :: post).
Proof.
  intros Hlen. rewrite !List.map_app. simpl.
  now rewrite first_rows_with_more_rows.
Qed.

(** C9 (amended): in the four scripts that scan with [max_row=1000] (the
    final, the split, the category-preserving and the subcategory
    script) the run depends on the first 1000 rows of each sheet only: it
    is the run over the workbook with every sheet cut after row 1000, the
    first row being the header and the rows 2 to 1000 the data.  Rows
    that come after row 1000 of a sheet add no record, whatever they
    hold. *)
Theorem rows_after_1000_ignored :
  (forall wb,
      Final.extract_expenses (List.map (first_rows 1000) wb)
      = Final.extract_expenses wb
      /\ Split.extract_expenses (List.map (first_rows 1000) wb)
         = Split.extract_expenses wb
      /\ Subcat.extract_expenses (List.map (first_rows 1000) wb)
         = Subcat.extract_expenses wb
      /\ Preserve.extract_expenses (List.map (first_rows 1000) wb)
         = Preserve.extract_expenses wb)
  /\ (forall ws,
      iter_rows 2 1000 ws = firstn 999 (skipn 1 (sheet_rows ws)))
  /\ (forall pre ws post extra,
      (1000 <= length (sheet_rows ws))%nat ->
      Final.extract_expenses (pre ++ with_more_rows ws extra :: post)
      = Final.extract_expenses (pre ++ ws :: post)
      /\ Split.extract_expenses (pre ++ with_more_rows ws extra :: post)
         = Split.extract_expenses (pre ++ ws :: post)
      /\ Subcat.extract_expenses (pre ++ with_more_rows ws extra :: post)
         = Subcat.extract_expenses (pre ++ ws :: post)
      /\ Preserve.extract_expenses (pre ++ with_more_rows ws extra :: post)
         = Preserve.extract_expenses (pre ++ ws :: post)).
Proof.
  split; [|split].
  - intros wb. split; [apply final_first_rows|].
    split; [apply split_first_rows|].
    split; [apply subcat_first_rows | apply preserve_first_rows].
  - reflexivity.
  - intros pre ws post extra Hlen.
    pose proof (map_first_rows_more pre ws post extra Hlen) as Hmap.
    rewrite <- (final_first_rows (pre ++ with_more_rows ws extra :: post)),
      <- (final_first_rows (pre ++ ws :: post)),
      <- (split_first_rows (pre ++ with_more_rows ws extra :: post)),
      <- (split_first_rows (pre ++ ws :: post)),
      <- (subcat_first_rows (pre ++ with_more_rows ws extra :: post)),
      <- (subcat_first_rows (pre ++ ws :: post)),
      <- (preserve_first_rows (pre ++ with_more_rows ws extra :: post)),
      <- (preserve_first_rows (pre ++ ws :: post)).
    rewrite Hmap. repeat split.
Qed.

End Claim9.

Lemma rows_after_1000_ignored_witness :
  @Final.extract_expenses ascii_pylib
    ([] ++ with_more_rows full_sheet
             [[CInt 3; CStr "Kiosk"; CInt 300; CStr "candy"]] :: [])
  = @Final.extract_expenses ascii_pylib ([] ++ full_sheet :: []).
Proof.
  apply (proj2 (proj2 (@rows_after_1000_ignored ascii_pylib))
           [] full_sheet []
           [[CInt 3; CStr "Kiosk"; CInt 300; CStr "candy"]]).
  apply Nat.leb_le. vm_compute. reflexivity.
Defined.

Section Claim10.
Context `{PyLib}.

(** C10: a row whose amount cell holds a text, also a text that spells a
    number such as "1200", yields no record in any of the five scripts:
    the check [isinstance(amount, (int, float))] fails and the row is
    passed over; the text is never parsed. *)
Theorem text_amount_rejected (sheet_name text : string) (r : row) :
  (forall i_day i_place i_amount i_description,
      cell_at r i_amount = CStr text ->
      Final.extract_row sheet_name i_day i_place i_amount i_description r
      = None)
  /\ (cell_at r 6 = CStr text -> Split.extract_row sheet_name r = None)
  /\ (cell_at r 6 = CStr text -> Basic.extract_row sheet_name r = None)
  /\ (forall c i_day i_place i_amount i_description,
      cell_at r i_amount = CStr text ->
      Preserve.extract_row sheet_name c i_day i_place i_amount
        i_description r = None)
  /\ (forall c i_day i_place i_amount i_description,
      cell_at r i_amount = CStr text ->
      Subcat.extract_row sheet_name c i_day i_place i_amount
        i_description r = None).
Proof.
  split; [|split; [|split; [|split]]]; intros.
  - unfold Final.extract_row. destruct r; [reflexivity|].
    match goal with Ha : cell_at _ _ = _ |- _ => now rewrite Ha end.
  - unfold Split.extract_row. destruct r; [reflexivity|].
    destruct (length _ <? 8)%nat; [reflexivity|].
    match goal with Ha : cell_at _ _ = _ |- _ => now rewrite Ha end.
  - unfold Basic.extract_row. destruct r; [reflexivity|].
    destruct (length _ <? 8)%nat; [reflexivity|].
    match goal with Ha : cell_at _ _ = _ |- _ => now rewrite Ha end.
  - unfold Preserve.extract_row. destruct r; [reflexivity|].
    match goal with Ha : cell_at _ _ = _ |- _ => now rewrite Ha end.
  - unfold Subcat.extract_row. destruct r; [reflexivity|].
    match goal with Ha : cell_at _ _ = _ |- _ => now rewrite Ha end.
Qed.

End Claim10.

Lemma text_amount_rejected_witness :
  @Final.extract_row ascii_pylib "24.06" 0 1 2 3
    [CInt 15; CStr "SuperMart"; CStr "1200"; CStr "groceries"]
  = None.
Proof.
  apply (proj1 (@text_amount_rejected ascii_pylib "24.06" "1200"
                  [CInt 15; CStr "SuperMart"; CStr "1200"; CStr "groceries"])
           0%nat 1%nat 2%nat 3%nat).
  reflexivity.
Defined.

(** * Further properties of the scripts *)

(** ** Which sheets take part in a run *)


Section OtherSheets.
Context `{PyLib}.

Lemma split_fold_groups sheets g log1 log2 :
  fst (fold_left (fun st ws => Split.extract_sheet ws st) sheets (g, log1))
  = fst (fold_left (fun st ws => Split.extract_sheet ws st) sheets (g, log2)).
Proof.
  revert g log1 log2.
  induction sheets as [|s sheets IH]; intros g log1 log2; [reflexivity|].
  cbn [fold_left]. unfold Split.extract_sheet at 2 4. apply IH.
Qed.


(** X2: A month sheet for which the workbook serves no first row makes the
    scripts that read a header fail: [list(...)[0]] raises, nothing in
    [extract_expenses] handles it, and no groups come back, whatever the
    other sheets hold.  The two scripts with fixed columns read no
    header and go on. *)
Theorem sheet_without_rows_fails (pre post : workbook) (ws : sheet) :
  is_month_sheet (sheet_name ws) = true ->
  sheet_rows ws = [] ->
  Final.extract_expenses (pre ++ ws :: post) = None
  /\ Preserve.extract_expenses (pre ++ ws :: post) = None
  /\ Subcat.extract_expenses (pre ++ ws :: post) = None
  /\ fst (Split.extract_expenses (pre ++ ws :: post))
     = fst (Split.extract_expenses (pre ++ post))
  /\ Basic.extract_expenses (pre ++ ws :: post)
     = Basic.extract_expenses (pre ++ post).
Proof.
  intros Hm Hrows.
  assert (Hhead : iter_rows 1 1 ws = []).
  { unfold iter_rows. now rewrite Hrows. }
  split; [|split; [|split; [|split]]].
  - unfold Final.extract_expenses, Final.collect, Final.month_sheets.
    rewrite month_sheets_app_cons, final_extract_sheets_app by assumption.
    destruct (Final.extract_sheets _ (∅, [])) as [[g log]|]; [|reflexivity].
    cbn [Final.extract_sheets]. unfold Final.extract_sheet.
    now rewrite Hhead.
  - unfold Preserve.extract_expenses, Preserve.collect, Preserve.month_sheets.
    rewrite month_sheets_app_cons, preserve_extract_sheets_app by assumption.
    destruct (Preserve.extract_sheets _ (∅, [])) as [[g log]|];
      [|reflexivity].
    cbn [Preserve.extract_sheets]. unfold Preserve.extract_sheet.
    now rewrite Hhead.
  - unfold Subcat.extract_expenses, Subcat.collect, Subcat.month_sheets.
    rewrite month_sheets_app_cons, subcat_extract_sheets_app by assumption.
    destruct (Subcat.extract_sheets _ (∅, [])) as [[g log]|]; [|reflexivity].
    cbn [Subcat.extract_sheets]. unfold Subcat.extract_sheet.
    now rewrite Hhead.
  - unfold Split.extract_expenses, Split.collect, Split.month_sheets.
    rewrite month_sheets_app_cons, List.filter_app by assumption.
    rewrite !fold_left_app. cbn [fold_left].
    generalize (List.filter (fun ws => is_month_sheet (sheet_name ws)) post).
    intros sheets.
    destruct (fold_left _ (List.filter _ pre) (∅, [])) as [g log].
    assert (Hsheet : Split.extract_sheet ws (g, log)
                     = (g, log ++ [Processing (sheet_name ws)])).
    { unfold Split.extract_sheet, iter_rows. now rewrite Hrows. }
    rewrite Hsheet.
    destruct (fold_left _ sheets (g, log ++ _)) as [g1 log1] eqn:E1.
    destruct (fold_left _ sheets (g, log)) as [g2 log2] eqn:E2.
    simpl. f_equal.
    change g1 with (fst (g1, log1)). change g2 with (fst (g2, log2)).
    rewrite <- E1, <- E2. apply split_fold_groups.
  - unfold Basic.extract_expenses, Basic.collect, Basic.month_sheets.
    rewrite month_sheets_app_cons, List.filter_app by assumption.
    rewrite !fold_left_app. cbn [fold_left].
    unfold Basic.extract_sheet at 2, iter_rows_from. now rewrite Hrows.
Qed.

End OtherSheets.


Lemma sheet_without_rows_fails_witness :
  @Final.extract_expenses ascii_pylib
    ([sample_sheet] ++ {| sheet_name := "24.07"; sheet_rows := [] |}
                       :: [later_sheet])
  = None.
Proof.
  apply (proj1 (@sheet_without_rows_fails ascii_pylib [sample_sheet]
                  [later_sheet]
                  {| sheet_name := "24.07"; sheet_rows := [] |}
                  eq_refl eq_refl)).
Defined.

(** ** The columns that [find_columns] resolves *)

Lemma first_index_spec {A} (p : A -> bool) (l : list A) (d : A) i :
  first_index p l = Some i <->
  (i < length l)%nat /\ p (nth i l d) = true
  /\ forall j, (j < i)%nat -> p (nth j l d) = false.
Proof.
  revert i. induction l as [|x l IH]; intros i; simpl.
  - split; [discriminate | intros [Hi _]; lia].
  - destruct (p x) eqn:Hx.
    + split.
      * intros [= <-]. split; [lia|]. split; [exact Hx|]. intros j Hj. lia.
      * intros (Hi & Hp & Hfirst). destruct i as [|i]; [reflexivity|].
        specialize (Hfirst 0%nat ltac:(lia)). simpl in Hfirst. congruence.
    + split.
      * destruct (first_index p l) as [k|]; simpl; [|discriminate].
        intros [= <-]. destruct (proj1 (IH k) eq_refl) as (Hk & Hp & Hfirst).
        split; [lia|]. split; [exact Hp|].
        intros [|j] Hj; [exact Hx | apply Hfirst; lia].
      * intros (Hi & Hp & Hfirst).
        destruct i as [|i]; [simpl in Hp; congruence|].
        rewrite (proj2 (IH i)); [reflexivity|].
        split; [lia|]. split; [exact Hp|].
        intros j Hj. apply (Hfirst (S j)). lia.
Qed.

Lemma last_index_none {A} (p : A -> bool) (l : list A) (d : A) :
  last_index p l = None ->
  forall j, (j < length l)%nat -> p (nth j l d) = false.
Proof.
  induction l as [|x l IH]; simpl; [intros _ j Hj; lia|].
  destruct (last_index p l) as [k|]; [discriminate|].
  destruct (p x) eqn:Hx; [discriminate|].
  intros _ [|j] Hj; [exact Hx | apply IH; [reflexivity | lia]].
Qed.

Lemma last_index_spec {A} (p : A -> bool) (l : list A) (d : A) i :
  last_index p l = Some i <->
  (i < length l)%nat /\ p (nth i l d) = true
  /\ forall j, (i < j)%nat -> (j < length l)%nat -> p (nth j l d) = false.
Proof.
  revert i. induction l as [|x l IH]; intros i; simpl.
  - split; [discriminate | intros [Hi _]; lia].
  - pose proof (last_index_none p l d) as Hnone.
    destruct (last_index p l) as [k|].
    + destruct (proj1 (IH k) eq_refl) as (Hk & Hpk & Hlastk). split.
      * intros [= <-]. split; [lia|]. split; [exact Hpk|].
        intros [|j] Hij Hj; [lia | apply Hlastk; lia].
      * intros (Hi & Hp & Hlast). destruct i as [|i].
        -- specialize (Hlast (S k) ltac:(lia) ltac:(lia)). simpl in Hlast.
           congruence.
        -- assert (Hki : Some k = Some i).
           { apply (proj2 (IH i)).
             split; [lia|]. split; [exact Hp|].
             intros j Hij Hj. apply (Hlast (S j)); lia. }
           now injection Hki as ->.
    + specialize (Hnone eq_refl). destruct (p x) eqn:Hx.
      * split.
        -- intros [= <-]. split; [lia|]. split; [exact Hx|].
           intros [|j] Hij Hj; [lia | apply Hnone; lia].
        -- intros (Hi & Hp & _). destruct i as [|i]; [reflexivity|].
           simpl in Hp. rewrite Hnone in Hp by lia. discriminate.
      * split; [discriminate|].
        intros (Hi & Hp & _). destruct i as [|i]; [simpl in Hp; congruence|].
        simpl in Hp. rewrite Hnone in Hp by lia. discriminate.
Qed.

Section Columns.
Context `{PyLib}.

Lemma basic_column_fields i s c :
  match basic_column i s c with
  | Some c' =>
      label_field s <> None
      /\ col_day c'
         = match label_field s, col_day c with
           | Some FDay, None => Some i
           | _, d => d
           end
      /\ col_place c'
         = match label_field s with
           | Some FPlace => Some i
           | _ => col_place c
           end
      /\ col_amount c'
         = match label_field s with
           | Some FAmount => Some i
           | _ => col_amount c
           end
      /\ col_description c'
         = match label_field s with
           | Some FDescription => Some i
           | _ => col_description c
           end
      /\ col_categories c' = col_categories c
      /\ col_subcategories c' = col_subcategories c
  | None => label_field s = None
  end.
Proof.
  unfold basic_column, label_field, is_day_label, is_place_label,
    is_amount_label, is_description_label.
  destruct (String.eqb "日" s || contains "day" (lower s)).
  { destruct (col_day c) eqn:E; simpl; rewrite ?E; repeat split; discriminate. }
  destruct (contains "場所" s || contains "place" (lower s)).
  { simpl. destruct (col_day c); repeat split; discriminate. }
  destruct (contains "価格" s || contains "金額" s
            || contains "price" (lower s)).
  { simpl. destruct (col_day c); repeat split; discriminate. }
  destruct (contains "商品" s || contains "item" (lower s)).
  { simpl. destruct (col_day c); repeat split; discriminate. }
  reflexivity.
Qed.

Ltac basic_turn_proof :=
  intros i s c; pose proof (basic_column_fields i s c) as Hb;
  destruct (basic_column i s c) as [c'|];
  [ destruct Hb as (_ & Hd & Hp & Ha & Hs & _); now repeat split
  | rewrite Hb; repeat split;
    repeat match goal with
      | |- context [if ?b then _ else _] => destruct b
      end; simpl; try reflexivity; now destruct (col_day c) ].

Lemma final_basic_turn :
  basic_turn (fun i cell_str c =>
                match basic_column i cell_str c with
                | Some c' => c'
                | None => c
                end).
Proof. basic_turn_proof. Qed.

Lemma preserve_basic_turn :
  basic_turn (fun i cell_str c =>
                match basic_column i cell_str c with
                | Some c' => c'
                | None =>
                    if mem_string cell_str main_categories
                    then add_category i cell_str c
                    else c
                end).
Proof. basic_turn_proof. Qed.

Lemma subcat_basic_turn :
  basic_turn (fun i cell_str c =>
                match basic_column i cell_str c with
                | Some c' => c'
                | None =>
                    if mem_string cell_str main_categories
                    then add_category i cell_str c
                    else if contains "内訳" cell_str
                    then add_subcategory (remove "内訳" cell_str) i c
                    else c
                end).
Proof. basic_turn_proof. Qed.

Lemma has_field_label f v :
  has_field f v
  = truthy v
    && match label_field (strip (str v)) with
       | Some f' => field_eqb f f'
       | None => false
       end.
Proof.
  unfold has_field, header_field. now destruct (truthy v).
Qed.

(** The loop over the header, for any of the three loop bodies. *)
Lemma scan_header_basic step :
  basic_turn step ->
  forall header_row i c,
    let c' := scan_header step i header_row c in
    col_day c'
    = match col_day c with
      | Some d => Some d
      | None => option_map (Nat.add i) (first_index (has_field FDay) header_row)
      end
    /\ col_place c'
       = match last_index (has_field FPlace) header_row with
         | Some j => Some (i + j)%nat
         | None => col_place c
         end
    /\ col_amount c'
       = match last_index (has_field FAmount) header_row with
         | Some j => Some (i + j)%nat
         | None => col_amount c
         end
    /\ col_description c'
       = match last_index (has_field FDescription) header_row with
         | Some j => Some (i + j)%nat
         | None => col_description c
         end.
Proof.
  intros Hstep header_row.
  induction header_row as [|v rest IH]; intros i c; cbn zeta.
  - simpl. destruct (col_day c); repeat split.
  - cbn [scan_header first_index last_index].
    specialize (IH (S i) (if truthy v then step i (strip (str v)) c else c)).
    cbn zeta in IH. destruct IH as (IHd & IHp & IHa & IHs).
    rewrite IHd, IHp, IHa, IHs. rewrite !has_field_label.
    destruct (Hstep i (strip (str v)) c) as (Hd & Hp & Ha & Hs).
    destruct (truthy v); simpl.
    + rewrite Hd, Hp, Ha, Hs.
      repeat split.
      * destruct (label_field (strip (str v))) as [[]|], (col_day c);
          simpl; try reflexivity;
          try (f_equal; lia);
          destruct (first_index (has_field FDay) rest); simpl;
          try reflexivity; f_equal; lia.
      * destruct (last_index (has_field FPlace) rest);
          [f_equal; lia|].
        destruct (label_field (strip (str v))) as [[]|]; simpl;
          try reflexivity; f_equal; lia.
      * destruct (last_index (has_field FAmount) rest);
          [f_equal; lia|].
        destruct (label_field (strip (str v))) as [[]|]; simpl;
          try reflexivity; f_equal; lia.
      * destruct (last_index (has_field FDescription) rest);
          [f_equal; lia|].
        destruct (label_field (strip (str v))) as [[]|]; simpl;
          try reflexivity; f_equal; lia.
    + repeat split.
      * destruct (col_day c); [reflexivity|].
        destruct (first_index (has_field FDay) rest); simpl;
          try reflexivity; f_equal; lia.
      * destruct (last_index (has_field FPlace) rest);
          [f_equal; lia | reflexivity].
      * destruct (last_index (has_field FAmount) rest);
          [f_equal; lia | reflexivity].
      * destruct (last_index (has_field FDescription) rest);
          [f_equal; lia | reflexivity].
Qed.

Lemma find_columns_indices step header_row :
  basic_turn step ->
  let c := scan_header step 0 header_row no_columns in
  col_day c = first_index (has_field FDay) header_row
  /\ col_place c = last_index (has_field FPlace) header_row
  /\ col_amount c = last_index (has_field FAmount) header_row
  /\ col_description c = last_index (has_field FDescription) header_row.
Proof.
  intros Hstep. cbn zeta.
  destruct (scan_header_basic step Hstep header_row 0%nat no_columns)
    as (Hd & Hp & Ha & Hs).
  rewrite Hd, Hp, Ha, Hs. simpl.
  split; [|split; [|split]];
    match goal with
    | |- context [first_index ?p ?l] => destruct (first_index p l)
    | |- context [last_index ?p ?l] => destruct (last_index p l)
    end; reflexivity.
Qed.

(** X3: the four basic columns: [day] is the first header cell that takes
    the day branch of the chain; [place], [amount] and [description] are
    the last header cells that take their branch.  A cell takes the
    branch of the first condition its stripped text meets, in the order
    day, place, amount, description, and no branch when it is falsy.
    The three scripts that resolve columns agree on the four fields. *)
Theorem find_columns_basic_fields (header_row : row) (i : nat) :
  let c := Final.find_columns header_row in
  let cell_of j := nth j header_row CNone in
  (col_day c = Some i <->
   (i < length header_row)%nat /\ has_field FDay (cell_of i) = true
   /\ forall j, (j < i)%nat -> has_field FDay (cell_of j) = false)
  /\ (col_place c = Some i <->
      (i < length header_row)%nat /\ has_field FPlace (cell_of i) = true
      /\ forall j, (i < j)%nat -> (j < length header_row)%nat ->
                   has_field FPlace (cell_of j) = false)
  /\ (col_amount c = Some i <->
      (i < length header_row)%nat /\ has_field FAmount (cell_of i) = true
      /\ forall j, (i < j)%nat -> (j < length header_row)%nat ->
                   has_field FAmount (cell_of j) = false)
  /\ (col_description c = Some i <->
      (i < length header_row)%nat
      /\ has_field FDescription (cell_of i) = true
      /\ forall j, (i < j)%nat -> (j < length header_row)%nat ->
                   has_field FDescription (cell_of j) = false)
  /\ (col_day (Preserve.find_columns header_row) = col_day c
      /\ col_place (Preserve.find_columns header_row) = col_place c
      /\ col_amount (Preserve.find_columns header_row) = col_amount c
      /\ col_description (Preserve.find_columns header_row)
         = col_description c)
  /\ (col_day (Subcat.find_columns header_row) = col_day c
      /\ col_place (Subcat.find_columns header_row) = col_place c
      /\ col_amount (Subcat.find_columns header_row) = col_amount c
      /\ col_description (Subcat.find_columns header_row)
         = col_description c).
Proof.
  cbn zeta.
  destruct (find_columns_indices _ header_row final_basic_turn)
    as (Hd & Hp & Ha & Hs).
  destruct (find_columns_indices _ header_row preserve_basic_turn)
    as (Hd1 & Hp1 & Ha1 & Hs1).
  destruct (find_columns_indices _ header_row subcat_basic_turn)
    as (Hd2 & Hp2 & Ha2 & Hs2).
  unfold Final.find_columns, Preserve.find_columns, Subcat.find_columns.
  rewrite Hd, Hp, Ha, Hs, Hd1, Hp1, Ha1, Hs1, Hd2, Hp2, Ha2, Hs2.
  split; [apply first_index_spec|].
  split; [apply last_index_spec|].
  split; [apply last_index_spec|].
  split; [apply last_index_spec|].
  repeat split.
Qed.

End Columns.

Lemma first_index_existsb {A} (p : A -> bool) (l : list A) :
  existsb p l = match first_index p l with Some _ => true | None => false end.
Proof.
  induction l as [|x l IH]; simpl; [reflexivity|].
  destruct (p x); simpl; [reflexivity|].
  rewrite IH. now destruct (first_index p l).
Qed.

Lemma last_index_existsb {A} (p : A -> bool) (l : list A) :
  existsb p l = match last_index p l with Some _ => true | None => false end.
Proof.
  induction l as [|x l IH]; simpl; [reflexivity|].
  rewrite IH. destruct (last_index p l); [apply orb_true_r|].
  now destruct (p x).
Qed.

Section RequiredColumns.
Context `{PyLib}.

Lemma has_required_scan step header_row :
  basic_turn step ->
  has_required (scan_header step 0 header_row no_columns)
  = existsb (has_field FDay) header_row
    && existsb (has_field FPlace) header_row
    && existsb (has_field FAmount) header_row
    && existsb (has_field FDescription) header_row.
Proof.
  intros Hstep.
  destruct (find_columns_indices _ header_row Hstep) as (Hd & Hp & Ha & Hs).
  unfold has_required. rewrite Hd, Hp, Ha, Hs.
  rewrite first_index_existsb, !last_index_existsb.
  destruct (first_index _ header_row),
    (last_index (has_field FPlace) header_row),
    (last_index (has_field FAmount) header_row),
    (last_index (has_field FDescription) header_row); reflexivity.
Qed.

(** X4: the four mandatory columns are all resolved exactly when the header
    has, for each of the four fields, a cell that takes the branch of
    that field; a header of blank cells resolves nothing.  The three
    scripts decide alike which sheets they process. *)
Theorem required_columns_found (header_row : row) :
  let found f := existsb (has_field f) header_row in
  has_required (Final.find_columns header_row)
  = found FDay && found FPlace && found FAmount && found FDescription
  /\ has_required (Preserve.find_columns header_row)
     = has_required (Final.find_columns header_row)
  /\ has_required (Subcat.find_columns header_row)
     = has_required (Final.find_columns header_row)
  /\ (Forall (fun v => truthy v = false) header_row ->
      has_required (Final.find_columns header_row) = false).
Proof.
  cbn zeta.
  unfold Final.find_columns, Preserve.find_columns, Subcat.find_columns.
  rewrite (has_required_scan _ header_row final_basic_turn),
    (has_required_scan _ header_row preserve_basic_turn),
    (has_required_scan _ header_row subcat_basic_turn).
  repeat split.
  intros Hblank.
  assert (Hday : existsb (has_field FDay) header_row = false).
  { induction Hblank as [|v l Hv _ IH]; [reflexivity|].
    simpl. rewrite IH, has_field_label, Hv. reflexivity. }
  now rewrite Hday.
Qed.

End RequiredColumns.

Lemma required_columns_found_witness :
  has_required
    (@Final.find_columns ascii_pylib [CNone; CStr ""; CInt 0; CBool false])
  = false.
Proof.
  apply (proj2 (proj2 (proj2
           (@required_columns_found ascii_pylib
              [CNone; CStr ""; CInt 0; CBool false])))).
  repeat constructor.
Defined.

Section CategoryColumns.
Context `{PyLib}.

Lemma category_cells_from_In i0 header_row i name :
  In (i, name) (category_cells_from i0 header_row) <->
  exists k,
    i = (i0 + k)%nat /\ (k < length header_row)%nat
    /\ is_category_cell (nth k header_row CNone) = true
    /\ name = strip (str (nth k header_row CNone)).
Proof.
  revert i i0. induction header_row as [|v rest IH]; intros i i0.
  - simpl. split; [contradiction | intros (k & _ & Hlt & _); lia].
  - cbn [category_cells_from]. split.
    + intros Hin.
      assert (Hcases : (is_category_cell v = true
                        /\ (i, name) = (i0, strip (str v)))
                       \/ In (i, name) (category_cells_from (S i0) rest)).
      { destruct (is_category_cell v); [|now right].
        destruct Hin as [Heq|Hin]; [left | now right].
        split; [reflexivity | now symmetry]. }
      destruct Hcases as [[Hv [= -> ->]]|Hin'].
      * exists 0%nat. simpl. repeat split; try assumption; lia.
      * apply IH in Hin' as (k & -> & Hlt & Hc & Hn).
        exists (S k). simpl. repeat split; try assumption; lia.
    + intros ([|k] & -> & Hlt & Hc & Hn); simpl in Hc, Hn.
      * rewrite Hc. left. rewrite Nat.add_0_r. now subst name.
      * assert (Hin' : In ((S i0 + k)%nat, name)
                         (category_cells_from (S i0) rest)).
        { apply IH. exists k. simpl in Hlt.
          repeat split; try assumption; lia. }
        replace (i0 + S k)%nat with (S i0 + k)%nat by lia.
        destruct (is_category_cell v); [now right | exact Hin'].
Qed.

Lemma category_cells_from_sorted i0 header_row :
  StronglySorted (fun a b => (fst a < fst b)%nat)
    (category_cells_from i0 header_row).
Proof.
  revert i0. induction header_row as [|v rest IH]; intros i0; simpl;
    [constructor|].
  destruct (is_category_cell v); [|apply IH].
  constructor; [apply IH|].
  apply List.Forall_forall. intros [i name] Hin.
  apply category_cells_from_In in Hin as (k & -> & _). simpl. lia.
Qed.

Lemma preserve_scan_categories header_row i c :
  col_categories
    (scan_header
       (fun i cell_str c =>
          match basic_column i cell_str c with
          | Some c' => c'
          | None =>
              if mem_string cell_str main_categories
              then add_category i cell_str c
              else c
          end)
       i header_row c)
  = col_categories c ++ category_cells_from i header_row.
Proof.
  revert i c. induction header_row as [|v rest IH]; intros i c.
  - simpl. now rewrite app_nil_r.
  - cbn [scan_header category_cells_from]. rewrite IH.
    unfold is_category_cell.
    destruct (truthy v); cbn [andb]; [|reflexivity].
    pose proof (basic_column_fields i (strip (str v)) c) as Hb.
    destruct (basic_column i (strip (str v)) c) as [c'|].
    + destruct Hb as (Hf & _ & _ & _ & _ & Hc & _). rewrite Hc.
      destruct (label_field (strip (str v))); [reflexivity | contradiction].
    + rewrite Hb.
      destruct (mem_string (strip (str v)) main_categories);
        [|reflexivity].
      unfold add_category. cbn [col_categories].
      now rewrite <- app_assoc.
Qed.

Lemma subcat_scan_categories header_row i c :
  col_categories
    (scan_header
       (fun i cell_str c =>
          match basic_column i cell_str c with
          | Some c' => c'
          | None =>
              if mem_string cell_str main_categories
              then add_category i cell_str c
              else if contains "内訳" cell_str
              then add_subcategory (remove "内訳" cell_str) i c
              else c
          end)
       i header_row c)
  = col_categories c ++ category_cells_from i header_row.
Proof.
  revert i c. induction header_row as [|v rest IH]; intros i c.
  - simpl. now rewrite app_nil_r.
  - cbn [scan_header category_cells_from]. rewrite IH.
    unfold is_category_cell.
    destruct (truthy v); cbn [andb]; [|reflexivity].
    pose proof (basic_column_fields i (strip (str v)) c) as Hb.
    destruct (basic_column i (strip (str v)) c) as [c'|].
    + destruct Hb as (Hf & _ & _ & _ & _ & Hc & _). rewrite Hc.
      destruct (label_field (strip (str v))); [reflexivity | contradiction].
    + rewrite Hb.
      destruct (mem_string (strip (str v)) main_categories).
      * unfold add_category. cbn [col_categories].
        now rewrite <- app_assoc.
      * destruct (contains "内訳" (strip (str v))); reflexivity.
Qed.

Lemma mem_string_In x words : mem_string x words = true <-> In x words.
Proof.
  unfold mem_string. rewrite existsb_exists. split.
  - intros (y & Hy & Heq). apply String.eqb_eq in Heq. now subst.
  - intros Hin. exists x. split; [exact Hin | apply String.eqb_refl].
Qed.

(** The category columns carry main category names, in both structured
    scripts. *)
Lemma category_cells_main (header_row : row) :
  Forall (fun a => In (snd a) main_categories)
    (col_categories (Preserve.find_columns header_row))
  /\ col_categories (Subcat.find_columns header_row)
     = col_categories (Preserve.find_columns header_row).
Proof.
  unfold Preserve.find_columns, Subcat.find_columns.
  rewrite preserve_scan_categories, subcat_scan_categories. simpl.
  split; [|reflexivity].
  apply List.Forall_forall. intros [i name] Hi.
  apply category_cells_from_In in Hi as (k & -> & _ & Hc & ->). cbn [snd].
  unfold is_category_cell in Hc. apply andb_true_iff in Hc as [_ Hc].
  destruct (label_field _); [discriminate|].
  exact (proj1 (mem_string_In _ _) Hc).
Qed.

(** X5: the category columns: the header cells that are truthy, take none of
    the four basic branches and whose stripped text is one of the 17
    main category names, each with its position, from left to right.
    The two structured scripts find the same columns, and the label of
    every column is a main category name. *)
Theorem find_columns_categories (header_row : row) :
  let cats := col_categories (Preserve.find_columns header_row) in
  col_categories (Subcat.find_columns header_row) = cats
  /\ (forall i name,
         In (i, name) cats <->
         (i < length header_row)%nat
         /\ is_category_cell (nth i header_row CNone) = true
         /\ name = strip (str (nth i header_row CNone)))
  /\ StronglySorted (fun a b => (fst a < fst b)%nat) cats
  /\ Forall (fun a => In (snd a) main_categories) cats
  /\ col_categories (Final.find_columns header_row) = [].
Proof.
  cbn zeta. unfold Preserve.find_columns, Subcat.find_columns.
  rewrite preserve_scan_categories, subcat_scan_categories. simpl.
  split; [reflexivity|].
  assert (Hin : forall i name,
             In (i, name) (category_cells_from 0 header_row) <->
             (i < length header_row)%nat
             /\ is_category_cell (nth i header_row CNone) = true
             /\ name = strip (str (nth i header_row CNone))).
  { intros i name. rewrite category_cells_from_In. split.
    - intros (k & -> & Hlt & Hc & Hn). now repeat split.
    - intros (Hlt & Hc & Hn). exists i. now repeat split. }
  split; [exact Hin|].
  split; [apply category_cells_from_sorted|]. split.
  - apply List.Forall_forall. intros [i name] Hi.
    apply Hin in Hi as (_ & Hc & ->). cbn [snd].
    unfold is_category_cell in Hc. apply andb_true_iff in Hc as [_ Hc].
    destruct (label_field _); [discriminate|].
    exact (proj1 (mem_string_In _ _) Hc).
  - clear Hin. unfold Final.find_columns.
    change (@nil (nat * string)) with (col_categories no_columns).
    generalize 0%nat, no_columns.
    assert (Hgen : forall c i,
               col_categories
                 (scan_header
                    (fun i cell_str c =>
                       match basic_column i cell_str c with
                       | Some c' => c'
                       | None => c
                       end) i header_row c)
               = col_categories c).
    { induction header_row as [|v rest IH]; intros c i; [reflexivity|].
      cbn [scan_header]. rewrite IH.
      destruct (truthy v); [|reflexivity].
      pose proof (basic_column_fields i (strip (str v)) c) as Hb.
      destruct (basic_column i (strip (str v)) c); [|reflexivity].
      now destruct Hb as (_ & _ & _ & _ & _ & Hc & _). }
    intros n c0. apply Hgen.
Qed.

End CategoryColumns.

Section BreakdownColumns.
Context `{PyLib}.



End BreakdownColumns.

(** ** Numerals: the value and the number of digits *)

Lemma uint_of_string_nb_digits s u :
  NilEmpty.uint_of_string s = Some u -> String.length s = Decimal.nb_digits u.
Proof.
  revert u. induction s as [|a s IH]; intros u; simpl.
  - now intros [= <-].
  - destruct (NilEmpty.uint_of_string s) as [d|]; simpl.
    + rewrite (IH d eq_refl).
      destruct a as [[] [] [] [] [] [] [] []]; try discriminate;
        now intros [= <-].
    + destruct a as [[] [] [] [] [] [] [] []]; discriminate.
Qed.

Lemma of_lu_bound d :
  (DecimalPos.Unsigned.of_lu d < 10 ^ N.of_nat (Decimal.nb_digits d))%N.
Proof.
  induction d; cbn [DecimalPos.Unsigned.of_lu Decimal.nb_digits];
    rewrite ?Nat2N.inj_succ, ?N.pow_succ_r'; simpl N.of_nat;
    rewrite ?N.pow_0_r; lia.
Qed.

(** A numeral of [n] digits is below [10 ^ n]. *)
Lemma int_str_bound s n :
  int_str s = Some n -> n < 10 ^ Z.of_nat (String.length s).
Proof.
  unfold int_str. destruct s as [|a s]; [discriminate|].
  destruct (NilEmpty.uint_of_string (String a s)) as [u|] eqn:E;
    [|discriminate].
  cbn [option_map]. intros [= <-].
  rewrite (uint_of_string_nb_digits _ _ E).
  unfold Z.of_uint. rewrite DecimalPos.Unsigned.of_uint_alt.
  pose proof (of_lu_bound (Decimal.rev u)) as Hb.
  rewrite DecimalFacts.nb_digits_rev in Hb.
  apply N2Z.inj_lt in Hb. rewrite N2Z.inj_pow, nat_N_Z in Hb. exact Hb.
Qed.

Lemma length_app a b :
  String.length (a +:+ b) = (String.length a + String.length b)%nat.
Proof. induction a; simpl; [reflexivity | now rewrite IHa]. Qed.

Lemma length_zeros k : String.length (zeros k) = k.
Proof. induction k; simpl; [reflexivity | now rewrite IHk]. Qed.

Lemma length_fmt_0d w n :
  String.length (fmt_0d w n) = Nat.max w (String.length (str_int n)).
Proof. unfold fmt_0d. rewrite length_app, length_zeros. lia. Qed.

(** The numerals of the numbers below 10000 have at most four digits,
    those of the numbers below 100 at most two. *)
Lemma str_int_short :
  forallb (fun k => (String.length (str_int (Z.of_nat k)) <=? 4)%nat)
    (seq 0 (100 * 100)) = true
  /\ forallb (fun k => (String.length (str_int (Z.of_nat k)) <=? 2)%nat)
       (seq 0 100) = true.
Proof. split; vm_compute; reflexivity. Qed.

Lemma length_str_int_4 y :
  0 <= y <= 9999 -> (String.length (str_int y) <= 4)%nat.
Proof.
  intros Hy. destruct str_int_short as [H4 _].
  rewrite forallb_forall in H4.
  specialize (H4 (Z.to_nat y)). rewrite Z2Nat.id in H4 by lia.
  apply Nat.leb_le, H4, in_seq. lia.
Qed.

Lemma length_str_int_2 m :
  0 <= m <= 99 -> (String.length (str_int m) <= 2)%nat.
Proof.
  intros Hm. destruct str_int_short as [_ H2].
  rewrite forallb_forall in H2.
  specialize (H2 (Z.to_nat m)). rewrite Z2Nat.id in H2 by lia.
  apply Nat.leb_le, H2, in_seq. lia.
Qed.

Lemma fmt_0d_year y :
  0 <= y ->
  ((String.length (fmt_0d 4 y) =? 4)%nat = true <-> y <= 9999).
Proof.
  intros Hy. rewrite Nat.eqb_eq. split.
  - intros Hlen. pose proof (int_str_bound _ _ (int_str_fmt_0d 4 y Hy)) as Hb.
    rewrite Hlen in Hb. change (10 ^ Z.of_nat 4) with 10000 in Hb. lia.
  - intros Hle. rewrite length_fmt_0d.
    pose proof (length_str_int_4 y ltac:(lia)). lia.
Qed.

Lemma fmt_0d_two m :
  0 <= m <= 99 -> String.length (fmt_0d 2 m) = 2%nat.
Proof.
  intros Hm. rewrite length_fmt_0d.
  pose proof (length_str_int_2 m Hm). lia.
Qed.

Lemma days_in_month_le y m : days_in_month y m <= 31.
Proof.
  unfold days_in_month.
  destruct m as [|[[[[]|[]|]|[[]|[]|]|]|[[[]|[]|]|[[]|[]|]|]|]|];
    try lia; destruct (is_leap y); lia.
Qed.

(** [strptime] on the string that [parse_date] builds. *)
Lemma strptime_date_string_valid y m d :
  1 <= y <= 9999 -> 1 <= m <= 12 -> 1 <= d <= days_in_month y m ->
  strptime_ymd (date_string y m d) = Some (y, m, d).
Proof.
  intros Hy Hm Hd. pose proof (days_in_month_le y m) as Hdim.
  unfold strptime_ymd.
  rewrite split_date_string by lia.
  unfold year_token, month_token.
  rewrite day_token_digits by (apply all_digits_fmt_0d; lia).
  rewrite !int_str_fmt_0d by lia.
  rewrite (proj2 (fmt_0d_year y ltac:(lia))) by lia.
  rewrite !fmt_0d_two by lia. cbn [Nat.leb].
  repeat (cbn [andb];
          match goal with
          | |- context [?a <=? ?b] =>
              replace (a <=? b) with true by (symmetry; apply Z.leb_le; lia)
          end).
  reflexivity.
Qed.

Lemma strptime_date_string_some y m d t :
  0 <= y -> 0 <= m -> 0 <= d ->
  strptime_ymd (date_string y m d) = Some t ->
  1 <= y <= 9999 /\ 1 <= m <= 12 /\ 1 <= d <= days_in_month y m
  /\ t = (y, m, d).
Proof.
  intros Hy Hm Hd Ht.
  destruct (strptime_date_string y m d t Hy Hm Hd Ht) as (Hy1 & Hm1 & Hd1).
  assert (Hy2 : y <= 9999).
  { revert Ht. unfold strptime_ymd.
    rewrite split_date_string by assumption. unfold year_token.
    destruct (String.length (fmt_0d 4 y) =? 4)%nat eqn:E; [|discriminate].
    intros _. now apply (fmt_0d_year y Hy). }
  rewrite strptime_date_string_valid in Ht by lia.
  injection Ht as <-. repeat split; lia.
Qed.

(** ** The dates that [parse_date] gives *)

Lemma length_date_string y m d :
  1 <= y <= 9999 -> 1 <= m <= 12 -> 1 <= d <= 31 ->
  String.length (date_string y m d) = 10%nat.
Proof.
  intros Hy Hm Hd. unfold date_string.
  rewrite !fmt_0d_signed_nonneg by lia.
  rewrite !length_app, !fmt_0d_two by lia.
  pose proof (proj2 (fmt_0d_year y ltac:(lia)) ltac:(lia)) as Hlen.
  apply Nat.eqb_eq in Hlen. rewrite Hlen. reflexivity.
Qed.

(** What a date that [parse_date] returns tells about the sheet name
    and the day. *)
Lemma parse_date_with_exact (sheet_name : string) (day : cell)
    (date_str : string) (year month : Z) :
  parse_date_with sheet_name day 0 = Some (date_str, year, month) ->
  exists g1 g2 yy dd,
    re_match_period sheet_name = Some (g1, g2)
    /\ int_str g1 = Some yy /\ int_str g2 = Some month
    /\ year = 2000 + yy /\ year <= 9999
    /\ is_number day = true /\ int_num day = Some dd
    /\ valid_date year month dd
    /\ date_str = date_string year month dd
    /\ String.length date_str = 10%nat
    /\ strptime_ymd date_str = Some (year, month, dd).
Proof.
  intros Hp. unfold parse_date_with in Hp.
  destruct (re_match_period sheet_name) as [[g1 g2]|]; [|discriminate].
  destruct (int_str g1) as [yy|] eqn:Hy; [|discriminate].
  destruct (int_str g2) as [mm|] eqn:Hm; [|discriminate].
  destruct (is_number day) eqn:Hnum; [|discriminate]. cbn [negb] in Hp.
  destruct (int_num day) as [dd|] eqn:Hd; [|discriminate].
  destruct ((dd <? 1) || (dd >? 31)) eqn:Hrange; [discriminate|].
  destruct (strptime_ymd _) as [t|] eqn:Ht; [|discriminate].
  injection Hp as <- <- <-.
  apply int_str_nonneg in Hy as Hy0. apply int_str_nonneg in Hm as Hm0.
  replace (2000 + yy + 0) with (2000 + yy) in * by lia.
  apply strptime_date_string_some in Ht as (Hy1 & Hm1 & Hd1 & ->);
    [|lia..].
  pose proof (days_in_month_le (2000 + yy) mm).
  exists g1, g2, yy, dd. repeat split; try assumption; try lia.
  - apply length_date_string; lia.
  - apply strptime_date_string_valid; lia.
Qed.



(** ** The category of a record *)

Section CategoryLabels.
Context `{PyLib}.

Ltac scan_step Hbody Hg :=
  match goal with
  | |- context [scan_rows ?body ?rows ?g] =>
      let E := fresh "E" in
      let gs := fresh "gs" in
      let n := fresh "n" in
      destruct (scan_rows body rows g) as [gs n] eqn:E;
      intros [= <- <-];
      change gs with (fst (gs, n)); rewrite <- E;
      apply scan_rows_all; [intros ? ? ?; apply Hbody | exact Hg]
  end.

(** The runs of the structured scripts, for a property of the records
    that holds for the columns that [find_columns] resolves. *)
Lemma preserve_run_all (P : expense -> Prop) wb g log :
  (forall s header d p a ds r k e,
      Preserve.extract_row s (Preserve.find_columns header) d p a ds r
      = Some (k, e) -> P e) ->
  Preserve.extract_expenses wb = Some (g, log) -> groups_all P g.
Proof.
  intros Hbody. unfold Preserve.extract_expenses, Preserve.collect.
  destruct (Preserve.extract_sheets _ _) as [[g0 log0]|] eqn:E;
    [|discriminate].
  intros [= <- <-]. apply groups_all_sorted.
  revert E. generalize (Preserve.month_sheets wb). intros sheets.
  assert (Hempty : groups_all P (∅ : gmap string (list expense)))
    by apply groups_all_empty.
  revert Hempty. generalize (∅ : gmap string (list expense)).
  generalize (@nil message).
  induction sheets as [|ws sheets IH]; intros log1 g1 Hg;
    cbn [Preserve.extract_sheets].
  - now intros [= <- <-].
  - destruct (Preserve.extract_sheet ws (g1, log1)) as [[g2 log2]|] eqn:E;
      [|discriminate].
    apply IH. revert E. unfold Preserve.extract_sheet.
    destruct (iter_rows 1 1 ws); [discriminate|]. cbv zeta.
    destruct (col_day _); [|now intros [= <- <-]].
    destruct (col_place _); [|now intros [= <- <-]].
    destruct (col_amount _); [|now intros [= <- <-]].
    destruct (col_description _); [|now intros [= <- <-]].
    scan_step Hbody Hg.
Qed.

Lemma subcat_run_all (P : expense -> Prop) wb g log :
  (forall s header d p a ds r k e,
      Subcat.extract_row s (Subcat.find_columns header) d p a ds r
      = Some (k, e) -> P e) ->
  Subcat.extract_expenses wb = Some (g, log) -> groups_all P g.
Proof.
  intros Hbody. unfold Subcat.extract_expenses, Subcat.collect.
  destruct (Subcat.extract_sheets _ _) as [[g0 log0]|] eqn:E;
    [|discriminate].
  intros [= <- <-]. apply groups_all_sorted.
  revert E. generalize (Subcat.month_sheets wb). intros sheets.
  assert (Hempty : groups_all P (∅ : gmap Z (list expense)))
    by apply groups_all_empty.
  revert Hempty. generalize (∅ : gmap Z (list expense)).
  generalize (@nil message).
  induction sheets as [|ws sheets IH]; intros log1 g1 Hg;
    cbn [Subcat.extract_sheets].
  - now intros [= <- <-].
  - destruct (Subcat.extract_sheet ws (g1, log1)) as [[g2 log2]|] eqn:E;
      [|discriminate].
    apply IH. revert E. unfold Subcat.extract_sheet.
    destruct (iter_rows 1 1 ws); [discriminate|]. cbv zeta.
    destruct (col_day _); [|now intros [= <- <-]].
    destruct (col_place _); [|now intros [= <- <-]].
    destruct (col_amount _); [|now intros [= <- <-]].
    destruct (col_description _); [|now intros [= <- <-]].
    scan_step Hbody Hg.
Qed.

Lemma first_label_In groups text default :
  In (first_label groups text default) (List.map snd groups ++ [default]).
Proof.
  induction groups as [|[words label] groups IH]; simpl; [now left|].
  destruct (any_in words text); [now left | now right].
Qed.

Lemma keyword_label_In place description :
  In (Final.categorize_item place description) keyword_labels
  /\ In (Split.categorize_item place description) keyword_labels
  /\ In (Basic.categorize_item place description) keyword_labels.
Proof.
  unfold Final.categorize_item, Split.categorize_item, Basic.categorize_item.
  cbv zeta.
  repeat split;
    repeat match goal with
      | |- context [if ?b then _ else _] => destruct b
      end;
    unfold keyword_labels; simpl; tauto.
Qed.

Lemma extract_category_In r cats :
  In (Preserve.extract_category r cats) (List.map snd cats ++ ["その他"]).
Proof.
  induction cats as [|[idx name] cats IH]; simpl; [now left|].
  destruct (is_not_none _ && truthy _ && negb _); [now left | now right].
Qed.

Lemma find_category_In r cats name text :
  Subcat.find_category r cats = Some (name, text) ->
  In name (List.map snd cats).
Proof.
  induction cats as [|[idx n] cats IH]; simpl; [discriminate|].
  destruct (is_not_none _ && truthy _ && negb _).
  - intros [= <- _]. now left.
  - intros Hf. right. now apply IH.
Qed.

Lemma extract_category_main r cats subs :
  fst (Subcat.extract_category_and_subcategory r cats subs)
  = match Subcat.find_category r cats with
    | Some (name, _) => name
    | None => "その他"
    end.
Proof.
  unfold Subcat.extract_category_and_subcategory.
  now destruct (Subcat.find_category r cats) as [[name text]|].
Qed.

Lemma structured_labels_incl names :
  Forall (fun name => In name main_categories) names ->
  incl (names ++ ["その他"]) structured_labels.
Proof.
  intros Hnames x Hx. unfold structured_labels.
  apply in_app_iff in Hx as [Hx|Hx]; apply in_app_iff; [left | now right].
  rewrite List.Forall_forall in Hnames. now apply Hnames.
Qed.

Lemma category_names_main header_row :
  Forall (fun name => In name main_categories)
    (List.map snd (col_categories (Preserve.find_columns header_row)))
  /\ Forall (fun name => In name main_categories)
       (List.map snd (col_categories (Subcat.find_columns header_row))).
Proof.
  destruct (category_cells_main header_row) as (Hall & Hs).
  rewrite Hs. split; now apply List.Forall_map.
Qed.

(** X8: the category of every record of a run is one of a closed set of
    labels and is never empty: one of the six labels of the keyword
    classifier in the three keyword scripts, and a main category name or
    the default "その他" in the two structured scripts. *)
Theorem category_is_a_known_label :
  (forall wb g log key l e,
      Final.extract_expenses wb = Some (g, log) ->
      g !! key = Some l -> In e l ->
      In (category e) keyword_labels)
  /\ (forall wb key l e,
      fst (Split.extract_expenses wb) !! key = Some l -> In e l ->
      In (category e) keyword_labels)
  /\ (forall wb e,
      In e (Basic.extract_expenses wb) -> In (category e) keyword_labels)
  /\ (forall wb g log key l e,
      Preserve.extract_expenses wb = Some (g, log) ->
      g !! key = Some l -> In e l ->
      In (category e) structured_labels)
  /\ (forall wb g log key l e,
      Subcat.extract_expenses wb = Some (g, log) ->
      g !! key = Some l -> In e l ->
      In (category e) structured_labels)
  /\ ~ In EmptyString keyword_labels
  /\ ~ In EmptyString structured_labels.
Proof.
  split; [|split; [|split; [|split; [|split; [|split]]]]].
  - intros wb g log key l e Hrun Hl He.
    apply (proj1 (List.Forall_forall
                    (fun e => In (category e) keyword_labels) l));
      [|exact He].
    eapply (final_extract_expenses_all
              (fun e => In (category e) keyword_labels)); [|exact Hrun|exact Hl].
    intros s d p a ds r k e0. unfold Final.extract_row.
    destruct r; [discriminate|].
    repeat match goal with
      | |- context [if ?b then _ else _] => destruct b; try discriminate
      | |- context [match ?o with Some _ => _ | None => _ end] =>
          destruct o; try discriminate
      end.
    intros [= <- <-]. apply keyword_label_In.
  - intros wb key l e Hl He.
    apply (proj1 (List.Forall_forall
                    (fun e => In (category e) keyword_labels) l));
      [|exact He].
    eapply (split_extract_expenses_all
              (fun e => In (category e) keyword_labels)); [|exact Hl].
    intros s r k e0. unfold Split.extract_row.
    destruct r; [discriminate|].
    repeat match goal with
      | |- context [if ?b then _ else _] => destruct b; try discriminate
      | |- context [match ?o with Some _ => _ | None => _ end] =>
          destruct o; try discriminate
      end.
    intros [= <- <-]. apply keyword_label_In.
  - intros wb e He.
    apply (proj1 (List.Forall_forall
                    (fun e => In (category e) keyword_labels)
                    (Basic.extract_expenses wb)));
      [|exact He].
    eapply (basic_extract_expenses_all
              (fun e => In (category e) keyword_labels)).
    intros s r e0. unfold Basic.extract_row.
    destruct r; [discriminate|].
    repeat match goal with
      | |- context [if ?b then _ else _] => destruct b; try discriminate
      | |- context [match ?o with Some _ => _ | None => _ end] =>
          destruct o; try discriminate
      end.
    intros [= <-]. apply keyword_label_In.
  - intros wb g log key l e Hrun Hl He.
    apply (proj1 (List.Forall_forall
                    (fun e => In (category e) structured_labels) l));
      [|exact He].
    eapply (preserve_run_all
              (fun e => In (category e) structured_labels));
      [|exact Hrun|exact Hl].
    intros s header d p a ds r k e0. unfold Preserve.extract_row.
    destruct r; [discriminate|].
    repeat match goal with
      | |- context [if ?b then _ else _] => destruct b; try discriminate
      | |- context [match ?o with Some _ => _ | None => _ end] =>
          destruct o as [[[? ?] ?]|]; try discriminate
      end.
    destruct (int_num _); [|discriminate].
    intros [= <- <-]. cbn [category].
    eapply structured_labels_incl; [|apply extract_category_In].
    apply category_names_main.
  - intros wb g log key l e Hrun Hl He.
    apply (proj1 (List.Forall_forall
                    (fun e => In (category e) structured_labels) l));
      [|exact He].
    eapply (subcat_run_all
              (fun e => In (category e) structured_labels));
      [|exact Hrun|exact Hl].
    intros s header d p a ds r k e0. unfold Subcat.extract_row.
    destruct r as [|c0 r0]; [discriminate|].
    set (row := c0 :: r0).
    destruct (negb (is_number (cell_at row a)) || le_zero _);
      [discriminate|].
    destruct (negb (is_number (cell_at row d))); [discriminate|].
    destruct (Subcat.parse_date s _) as [[[? ?] ?]|]; [|discriminate].
    pose proof (extract_category_main row
                  (col_categories (Subcat.find_columns header))
                  (col_subcategories (Subcat.find_columns header))) as Hmain.
    destruct (Subcat.extract_category_and_subcategory row _ _)
      as [main_category sub].
    cbn [fst] in Hmain. subst main_category.
    destruct (int_num _); [|discriminate].
    intros [= <- <-]. cbn [category].
    eapply structured_labels_incl; [apply category_names_main|].
    destruct (Subcat.find_category row _) as [[name text]|] eqn:Ef.
    + apply in_app_iff. left. eapply find_category_In, Ef.
    + apply in_app_iff. right. now left.
  - unfold keyword_labels. simpl. intros Hin.
    repeat (destruct Hin as [Hin|Hin]; [discriminate|]). exact Hin.
  - unfold structured_labels, main_categories. simpl. intros Hin.
    repeat (destruct Hin as [Hin|Hin]; [discriminate|]). exact Hin.
Qed.

End CategoryLabels.

Lemma category_is_a_known_label_witness :
  In (category half_record) keyword_labels.
Proof.
  eapply (proj1 (@category_is_a_known_label ascii_pylib)
            [sample_sheet] _ _ 2024 _ half_record).
  - vm_compute. reflexivity.
  - vm_compute. reflexivity.
  - left. reflexivity.
Defined.

(** ** The group that a record goes to *)

Section KeyedGroupLemmas.
Context `{Countable K}.

Lemma groups_keyed_empty (P : K -> expense -> Prop) :
  groups_keyed P (∅ : gmap K (list expense)).
Proof. intros k l Hk. rewrite lookup_empty in Hk. discriminate. Qed.

Lemma groups_keyed_append (P : K -> expense -> Prop) k e
    (g : gmap K (list expense)) :
  P k e -> groups_keyed P g -> groups_keyed P (group_append k e g).
Proof.
  intros He Hg k' l. unfold group_append.
  destruct (decide (k = k')) as [->|Hne].
  - rewrite lookup_insert_eq. intros [= <-].
    apply Forall_app. split; [|now repeat constructor].
    destruct (g !! k') as [l0|] eqn:E; simpl; [now apply (Hg k')|constructor].
  - rewrite lookup_insert_ne by assumption. apply Hg.
Qed.

Lemma scan_rows_keyed (P : K -> expense -> Prop)
    (body : row -> option (K * expense)) rows g :
  (forall r k e, body r = Some (k, e) -> P k e) ->
  groups_keyed P g -> groups_keyed P (fst (scan_rows body rows g)).
Proof.
  intros Hbody. revert g.
  induction rows as [|r rows IH]; intros g Hg; [exact Hg|].
  rewrite scan_rows_cons. apply IH.
  destruct (body r) as [[k e]|] eqn:E; [|exact Hg].
  apply groups_keyed_append; [eapply Hbody, E | exact Hg].
Qed.

Lemma groups_keyed_sorted (P : K -> expense -> Prop)
    (g : gmap K (list expense)) :
  groups_keyed P g -> groups_keyed P (sort_by_date <$> g).
Proof.
  intros Hg k l. rewrite lookup_fmap.
  destruct (g !! k) as [l0|] eqn:E; simpl; [|discriminate].
  intros [= <-]. rewrite sort_by_date_perm. now apply (Hg k).
Qed.

End KeyedGroupLemmas.

Lemma string_app_assoc a b c : (a +:+ b) +:+ c = a +:+ (b +:+ c).
Proof. induction a; simpl; [reflexivity | now rewrite IHa]. Qed.

Lemma str_int_four_digits y :
  1000 <= y <= 9999 -> fmt_0d 4 y = str_int y.
Proof.
  intros Hy. unfold fmt_0d.
  pose proof (length_str_int_4 y ltac:(lia)) as Hle.
  pose proof (int_str_bound _ _ (int_str_fmt_0d 0 y ltac:(lia))) as Hb.
  unfold fmt_0d in Hb. simpl zeros in Hb. simpl String.append in Hb.
  assert (Hge : (4 <= String.length (str_int y))%nat).
  { destruct (le_lt_dec 4 (String.length (str_int y))) as [Hok|Hlt];
      [exact Hok|].
    exfalso.
    assert (10 ^ Z.of_nat (String.length (str_int y)) <= 10 ^ 3)
      by (apply Z.pow_le_mono_r; lia).
    change (10 ^ 3) with 1000 in *. lia. }
  replace (4 - String.length (str_int y))%nat with 0%nat by lia.
  reflexivity.
Qed.

Section GroupKeys.
Context `{PyLib}.

Ltac keyed_step Hbody Hg :=
  match goal with
  | |- context [scan_rows ?body ?rows ?g] =>
      let E := fresh "E" in
      let gs := fresh "gs" in
      let n := fresh "n" in
      destruct (scan_rows body rows g) as [gs n] eqn:E;
      intros [= <- <-];
      change gs with (fst (gs, n)); rewrite <- E;
      apply scan_rows_keyed; [intros ? ? ?; apply Hbody | exact Hg]
  end.

Lemma parse_date_in_year sheet_name day date_str year month e :
  parse_date_with sheet_name day 0 = Some (date_str, year, month) ->
  date e = date_str ->
  dated_in_year year e /\ year_of_date date_str = Some year
  /\ dated_in_month (str_int year +:+ "-" +:+ fmt_0d_signed 2 month) e.
Proof.
  intros Hp He. apply parse_date_with_exact in Hp
    as (g1 & g2 & yy & dd & _ & Hy & Hm & -> & Hle & _ & _ & Hvalid & Hds
        & _).
  apply int_str_nonneg in Hy, Hm.
  destruct Hvalid as (Hy1 & Hm1 & Hd1).
  split; [|split].
  - exists month, dd. rewrite He. unfold valid_date.
    split; [lia|]. split; [lia | exact Hds].
  - rewrite Hds. apply year_of_date_string; lia.
  - exists (2000 + yy), month, dd.
    rewrite fmt_0d_signed_nonneg by lia.
    split; [lia|]. split; [unfold valid_date; lia|].
    split; [reflexivity|].
    rewrite He, Hds. unfold date_string.
    rewrite !fmt_0d_signed_nonneg by lia.
    rewrite str_int_four_digits by lia.
    now rewrite !string_app_assoc.
Qed.

Lemma final_row_key s d p a ds r k e :
  Final.extract_row s d p a ds r = Some (k, e) -> dated_in_year k e.
Proof.
  unfold Final.extract_row, Final.parse_date. destruct r; [discriminate|].
  destruct (negb _ || le_zero _); [discriminate|].
  destruct (negb _); [discriminate|].
  destruct (parse_date_with s _ 0) as [[[date_str y] m]|] eqn:Hp;
    [|discriminate].
  destruct (year_of_date date_str) as [year|] eqn:Hy; [|discriminate].
  destruct (int_num _); [|discriminate].
  intros [= <- <-].
  destruct (parse_date_in_year _ _ _ _ _
              {| date := date_str; category := EmptyString;
                 subcategory := None; amount := 0; place := EmptyString;
                 description := EmptyString |} Hp eq_refl)
    as ((m' & d' & Hr & Hv & Hd) & Hyear & _).
  rewrite Hyear in Hy. injection Hy as <-.
  exists m', d'. split; [exact Hr|]. split; [exact Hv | exact Hd].
Qed.

Lemma split_row_key s r k e :
  Split.extract_row s r = Some (k, e) -> dated_in_year k e.
Proof.
  unfold Split.extract_row, Split.parse_date. destruct r; [discriminate|].
  destruct (length _ <? 8)%nat; [discriminate|].
  destruct (negb _ || le_zero _); [discriminate|].
  destruct (negb _); [discriminate|].
  destruct (parse_date_with s _ 0) as [[[date_str y] m]|] eqn:Hp;
    [|discriminate].
  destruct (year_of_date date_str) as [year|] eqn:Hy; [|discriminate].
  destruct (int_num _); [|discriminate].
  intros [= <- <-].
  destruct (parse_date_in_year _ _ _ _ _
              {| date := date_str; category := EmptyString;
                 subcategory := None; amount := 0; place := EmptyString;
                 description := EmptyString |} Hp eq_refl)
    as ((m' & d' & Hr & Hv & Hd) & Hyear & _).
  rewrite Hyear in Hy. injection Hy as <-.
  exists m', d'. split; [exact Hr|]. split; [exact Hv | exact Hd].
Qed.

Lemma subcat_row_key s c d p a ds r k e :
  Subcat.extract_row s c d p a ds r = Some (k, e) -> dated_in_year k e.
Proof.
  unfold Subcat.extract_row, Subcat.parse_date. destruct r; [discriminate|].
  destruct (negb _ || le_zero _); [discriminate|].
  destruct (negb _); [discriminate|].
  destruct (parse_date_with s _ 0) as [[[date_str y] m]|] eqn:Hp;
    [|discriminate].
  destruct (Subcat.extract_category_and_subcategory _ _ _) as [cat sub].
  destruct (int_num _); [|discriminate].
  intros [= <- <-].
  destruct (parse_date_in_year _ _ _ _ _
              {| date := date_str; category := EmptyString;
                 subcategory := None; amount := 0; place := EmptyString;
                 description := EmptyString |} Hp eq_refl)
    as ((m' & d' & Hr & Hv & Hd) & _ & _).
  exists m', d'. split; [exact Hr|]. split; [exact Hv | exact Hd].
Qed.

Lemma preserve_row_key s c d p a ds r k e :
  Preserve.extract_row s c d p a ds r = Some (k, e) -> dated_in_month k e.
Proof.
  unfold Preserve.extract_row, Preserve.parse_date.
  destruct r; [discriminate|].
  destruct (negb _ || le_zero _); [discriminate|].
  destruct (negb _); [discriminate|].
  destruct (parse_date_with s _ 0) as [[[date_str y] m]|] eqn:Hp;
    [|discriminate].
  destruct (int_num _); [|discriminate].
  intros [= <- <-].
  destruct (parse_date_in_year _ _ _ _ _
              {| date := date_str; category := EmptyString;
                 subcategory := None; amount := 0; place := EmptyString;
                 description := EmptyString |} Hp eq_refl)
    as (_ & _ & (y' & m' & d' & Hr & Hv & Hk & Hd)).
  exists y', m', d'.
  split; [exact Hr|]. split; [exact Hv|]. split; [exact Hk | exact Hd].
Qed.

Lemma final_run_keyed wb g log :
  Final.extract_expenses wb = Some (g, log) -> groups_keyed dated_in_year g.
Proof.
  unfold Final.extract_expenses, Final.collect.
  destruct (Final.extract_sheets _ _) as [[g0 log0]|] eqn:E; [|discriminate].
  intros [= <- <-]. apply groups_keyed_sorted.
  revert E. generalize (Final.month_sheets wb). intros sheets.
  assert (Hempty : groups_keyed dated_in_year (∅ : gmap Z (list expense)))
    by apply groups_keyed_empty.
  revert Hempty. generalize (∅ : gmap Z (list expense)).
  generalize (@nil message).
  induction sheets as [|ws sheets IH]; intros log1 g1 Hg;
    cbn [Final.extract_sheets].
  - now intros [= <- <-].
  - destruct (Final.extract_sheet ws (g1, log1)) as [[g2 log2]|] eqn:E;
      [|discriminate].
    apply IH. revert E. unfold Final.extract_sheet.
    destruct (iter_rows 1 1 ws); [discriminate|]. cbv zeta.
    destruct (col_day _); [|now intros [= <- <-]].
    destruct (col_place _); [|now intros [= <- <-]].
    destruct (col_amount _); [|now intros [= <- <-]].
    destruct (col_description _); [|now intros [= <- <-]].
    keyed_step final_row_key Hg.
Qed.

Lemma subcat_run_keyed wb g log :
  Subcat.extract_expenses wb = Some (g, log) -> groups_keyed dated_in_year g.
Proof.
  unfold Subcat.extract_expenses, Subcat.collect.
  destruct (Subcat.extract_sheets _ _) as [[g0 log0]|] eqn:E;
    [|discriminate].
  intros [= <- <-]. apply groups_keyed_sorted.
  revert E. generalize (Subcat.month_sheets wb). intros sheets.
  assert (Hempty : groups_keyed dated_in_year (∅ : gmap Z (list expense)))
    by apply groups_keyed_empty.
  revert Hempty. generalize (∅ : gmap Z (list expense)).
  generalize (@nil message).
  induction sheets as [|ws sheets IH]; intros log1 g1 Hg;
    cbn [Subcat.extract_sheets].
  - now intros [= <- <-].
  - destruct (Subcat.extract_sheet ws (g1, log1)) as [[g2 log2]|] eqn:E;
      [|discriminate].
    apply IH. revert E. unfold Subcat.extract_sheet.
    destruct (iter_rows 1 1 ws); [discriminate|]. cbv zeta.
    destruct (col_day _); [|now intros [= <- <-]].
    destruct (col_place _); [|now intros [= <- <-]].
    destruct (col_amount _); [|now intros [= <- <-]].
    destruct (col_description _); [|now intros [= <- <-]].
    keyed_step subcat_row_key Hg.
Qed.

Lemma preserve_run_keyed wb g log :
  Preserve.extract_expenses wb = Some (g, log) ->
  groups_keyed dated_in_month g.
Proof.
  unfold Preserve.extract_expenses, Preserve.collect.
  destruct (Preserve.extract_sheets _ _) as [[g0 log0]|] eqn:E;
    [|discriminate].
  intros [= <- <-]. apply groups_keyed_sorted.
  revert E. generalize (Preserve.month_sheets wb). intros sheets.
  assert (Hempty : groups_keyed dated_in_month
                     (∅ : gmap string (list expense)))
    by apply groups_keyed_empty.
  revert Hempty. generalize (∅ : gmap string (list expense)).
  generalize (@nil message).
  induction sheets as [|ws sheets IH]; intros log1 g1 Hg;
    cbn [Preserve.extract_sheets].
  - now intros [= <- <-].
  - destruct (Preserve.extract_sheet ws (g1, log1)) as [[g2 log2]|] eqn:E;
      [|discriminate].
    apply IH. revert E. unfold Preserve.extract_sheet.
    destruct (iter_rows 1 1 ws); [discriminate|]. cbv zeta.
    destruct (col_day _); [|now intros [= <- <-]].
    destruct (col_place _); [|now intros [= <- <-]].
    destruct (col_amount _); [|now intros [= <- <-]].
    destruct (col_description _); [|now intros [= <- <-]].
    keyed_step preserve_row_key Hg.
Qed.

Lemma split_run_keyed wb :
  groups_keyed dated_in_year (fst (Split.extract_expenses wb)).
Proof.
  unfold Split.extract_expenses, Split.collect.
  assert (Hall : forall sheets st,
             groups_keyed dated_in_year (fst st) ->
             groups_keyed dated_in_year
               (fst (fold_left (fun st ws => Split.extract_sheet ws st)
                       sheets st))).
  { induction sheets as [|ws sheets IH]; intros [g log] Hg; [exact Hg|].
    cbn [fold_left]. apply IH. simpl.
    apply scan_rows_keyed; [|exact Hg].
    intros ? ? ?. apply split_row_key. }
  specialize (Hall (Split.month_sheets wb) (∅, [])
                (groups_keyed_empty dated_in_year)).
  destruct (fold_left _ _ _) as [g log]. simpl in *.
  now apply groups_keyed_sorted.
Qed.

(** X9: every record sits in the group of its own date: in the scripts that
    group by year, the records of the group of [year] are dated
    [year-MM-DD] with a day that exists, and the year lies between 2000
    and 9999; in the script that groups by month, the group key
    ["YYYY-MM"] is the first seven characters of the date of each of its
    records. *)
Theorem records_grouped_by_their_date :
  (forall wb g log year l e,
      Final.extract_expenses wb = Some (g, log) ->
      g !! year = Some l -> In e l -> dated_in_year year e)
  /\ (forall wb year l e,
      fst (Split.extract_expenses wb) !! year = Some l -> In e l ->
      dated_in_year year e)
  /\ (forall wb g log year l e,
      Subcat.extract_expenses wb = Some (g, log) ->
      g !! year = Some l -> In e l -> dated_in_year year e)
  /\ (forall wb g log key l e,
      Preserve.extract_expenses wb = Some (g, log) ->
      g !! key = Some l -> In e l -> dated_in_month key e).
Proof.
  split; [|split; [|split]].
  - intros wb g log year l e Hrun Hl He.
    apply (proj1 (List.Forall_forall (dated_in_year year) l));
      [|exact He].
    eapply final_run_keyed; eassumption.
  - intros wb year l e Hl He.
    apply (proj1 (List.Forall_forall (dated_in_year year) l));
      [|exact He].
    eapply split_run_keyed; eassumption.
  - intros wb g log year l e Hrun Hl He.
    apply (proj1 (List.Forall_forall (dated_in_year year) l));
      [|exact He].
    eapply subcat_run_keyed; eassumption.
  - intros wb g log key l e Hrun Hl He.
    apply (proj1 (List.Forall_forall (dated_in_month key) l));
      [|exact He].
    eapply preserve_run_keyed; eassumption.
Qed.

End GroupKeys.

Lemma records_grouped_by_their_date_witness :
  dated_in_year 2024 half_record.
Proof.
  eapply (proj1 (@records_grouped_by_their_date ascii_pylib)
            [sample_sheet] _ _ 2024 _ half_record).
  - vm_compute. reflexivity.
  - vm_compute. reflexivity.
  - left. reflexivity.
Defined.

(** ** Counting the records *)

Section Counting.
Context `{Countable K}.

Lemma sum_list_lengths_perm (l1 l2 : list (K * list expense)) :
  Permutation l1 l2 ->
  sum_list (List.map (fun kl => length (snd kl)) l1)
  = sum_list (List.map (fun kl => length (snd kl)) l2).
Proof.
  induction 1; simpl; try lia.
Qed.

Lemma total_records_empty : total_records (∅ : gmap K (list expense)) = 0%nat.
Proof. unfold total_records. now rewrite map_to_list_empty. Qed.

Lemma total_records_insert (g : gmap K (list expense)) k l :
  (total_records (<[k := l]> g) + length (default [] (g !! k))
   = total_records g + length l)%nat.
Proof.
  unfold total_records.
  destruct (g !! k) as [l0|] eqn:E; simpl.
  - rewrite <- (insert_delete_eq g k l).
    rewrite (sum_list_lengths_perm _ _
               (map_to_list_insert (delete k g) k l (lookup_delete_eq g k))).
    rewrite <- (sum_list_lengths_perm _ _ (map_to_list_delete g k l0 E)).
    simpl. lia.
  - rewrite (sum_list_lengths_perm _ _ (map_to_list_insert g k l E)).
    simpl. lia.
Qed.

Lemma total_records_append (g : gmap K (list expense)) k e :
  total_records (group_append k e g) = S (total_records g).
Proof.
  unfold group_append.
  pose proof (total_records_insert g k (default [] (g !! k) ++ [e])) as Hi.
  rewrite List.length_app in Hi. simpl in Hi. lia.
Qed.

Lemma total_records_sorted (g : gmap K (list expense)) :
  total_records (sort_by_date <$> g) = total_records g.
Proof.
  unfold total_records. rewrite map_to_list_fmap.
  induction (map_to_list g) as [|[k l] rest IH]; [reflexivity|].
  rewrite fmap_cons.
  change (sum_list (List.map (fun kl => length (snd kl)) ((k, l) :: rest)))
    with (length l
          + sum_list (List.map (fun kl : K * list expense => length (snd kl))
                        rest))%nat.
  rewrite <- IH.
  rewrite <- (Permutation_length (sort_by_date_perm l)).
  reflexivity.
Qed.

(** The loop over the rows counts the rows it accepts, and the groups
    grow by that many records. *)
Lemma scan_rows_counts (body : row -> option (K * expense)) rows g :
  snd (scan_rows body rows g) = length (accepted body rows)
  /\ total_records (fst (scan_rows body rows g))
     = (total_records g + length (accepted body rows))%nat.
Proof.
  revert g. induction rows as [|r rows IH]; intros g.
  - simpl. split; [reflexivity | lia].
  - unfold scan_rows. cbn [fold_left accepted List.filter].
    destruct (body r) as [[k e]|] eqn:E.
    + rewrite scan_rows_step. cbn [fst snd].
      destruct (IH (group_append k e g)) as [Hc Ht].
      unfold accepted in *. rewrite Hc, Ht, total_records_append.
      simpl. split; lia.
    + rewrite scan_rows_step. cbn [fst snd].
      destruct (IH g) as [Hc Ht]. unfold accepted in *.
      rewrite Hc, Ht. split; lia.
Qed.

End Counting.

Lemma extracted_total_app l1 l2 :
  extracted_total (l1 ++ l2) = (extracted_total l1 + extracted_total l2)%nat.
Proof.
  induction l1 as [|[] l1 IH]; simpl; rewrite ?IH; lia.
Qed.

Section CountingRuns.
Context `{PyLib}.

Lemma final_sheet_counts ws g log g' log' :
  Final.extract_sheet ws (g, log) = Some (g', log') ->
  (total_records g' + extracted_total log
   = total_records g + extracted_total log')%nat.
Proof.
  unfold Final.extract_sheet.
  destruct (iter_rows 1 1 ws); [discriminate|]. cbv zeta.
  destruct (col_day _);
    [|intros [= <- <-]; rewrite extracted_total_app; simpl; lia].
  destruct (col_place _);
    [|intros [= <- <-]; rewrite extracted_total_app; simpl; lia].
  destruct (col_amount _);
    [|intros [= <- <-]; rewrite extracted_total_app; simpl; lia].
  destruct (col_description _);
    [|intros [= <- <-]; rewrite extracted_total_app; simpl; lia].
  match goal with
  | |- context [scan_rows ?body ?rows ?g] =>
      pose proof (scan_rows_counts body rows g) as [Hc Ht];
      destruct (scan_rows body rows g) as [gs cnt]
  end.
  intros [= <- <-]. cbn [fst snd] in *.
  rewrite extracted_total_app. simpl. lia.
Qed.

Lemma preserve_sheet_counts ws g log g' log' :
  Preserve.extract_sheet ws (g, log) = Some (g', log') ->
  (total_records g' + extracted_total log
   = total_records g + extracted_total log')%nat.
Proof.
  unfold Preserve.extract_sheet.
  destruct (iter_rows 1 1 ws); [discriminate|]. cbv zeta.
  destruct (col_day _);
    [|intros [= <- <-]; rewrite extracted_total_app; simpl; lia].
  destruct (col_place _);
    [|intros [= <- <-]; rewrite extracted_total_app; simpl; lia].
  destruct (col_amount _);
    [|intros [= <- <-]; rewrite extracted_total_app; simpl; lia].
  destruct (col_description _);
    [|intros [= <- <-]; rewrite extracted_total_app; simpl; lia].
  match goal with
  | |- context [scan_rows ?body ?rows ?g] =>
      pose proof (scan_rows_counts body rows g) as [Hc Ht];
      destruct (scan_rows body rows g) as [gs cnt]
  end.
  intros [= <- <-]. cbn [fst snd] in *.
  rewrite extracted_total_app. simpl. lia.
Qed.

Lemma subcat_sheet_counts ws g log g' log' :
  Subcat.extract_sheet ws (g, log) = Some (g', log') ->
  (total_records g' + extracted_total log
   = total_records g + extracted_total log')%nat.
Proof.
  unfold Subcat.extract_sheet.
  destruct (iter_rows 1 1 ws); [discriminate|]. cbv zeta.
  destruct (col_day _);
    [|intros [= <- <-]; rewrite extracted_total_app; simpl; lia].
  destruct (col_place _);
    [|intros [= <- <-]; rewrite extracted_total_app; simpl; lia].
  destruct (col_amount _);
    [|intros [= <- <-]; rewrite extracted_total_app; simpl; lia].
  destruct (col_description _);
    [|intros [= <- <-]; rewrite extracted_total_app; simpl; lia].
  match goal with
  | |- context [scan_rows ?body ?rows ?g] =>
      pose proof (scan_rows_counts body rows g) as [Hc Ht];
      destruct (scan_rows body rows g) as [gs cnt]
  end.
  intros [= <- <-]. cbn [fst snd] in *.
  rewrite extracted_total_app. simpl. lia.
Qed.

Lemma final_run_counts wb g log :
  Final.extract_expenses wb = Some (g, log) ->
  total_records g = extracted_total log.
Proof.
  unfold Final.extract_expenses, Final.collect.
  destruct (Final.extract_sheets _ _) as [[g0 log0]|] eqn:E;
    [|discriminate].
  intros [= <- <-]. rewrite total_records_sorted.
  assert (Hgen : forall sheets g1 log1 g2 log2,
             Final.extract_sheets sheets (g1, log1) = Some (g2, log2) ->
             (total_records g2 + extracted_total log1
              = total_records g1 + extracted_total log2)%nat).
  { induction sheets as [|ws sheets IH]; intros g1 log1 g2 log2;
      cbn [Final.extract_sheets]; [now intros [= <- <-]|].
    destruct (Final.extract_sheet ws (g1, log1)) as [[g3 log3]|] eqn:Es;
      [|discriminate].
    intros Hrest. apply final_sheet_counts in Es.
    apply IH in Hrest. lia. }
  apply Hgen in E. pose proof (@total_records_empty Z _ _) as Hempty.
  cbn [extracted_total] in E. lia.
Qed.

Lemma preserve_run_counts wb g log :
  Preserve.extract_expenses wb = Some (g, log) ->
  total_records g = extracted_total log.
Proof.
  unfold Preserve.extract_expenses, Preserve.collect.
  destruct (Preserve.extract_sheets _ _) as [[g0 log0]|] eqn:E;
    [|discriminate].
  intros [= <- <-]. rewrite total_records_sorted.
  assert (Hgen : forall sheets g1 log1 g2 log2,
             Preserve.extract_sheets sheets (g1, log1) = Some (g2, log2) ->
             (total_records g2 + extracted_total log1
              = total_records g1 + extracted_total log2)%nat).
  { induction sheets as [|ws sheets IH]; intros g1 log1 g2 log2;
      cbn [Preserve.extract_sheets]; [now intros [= <- <-]|].
    destruct (Preserve.extract_sheet ws (g1, log1)) as [[g3 log3]|] eqn:Es;
      [|discriminate].
    intros Hrest. apply preserve_sheet_counts in Es.
    apply IH in Hrest. lia. }
  apply Hgen in E. pose proof (@total_records_empty string _ _) as Hempty.
  cbn [extracted_total] in E. lia.
Qed.

Lemma subcat_run_counts wb g log :
  Subcat.extract_expenses wb = Some (g, log) ->
  total_records g = extracted_total log.
Proof.
  unfold Subcat.extract_expenses, Subcat.collect.
  destruct (Subcat.extract_sheets _ _) as [[g0 log0]|] eqn:E;
    [|discriminate].
  intros [= <- <-]. rewrite total_records_sorted.
  assert (Hgen : forall sheets g1 log1 g2 log2,
             Subcat.extract_sheets sheets (g1, log1) = Some (g2, log2) ->
             (total_records g2 + extracted_total log1
              = total_records g1 + extracted_total log2)%nat).
  { induction sheets as [|ws sheets IH]; intros g1 log1 g2 log2;
      cbn [Subcat.extract_sheets]; [now intros [= <- <-]|].
    destruct (Subcat.extract_sheet ws (g1, log1)) as [[g3 log3]|] eqn:Es;
      [|discriminate].
    intros Hrest. apply subcat_sheet_counts in Es.
    apply IH in Hrest. lia. }
  apply Hgen in E. pose proof (@total_records_empty Z _ _) as Hempty.
  cbn [extracted_total] in E. lia.
Qed.

(** X10: the record counts add up: the loop over the rows of a sheet counts
    exactly the rows that its body accepts and adds that many records to
    the groups, and at the end of a run the groups hold as many records
    as the sheets have reported (the total that [main] prints is the sum
    of the counts printed per sheet). *)
Theorem record_counts_add_up :
  (forall wb g log,
      Final.extract_expenses wb = Some (g, log) ->
      total_records g = extracted_total log)
  /\ (forall wb g log,
      Preserve.extract_expenses wb = Some (g, log) ->
      total_records g = extracted_total log)
  /\ (forall wb g log,
      Subcat.extract_expenses wb = Some (g, log) ->
      total_records g = extracted_total log)
  /\ (forall (body : row -> option (Z * expense)) rows g,
      snd (scan_rows body rows g) = length (accepted body rows)
      /\ total_records (fst (scan_rows body rows g))
         = (total_records g + length (accepted body rows))%nat).
Proof.
  split; [|split; [|split]].
  - apply final_run_counts.
  - apply preserve_run_counts.
  - apply subcat_run_counts.
  - intros body rows g. apply scan_rows_counts.
Qed.

End CountingRuns.

Lemma record_counts_add_up_witness :
  total_records
    (sort_by_date
     <$> ({[ 2024 :=
               [{| date := "2024-06-15"; category := "食費";
                   subcategory := None; amount := 1200;
                   place := "SuperMart"; description := "groceries" |};
                half_record] ]} : gmap Z (list expense)))
  = extracted_total [Processing "24.06"; Extracted 2].
Proof.
  apply (proj1 (@record_counts_add_up ascii_pylib) [sample_sheet]).
  vm_compute. reflexivity.
Defined.

(** ** How the scripts relate on one row *)

Section Versions.
Context `{PyLib}.

Lemma str_or_empty_str v : str_or_empty v = str (or_empty v).
Proof. unfold str_or_empty, or_empty. now destruct (truthy v). Qed.

Lemma or_empty_idem v : or_empty (or_empty v) = or_empty v.
Proof.
  unfold or_empty. destruct (truthy v) eqn:E; [now rewrite E | reflexivity].
Qed.

Lemma str_or_empty_text s : str (or_empty (CStr s)) = s.
Proof.
  unfold or_empty. cbn [truthy].
  destruct (String.eqb s EmptyString) eqn:E; [|reflexivity].
  apply String.eqb_eq in E. now subst s.
Qed.

Lemma final_item_text place description :
  Final.item_text (CStr (str_or_empty place)) (CStr (str_or_empty description))
  = Final.item_text place description.
Proof.
  unfold Final.item_text.
  now rewrite !str_or_empty_text, !str_or_empty_str.
Qed.

Lemma split_item_text place description :
  Split.item_text (or_empty place) description
  = Split.item_text place description.
Proof. unfold Split.item_text. now rewrite or_empty_idem. Qed.

Lemma any_in_app l1 l2 text :
  any_in (l1 ++ l2) text = any_in l1 text || any_in l2 text.
Proof. unfold any_in. apply existsb_app. Qed.

Lemma basic_categorize_item place description :
  Basic.categorize_item place description
  = Split.categorize_item place description.
Proof. reflexivity. Qed.

(** X11: [convert_excel.py] and [convert_excel_split.py] treat a row alike,
    but for the place: the first script keeps a row only when its place
    is a non-empty text, and then both build the same record. *)
Theorem basic_row_is_split_row_with_place (sheet_name : string) (r : row)
    (e : expense) :
  Basic.extract_row sheet_name r = Some e
  <-> truthy (cell_at r 5) && is_str (cell_at r 5) = true
      /\ exists year, Split.extract_row sheet_name r = Some (year, e).
Proof.
  unfold Basic.extract_row, Split.extract_row, Basic.parse_date,
    Split.parse_date.
  destruct r as [|c0 r0].
  { split; [discriminate | now intros [_ [year Hs]]]. }
  generalize (c0 :: r0). clear c0 r0. intros r.
  destruct (length r <? 8)%nat.
  { split; [discriminate | now intros [_ [year Hs]]]. }
  cbv zeta.
  destruct (negb (is_number (cell_at r 6)) || le_zero (cell_at r 6)).
  { split; [discriminate | now intros [_ [year Hs]]]. }
  destruct (truthy (cell_at r 5) && is_str (cell_at r 5)) eqn:Hplace.
  2:{ split; [discriminate | now intros [Hf _]]. }
  destruct (parse_date_with sheet_name (cell_at r 3) 0)
    as [[[date_str y] m]|] eqn:Hp.
  2:{ destruct (negb (is_number (cell_at r 3)));
        (split; [discriminate | now intros [_ [year Hs]]]). }
  assert (Hnum : is_number (cell_at r 3) = true).
  { apply parse_date_with_exact in Hp
      as (g1 & g2 & yy & dd & _ & _ & _ & _ & _ & Hn & _). exact Hn. }
  rewrite Hnum. cbn [negb].
  destruct (parse_date_in_year _ _ _ _ _
              {| date := date_str; category := EmptyString;
                 subcategory := None; amount := 0; place := EmptyString;
                 description := EmptyString |} Hp eq_refl)
    as (_ & Hyear & _).
  rewrite Hyear.
  rewrite basic_categorize_item.
  unfold Split.categorize_item. rewrite split_item_text.
  destruct (int_num (cell_at r 6)) as [a|].
  2:{ split; [discriminate | now intros [_ [year Hs]]]. }
  split.
  - intros [= <-]. split; [reflexivity|]. now exists y.
  - intros [_ [year [= _ <-]]]. reflexivity.
Qed.

(** The four added keywords only move a text to the fixed or to the
    transport costs. *)
Lemma final_tables :
  Final.fixed_cost_words = Split.fixed_cost_words ++ ["ネオファースト"]
  /\ Final.communication_words
     = Split.communication_words ++ ["ドコモ"; "netflix"]
  /\ Final.utility_words = Split.utility_words
  /\ Final.leisure_words = Split.leisure_words
  /\ Final.transport_words
     = Split.transport_words ++ [added_transport_keyword]
  /\ Final.medical_words = Split.medical_words.
Proof. repeat split. Qed.

(** X12: the categories of [convert_excel_final.py] against those of
    [convert_excel_split.py]: a text with one of the three added
    fixed-cost keywords is a fixed cost; any other text keeps the
    category of the older script, unless it has the added transport
    keyword and the older script found no keyword before the medical
    ones, and then it is a transport cost. *)
Theorem final_keywords_extend_split (place description : cell) :
  let text := Final.item_text place description in
  let final := Final.categorize_item place description in
  let split := Split.categorize_item place description in
  (any_in added_fixed_cost_keywords text = true -> final = "固定費")
  /\ (any_in added_fixed_cost_keywords text = false ->
      contains added_transport_keyword text = false ->
      final = split)
  /\ (any_in added_fixed_cost_keywords text = false ->
      contains added_transport_keyword text = true ->
      final = split
      \/ final = "交通費" /\ (split = "医療費" \/ split = "食費")).
Proof.
  unfold Final.categorize_item, Split.categorize_item.
  change (Split.item_text place description)
    with (Final.item_text place description).
  generalize (Final.item_text place description). intros text.
  destruct final_tables as (-> & -> & -> & -> & -> & ->).
  rewrite !any_in_app.
  change (any_in ["ネオファースト"] text)
    with (contains "ネオファースト" text || false).
  change (any_in ["ドコモ"; "netflix"] text)
    with (contains "ドコモ" text || (contains "netflix" text || false)).
  change (any_in [added_transport_keyword] text)
    with (contains added_transport_keyword text || false).
  change (any_in added_fixed_cost_keywords text)
    with (contains "ネオファースト" text
          || (contains "ドコモ" text || (contains "netflix" text || false))).
  generalize (any_in Split.fixed_cost_words text)
    (any_in Split.communication_words text)
    (any_in Split.utility_words text)
    (any_in Split.leisure_words text)
    (any_in Split.transport_words text)
    (any_in Split.medical_words text)
    (contains "ネオファースト" text)
    (contains "ドコモ" text)
    (contains "netflix" text)
    (contains added_transport_keyword text).
  cbv zeta.
  intros b1 b2 b3 b4 b5 b6 c1 c2 c3 c4.
  destruct c1, c2, c3, c4, b1, b2, b3, b4, b5, b6; cbn [orb];
    (split; [|split]); intros; try congruence;
    try (left; reflexivity);
    try (right; split; [reflexivity | (left; reflexivity) || (right; reflexivity)]).
Qed.

(** X13: on the fixed columns of [convert_excel_split.py], the loop body of
    [convert_excel_final.py] keeps the same rows of eight cells or
    more, under the same year, and builds the same record but for the
    category, which it takes from its own tables. *)
Theorem final_on_fixed_columns_matches_split (sheet_name : string)
    (r : row) :
  (8 <= length r)%nat ->
  Final.extract_row sheet_name 3 5 6 7 r
  = option_map
      (fun ke =>
         (fst ke,
          with_category
            (Final.categorize_item (cell_at r 5) (cell_at r 7)) (snd ke)))
      (Split.extract_row sheet_name r).
Proof.
  intros Hlen.
  unfold Final.extract_row, Split.extract_row, Final.parse_date,
    Split.parse_date.
  destruct r as [|c0 r0]; [reflexivity|].
  revert Hlen. generalize (c0 :: r0). clear c0 r0. intros r Hlen.
  destruct (Nat.ltb_spec (length r) 8) as [Hlt|_]; [lia|].
  cbv zeta.
  destruct (negb (is_number (cell_at r 6)) || le_zero (cell_at r 6));
    [reflexivity|].
  destruct (negb (is_number (cell_at r 3))); [reflexivity|].
  destruct (parse_date_with sheet_name (cell_at r 3) 0)
    as [[[date_str y] m]|]; [|reflexivity].
  destruct (year_of_date date_str) as [year|]; [|reflexivity].
  destruct (int_num (cell_at r 6)) as [a|]; [|reflexivity].
  cbn [option_map fst snd]. unfold with_category.
  cbn [date subcategory amount place description].
  unfold Final.categorize_item. rewrite final_item_text.
  now rewrite !str_or_empty_str.
Qed.

End Versions.

Lemma final_on_fixed_columns_matches_split_witness :
  @Final.extract_row ascii_pylib "24.06" 3 5 6 7
    [CNone; CNone; CNone; CInt 15; CNone; CStr "docomo shop etc";
     CInt 1200; CStr "card"]
  = option_map
      (fun ke =>
         (fst ke,
          with_category
            (@Final.categorize_item ascii_pylib (CStr "docomo shop etc")
               (CStr "card"))
            (snd ke)))
      (@Split.extract_row ascii_pylib "24.06"
         [CNone; CNone; CNone; CInt 15; CNone; CStr "docomo shop etc";
          CInt 1200; CStr "card"]).
Proof.
  apply (@final_on_fixed_columns_matches_split ascii_pylib "24.06"
           [CNone; CNone; CNone; CInt 15; CNone; CStr "docomo shop etc";
            CInt 1200; CStr "card"]).
  simpl. lia.
Defined.

Lemma final_keywords_extend_split_witness :
  @Final.categorize_item ascii_pylib (CStr "Highway ETC") CNone = "交通費"
  /\ @Split.categorize_item ascii_pylib (CStr "Highway ETC") CNone = "食費".
Proof.
  destruct (@final_keywords_extend_split ascii_pylib (CStr "Highway ETC")
              CNone) as (_ & _ & H3).
  destruct (H3 eq_refl eq_refl) as [Heq | [Hf Hs]].
  - vm_compute in Heq. discriminate Heq.
  - split; [exact Hf | vm_compute; reflexivity].
Defined.

(** ** The order of the date strings *)

Lemma compare_app_same_length a a' b b' :
  String.length a = String.length a' ->
  String.compare (a +:+ b) (a' +:+ b')
  = match String.compare a a' with
    | Eq => String.compare b b'
    | c => c
    end.
Proof.
  revert a'. induction a as [|c a IH]; intros [|c' a'] Hlen;
    try discriminate Hlen; [reflexivity|].
  cbn [String.append String.compare].
  destruct (Ascii.compare c c'); try reflexivity.
  apply IH. now injection Hlen.
Qed.

Lemma comparison_eqb_eq a b : comparison_eqb a b = true -> a = b.
Proof. now destruct a, b. Qed.

(** Two digits compare as their numbers do, and four digits are two
    pairs of digits. *)
Lemma two_digits_table :
  forallb
    (fun i =>
       forallb
         (fun j =>
            comparison_eqb
              (String.compare (fmt_0d 2 (Z.of_nat i)) (fmt_0d 2 (Z.of_nat j)))
              (Z.of_nat i ?= Z.of_nat j))
         (seq 0 100))
    (seq 0 100) = true
  /\ forallb
       (fun k =>
          String.eqb (fmt_0d 4 (Z.of_nat k))
            (fmt_0d 2 (Z.of_nat k / 100) +:+ fmt_0d 2 (Z.of_nat k mod 100)))
       (seq 0 (100 * 100)) = true.
Proof. split; vm_compute; reflexivity. Qed.

Lemma compare_fmt_two m m' :
  0 <= m <= 99 -> 0 <= m' <= 99 ->
  String.compare (fmt_0d 2 m) (fmt_0d 2 m') = (m ?= m').
Proof.
  intros Hm Hm'. destruct two_digits_table as [Ht _].
  assert (Hin : In (Z.to_nat m) (seq 0 100)) by (apply in_seq; lia).
  assert (Hin' : In (Z.to_nat m') (seq 0 100)) by (apply in_seq; lia).
  pose proof (proj1 (forallb_forall _ _) Ht _ Hin) as Ht1. cbv beta in Ht1.
  pose proof (proj1 (forallb_forall _ _) Ht1 _ Hin') as Ht2. cbv beta in Ht2.
  rewrite !Z2Nat.id in Ht2 by lia.
  now apply comparison_eqb_eq.
Qed.

Lemma fmt_0d_four_split y :
  0 <= y <= 9999 ->
  fmt_0d 4 y = fmt_0d 2 (y / 100) +:+ fmt_0d 2 (y mod 100).
Proof.
  intros Hy. destruct two_digits_table as [_ Ht].
  assert (Hin : In (Z.to_nat y) (seq 0 (100 * 100))) by (apply in_seq; lia).
  pose proof (proj1 (forallb_forall _ _) Ht _ Hin) as Ht1. cbv beta in Ht1.
  rewrite Z2Nat.id in Ht1 by lia.
  now apply String.eqb_eq.
Qed.

Lemma compare_fmt_four y y' :
  0 <= y <= 9999 -> 0 <= y' <= 9999 ->
  String.compare (fmt_0d 4 y) (fmt_0d 4 y') = (y ?= y').
Proof.
  intros Hy Hy'. rewrite !fmt_0d_four_split by assumption.
  pose proof (Z.div_mod y 100 ltac:(lia)) as Hq.
  pose proof (Z.div_mod y' 100 ltac:(lia)) as Hq'.
  pose proof (Z.mod_pos_bound y 100 ltac:(lia)) as Hr.
  pose proof (Z.mod_pos_bound y' 100 ltac:(lia)) as Hr'.
  assert (0 <= y / 100 < 100)
    by (split; [apply Z.div_pos; lia | apply Z.div_lt_upper_bound; lia]).
  assert (0 <= y' / 100 < 100)
    by (split; [apply Z.div_pos; lia | apply Z.div_lt_upper_bound; lia]).
  rewrite compare_app_same_length by (rewrite !fmt_0d_two; [reflexivity|lia..]).
  rewrite !compare_fmt_two by lia.
  destruct (Z.compare_spec (y / 100) (y' / 100)),
    (Z.compare_spec (y mod 100) (y' mod 100)),
    (Z.compare_spec y y'); try reflexivity; lia.
Qed.

Lemma compare_date_string y m d y' m' d' :
  0 <= y <= 9999 -> 0 <= m <= 99 -> 0 <= d <= 99 ->
  0 <= y' <= 9999 -> 0 <= m' <= 99 -> 0 <= d' <= 99 ->
  String.compare (date_string y m d) (date_string y' m' d')
  = compare_days y m d y' m' d'.
Proof.
  intros Hy Hm Hd Hy' Hm' Hd'. unfold date_string, compare_days.
  rewrite !fmt_0d_signed_nonneg by lia.
  rewrite compare_app_same_length.
  2:{ rewrite !length_fmt_0d.
      pose proof (length_str_int_4 y Hy). pose proof (length_str_int_4 y' Hy').
      lia. }
  rewrite compare_fmt_four by assumption.
  destruct (y ?= y'); try reflexivity.
  rewrite (compare_app_same_length "-" "-") by reflexivity.
  cbn [String.compare Ascii.compare]. 
  change (N_of_ascii "-" ?= N_of_ascii "-")%N with Eq. cbv iota.
  rewrite compare_app_same_length by (rewrite !fmt_0d_two; [reflexivity|lia..]).
  rewrite compare_fmt_two by assumption.
  destruct (m ?= m'); try reflexivity.
  rewrite (compare_app_same_length "-" "-") by reflexivity.
  cbn [String.compare Ascii.compare].
  change (N_of_ascii "-" ?= N_of_ascii "-")%N with Eq. cbv iota.
  now apply compare_fmt_two.
Qed.

(** X14: the records are sorted by the text of their dates, and that is the
    order of the calendar: of two dates that [parse_date] returns, the
    first is below or equal to the second as a string exactly when its
    day is not after the day of the second, and the two strings are
    equal only for the same day. *)
Theorem date_text_order_is_calendar_order
    (name1 name2 : string) (day1 day2 : cell) (s1 s2 : string)
    (y1 m1 d1 y2 m2 d2 : Z) :
  parse_date_with name1 day1 0 = Some (s1, y1, m1) ->
  parse_date_with name2 day2 0 = Some (s2, y2, m2) ->
  int_num day1 = Some d1 ->
  int_num day2 = Some d2 ->
  (String.leb s1 s2 = true
   <-> y1 < y2 \/ y1 = y2 /\ (m1 < m2 \/ m1 = m2 /\ d1 <= d2))
  /\ (s1 = s2 <-> y1 = y2 /\ m1 = m2 /\ d1 = d2).
Proof.
  intros Hp1 Hp2 Hd1 Hd2.
  apply parse_date_with_exact in Hp1
    as (g1 & g2 & yy & dd & _ & Hy & Hm & -> & Hle & _ & Hdd & Hvalid & ->
        & _).
  apply parse_date_with_exact in Hp2
    as (g1' & g2' & yy' & dd' & _ & Hy' & Hm' & -> & Hle' & _ & Hdd' & Hvalid'
        & -> & _).
  rewrite Hd1 in Hdd. injection Hdd as <-.
  rewrite Hd2 in Hdd'. injection Hdd' as <-.
  apply int_str_nonneg in Hy, Hy'.
  destruct Hvalid as (_ & Hm1 & Hday1). destruct Hvalid' as (_ & Hm2 & Hday2).
  pose proof (days_in_month_le (2000 + yy) m1).
  pose proof (days_in_month_le (2000 + yy') m2).
  pose proof (compare_date_string (2000 + yy) m1 d1 (2000 + yy') m2 d2
                ltac:(lia) ltac:(lia) ltac:(lia) ltac:(lia) ltac:(lia)
                ltac:(lia)) as Hc.
  unfold String.leb. unfold compare_days in Hc.
  split.
  - rewrite Hc.
    destruct (Z.compare_spec (2000 + yy) (2000 + yy')),
      (Z.compare_spec m1 m2), (Z.compare_spec d1 d2);
      split; intros; try discriminate; try reflexivity; lia.
  - split.
    + intros Heq. rewrite Heq in Hc.
      assert (Hrefl : forall s, String.compare s s = Eq).
      { intros s. destruct (String.compare s s) eqn:E; [reflexivity|..];
          pose proof (String.compare_antisym s s) as Ha; rewrite E in Ha;
          discriminate Ha. }
      rewrite Hrefl in Hc.
      destruct (Z.compare_spec (2000 + yy) (2000 + yy')),
        (Z.compare_spec m1 m2), (Z.compare_spec d1 d2);
        try discriminate; lia.
    + intros (Ey & -> & ->). now rewrite Ey.
Qed.

Lemma date_text_order_is_calendar_order_witness :
  (String.leb "2024-02-29" "2024-03-01" = true
   <-> 2024 < 2024 \/ 2024 = 2024 /\ (2 < 3 \/ 2 = 3 /\ 29 <= 1))
  /\ ("2024-02-29" = "2024-03-01" <-> 2024 = 2024 /\ 2 = 3 /\ 29 = 1).
Proof.
  apply (date_text_order_is_calendar_order "24.02" "24.03" (CInt 29)
           (CInt 1));
    vm_compute; reflexivity.
Defined.

(** ** The files that [main] writes *)

Lemma to_int_not_nil z :
  Z.to_int z <> Decimal.Pos Decimal.Nil
  /\ Z.to_int z <> Decimal.Neg Decimal.Nil.
Proof.
  destruct z as [|p|p]; cbn; split; try discriminate;
    intros [= Hp];
    pose proof (DecimalPos.Unsigned.of_to p) as Hof;
    rewrite Hp in Hof; discriminate Hof.
Qed.

Lemma str_int_inj a b : str_int a = str_int b -> a = b.
Proof.
  unfold str_int. intros Heq.
  apply (f_equal NilZero.int_of_string) in Heq.
  destruct (to_int_not_nil a) as [Ha1 Ha2].
  destruct (to_int_not_nil b) as [Hb1 Hb2].
  rewrite !NilZero.isi in Heq by assumption.
  injection Heq as Heq.
  apply (f_equal Z.of_int) in Heq. now rewrite !DecimalZ.of_to in Heq.
Qed.

Lemma append_inv_tail (s1 s2 t : string) :
  s1 +:+ t = s2 +:+ t -> s1 = s2.
Proof.
  revert s2. induction s1 as [|c s1 IH]; intros [|c' s2] Heq.
  - reflexivity.
  - apply (f_equal String.length) in Heq.
    cbn [String.append] in Heq. cbn [String.length] in Heq.
    rewrite length_app in Heq. lia.
  - apply (f_equal String.length) in Heq.
    cbn [String.append] in Heq. cbn [String.length] in Heq.
    rewrite length_app in Heq. lia.
  - cbn [String.append] in Heq. injection Heq as -> Heq.
    f_equal. now apply IH.
Qed.

Lemma year_path_inj (prefix suffix : string) y1 y2 :
  prefix +:+ str_int y1 +:+ suffix = prefix +:+ str_int y2 +:+ suffix ->
  y1 = y2.
Proof.
  intros Heq. apply String.app_inj in Heq.
  now apply append_inv_tail, str_int_inj in Heq.
Qed.

Lemma final_output_file_inj y1 y2 :
  Final.output_file y1 = Final.output_file y2 -> y1 = y2.
Proof.
  unfold Final.output_file. intros Heq. apply String.app_inj in Heq.
  now apply year_path_inj in Heq.
Qed.

Lemma split_output_file_inj y1 y2 :
  Split.output_file y1 = Split.output_file y2 -> y1 = y2.
Proof.
  unfold Split.output_file. intros Heq. apply String.app_inj in Heq.
  now apply year_path_inj in Heq.
Qed.

(** Writing the files of a list of distinct keys, one after the
    other. *)
Lemma fold_insert_lookup {A} (path : A -> string) (content : A -> csv_file)
    (keys : list A) (files : file_store) :
  (forall a b, path a = path b -> a = b) ->
  NoDup keys ->
  let files' :=
    fold_left (fun fs k => <[path k := content k]> fs) keys files in
  (forall k, In k keys -> files' !! path k = Some (content k))
  /\ (forall p, (forall k, In k keys -> p <> path k) ->
                files' !! p = files !! p).
Proof.
  intros Hinj. revert files.
  induction keys as [|k keys IH]; intros files Hnd; cbn [fold_left].
  - split; [intros k []|reflexivity].
  - apply NoDup_cons in Hnd as [Hk Hnd].
    destruct (IH (<[path k := content k]> files) Hnd) as [IH1 IH2].
    split.
    + intros k' [<-|Hin]; [|now apply IH1].
      rewrite IH2; [apply lookup_insert_eq|].
      intros k' Hin Heq. apply Hinj in Heq. subst k'.
      apply Hk. now apply list_elem_of_In.
    + intros p Hp. rewrite IH2.
      * apply lookup_insert_ne. intros Heq. now apply (Hp k); [left|].
      * intros k' Hin. apply Hp. now right.
Qed.

(** The years of a dict, sorted. *)
Lemma sorted_years_perm (g : gmap Z (list expense)) :
  Permutation (sorted_years g) (List.map fst (map_to_list g)).
Proof. unfold sorted_years. apply merge_sort_Permutation. Qed.

Lemma map_fmap {A B} (f : A -> B) l : List.map f l = f <$> l.
Proof. induction l; [reflexivity|]. cbn. now f_equal. Qed.

Lemma sorted_years_NoDup (g : gmap Z (list expense)) :
  NoDup (sorted_years g).
Proof.
  rewrite sorted_years_perm, map_fmap. apply NoDup_fst_map_to_list.
Qed.

Lemma sorted_years_In (g : gmap Z (list expense)) y :
  In y (sorted_years g) <-> is_Some (g !! y).
Proof.
  rewrite <- list_elem_of_In, sorted_years_perm, map_fmap, list_elem_of_fmap.
  split.
  - intros [[k l] [-> Hin]]. apply elem_of_map_to_list in Hin.
    now exists l.
  - intros [l Hl]. exists (y, l). split; [reflexivity|].
    now apply elem_of_map_to_list.
Qed.

Lemma sorted_years_sorted (g : gmap Z (list expense)) :
  StronglySorted Z.le (sorted_years g).
Proof.
  unfold sorted_years. apply StronglySorted_merge_sort.
  - intros a b c. apply Z.le_trans.
  - intros a b. lia.
Qed.

Lemma sum_list_perm (l1 l2 : list nat) :
  Permutation l1 l2 -> sum_list l1 = sum_list l2.
Proof. induction 1; simpl; lia. Qed.

Lemma sorted_years_total (g : gmap Z (list expense)) :
  sum_list (List.map (fun y => length (default [] (g !! y))) (sorted_years g))
  = total_records g.
Proof.
  rewrite (sum_list_perm _ _
             (Permutation_map _ (sorted_years_perm g))).
  unfold total_records. rewrite List.map_map. f_equal.
  apply List.map_ext_in. intros [k l] Hin. cbn [fst snd].
  apply list_elem_of_In, elem_of_map_to_list in Hin. now rewrite Hin.
Qed.

Lemma year_counts_sorted_years (g : gmap Z (list expense)) :
  year_counts g
    (List.map (fun y => (y, length (default [] (g !! y)))) (sorted_years g)).
Proof.
  unfold year_counts. rewrite List.map_map. cbn [fst].
  rewrite List.map_id.
  split; [apply sorted_years_sorted|]. split; [apply sorted_years_NoDup|].
  intros y n. rewrite in_map_iff. split.
  - intros [y' [[= -> <-] Hin]]. apply sorted_years_In in Hin as [l Hl].
    exists l. now rewrite Hl.
  - intros [l [Hl ->]]. exists y. rewrite Hl. split; [reflexivity|].
    apply sorted_years_In. now exists l.
Qed.

Section Mains.
Context `{PyLib}.

Lemma final_save_years g years files printed total_count :
  fold_left (Final.save_year g) years (files, printed, total_count)
  = (fold_left
       (fun fs y =>
          <[Final.output_file y
            := Final.csv_header
               :: List.map Final.csv_row (default [] (g !! y))]> fs)
       years files,
     printed
     ++ List.map (fun y => (y, length (default [] (g !! y)))) years,
     (total_count
      + sum_list (List.map (fun y => length (default [] (g !! y))) years))%nat).
Proof.
  revert files printed total_count.
  induction years as [|y years IH]; intros files printed total_count.
  - cbn. now rewrite app_nil_r, Nat.add_0_r.
  - cbn [fold_left Final.save_year]. rewrite IH.
    unfold Final.save_to_csv. cbn [List.map].
    rewrite <- app_assoc. cbn [app].
    change (sum_list (?a :: ?l)) with (a + sum_list l)%nat.
    now rewrite Nat.add_assoc.
Qed.

Lemma split_save_years g years files printed :
  fold_left (Split.save_year g) years (files, printed)
  = (fold_left
       (fun fs y =>
          <[Split.output_file y
            := Split.csv_header
               :: List.map Split.csv_row (default [] (g !! y))]> fs)
       years files,
     printed
     ++ List.map (fun y => (y, length (default [] (g !! y)))) years).
Proof.
  revert files printed.
  induction years as [|y years IH]; intros files printed.
  - cbn. now rewrite app_nil_r.
  - cbn [fold_left Split.save_year]. rewrite IH.
    unfold Split.save_to_csv. cbn [List.map].
    rewrite <- app_assoc. reflexivity.
Qed.

Lemma year_files_fold (path : Z -> string) header row
    (g : gmap Z (list expense)) files :
  (forall a b, path a = path b -> a = b) ->
  year_files path header row g files
    (fold_left
       (fun fs y =>
          <[path y := header :: List.map row (default [] (g !! y))]> fs)
       (sorted_years g) files).
Proof.
  intros Hinj.
  destruct (fold_insert_lookup path
              (fun y => header :: List.map row (default [] (g !! y)))
              (sorted_years g) files Hinj (sorted_years_NoDup g))
    as [H1 H2].
  split.
  - intros year l Hl. rewrite H1; [now rewrite Hl|].
    apply sorted_years_In. now exists l.
  - intros p Hp. apply H2. intros y Hin. apply Hp.
    now apply sorted_years_In.
Qed.

Lemma year_files_empty path header row files :
  year_files path header row ∅ files files.
Proof.
  split; [intros year l Hl; now rewrite lookup_empty in Hl | reflexivity].
Qed.

(** X15: [main] of [convert_excel_final.py] and of [convert_excel_split.py]
    writes one file per year: after a run that extracted the groups [g],
    the file [imported_data_<year>.csv] of every year of [g] holds the
    header and the rows of that year's records in their order, and no
    other file is touched; one count is printed per year, in ascending
    order of the years, and the total that the first script prints is
    the number of all records, which is also the sum of the counts
    printed per sheet.  Without a record nothing is written, and a run
    of the first script that fails writes nothing either. *)
Theorem main_writes_one_file_per_year (wb : workbook)
    (files : file_store) :
  match Final.extract_expenses wb with
  | None => Final.main wb files = (files, Failed)
  | Some (g, log) =>
      year_files Final.output_file Final.csv_header Final.csv_row g
        files (fst (Final.main wb files))
      /\ (g = ∅ -> Final.main wb files = (files, NoData))
      /\ (g <> ∅ ->
          exists printed,
            snd (Final.main wb files) = Done (printed, total_records g)
            /\ year_counts g printed
            /\ total_records g = extracted_total log)
  end
  /\ let g := fst (Split.extract_expenses wb) in
     year_files Split.output_file Split.csv_header Split.csv_row g
       files (fst (Split.main wb files))
     /\ (g = ∅ -> Split.main wb files = (files, NoData))
     /\ (g <> ∅ ->
         exists printed,
           snd (Split.main wb files) = Done printed
           /\ year_counts g printed).
Proof.
  split.
  - unfold Final.main.
    destruct (Final.extract_expenses wb) as [[g log]|] eqn:E;
      [|reflexivity].
    destruct (bool_decide (g = ∅)) eqn:Hempty.
    + apply bool_decide_eq_true in Hempty. subst g.
      split; [apply year_files_empty|]. split; [reflexivity|].
      intros Hne. now contradiction Hne.
    + apply bool_decide_eq_false in Hempty.
      rewrite final_save_years. cbn [fst snd app].
      split; [apply year_files_fold, final_output_file_inj|].
      split; [intros ->; now contradiction Hempty|].
      intros _. eexists. split; [|split].
      * rewrite sorted_years_total. reflexivity.
      * apply year_counts_sorted_years.
      * apply (final_run_counts wb g log E).
  - unfold Split.main.
    destruct (Split.extract_expenses wb) as [g log] eqn:E. cbn [fst].
    destruct (bool_decide (g = ∅)) eqn:Hempty.
    + apply bool_decide_eq_true in Hempty. subst g.
      split; [apply year_files_empty|]. split; [reflexivity|].
      intros Hne. now contradiction Hne.
    + apply bool_decide_eq_false in Hempty.
      rewrite split_save_years. cbn [fst snd app].
      split; [apply year_files_fold, split_output_file_inj|].
      split; [intros ->; now contradiction Hempty|].
      intros _. eexists. split; [reflexivity|].
      apply year_counts_sorted_years.
Qed.

End Mains.

(** ** The statistics of [convert_excel.py] *)

Lemma category_counts_fold (expenses : list expense)
    (counts : gmap string nat) (cat : string) :
  fold_left
    (fun counts exp =>
       <[category exp := (default 0%nat (counts !! category exp) + 1)%nat]>
         counts)
    expenses counts !! cat
  = match counts !! cat with
    | Some k => Some (k + count_category cat expenses)%nat
    | None =>
        if (count_category cat expenses =? 0)%nat then None
        else Some (count_category cat expenses)
    end.
Proof.
  revert counts. induction expenses as [|e expenses IH]; intros counts.
  - cbn. destruct (counts !! cat); [f_equal; lia | reflexivity].
  - cbn [fold_left]. rewrite IH. unfold count_category.
    cbn [List.filter].
    destruct (String.eqb_spec (category e) cat) as [->|Hne].
    + rewrite lookup_insert_eq. cbn [length].
      destruct (counts !! cat); cbn; f_equal; lia.
    + now rewrite lookup_insert_ne.
Qed.

Lemma sum_counts_perm (l1 l2 : list (string * nat)) :
  Permutation l1 l2 ->
  sum_list (List.map snd l1) = sum_list (List.map snd l2).
Proof. induction 1; simpl; lia. Qed.

Lemma sum_counts_insert (counts : gmap string nat) k v :
  (sum_list (List.map snd (map_to_list (<[k := v]> counts)))
   + default 0 (counts !! k)
   = sum_list (List.map snd (map_to_list counts)) + v)%nat.
Proof.
  destruct (counts !! k) as [v0|] eqn:E; simpl.
  - rewrite <- (insert_delete_eq counts k v).
    rewrite (sum_counts_perm _ _
               (map_to_list_insert (delete k counts) k v
                  (lookup_delete_eq counts k))).
    rewrite <- (sum_counts_perm _ _ (map_to_list_delete counts k v0 E)).
    simpl. lia.
  - rewrite (sum_counts_perm _ _ (map_to_list_insert counts k v E)).
    simpl. lia.
Qed.

Lemma sum_counts_fold (expenses : list expense) (counts : gmap string nat) :
  sum_list
    (List.map snd
       (map_to_list
          (fold_left
             (fun counts exp =>
                <[category exp
                  := (default 0%nat (counts !! category exp) + 1)%nat]>
                  counts)
             expenses counts)))
  = (sum_list (List.map snd (map_to_list counts)) + length expenses)%nat.
Proof.
  revert counts. induction expenses as [|e expenses IH]; intros counts.
  - cbn. lia.
  - cbn [fold_left]. rewrite IH.
    pose proof (sum_counts_insert counts (category e)
                  (default 0%nat (counts !! category e) + 1)%nat).
    cbn [length]. lia.
Qed.

Lemma last_In {A} (l : list A) (d : A) :
  l <> [] -> In (List.last l d) l.
Proof.
  induction l as [|x [|y l] IH]; intros Hne; [now contradiction Hne|..].
  - now left.
  - right. apply IH. discriminate.
Qed.

Lemma sorted_last (l : list expense) (d e : expense) :
  StronglySorted date_le l -> In e l -> date_le e (List.last l d).
Proof.
  induction l as [|x [|y l] IH]; intros Hs He; [contradiction|..].
  - destruct He as [<-|[]]. apply string_leb_refl.
  - apply StronglySorted_inv in Hs as [Hs Hall].
    change (List.last (x :: y :: l) d) with (List.last (y :: l) d).
    destruct He as [<-|He]; [|now apply IH].
    rewrite List.Forall_forall in Hall. apply Hall, last_In. discriminate.
Qed.

Lemma sorted_first_last (first : expense) (rest : list expense) :
  StronglySorted date_le (first :: rest) ->
  forall e, In e (first :: rest) ->
            date_le first e /\ date_le e (List.last (first :: rest) first).
Proof.
  intros Hs e He. split; [|now apply sorted_last].
  apply StronglySorted_inv in Hs as [_ Hall].
  destruct He as [<-|He]; [apply string_leb_refl|].
  rewrite List.Forall_forall in Hall. now apply Hall.
Qed.

Section Statistics.
Context `{PyLib}.

Lemma basic_run_labels wb e :
  In e (Basic.extract_expenses wb) -> In (category e) keyword_labels.
Proof.
  intros He.
  apply (proj1 (List.Forall_forall
                  (fun e => In (category e) keyword_labels)
                  (Basic.extract_expenses wb)));
    [|exact He].
  eapply (basic_extract_expenses_all
            (fun e => In (category e) keyword_labels)).
  intros s r e0. unfold Basic.extract_row.
  destruct r; [discriminate|].
  repeat match goal with
    | |- context [if ?b then _ else _] => destruct b; try discriminate
    | |- context [match ?o with Some _ => _ | None => _ end] =>
        destruct o; try discriminate
    end.
  intros [= <-]. apply keyword_label_In.
Qed.

(** X16: [main] of [convert_excel.py]: without a record it writes nothing;
    otherwise it writes the header and one row per record to its one
    file, and the figures it prints describe the records: every category
    is printed with the number of its records, the categories are among
    the six labels of the classifier, the counts add up to the number of
    records saved, and the period that is printed runs from the smallest
    to the largest date of the records. *)
Theorem basic_main_statistics (wb : workbook) (files : file_store) :
  let expenses := Basic.extract_expenses wb in
  (expenses = [] -> Basic.main wb files = (files, NoData))
  /\ (expenses <> [] ->
      exists stats,
        Basic.main wb files
        = (<[Basic.output_file
             := Basic.csv_header :: List.map Basic.csv_row expenses]> files,
           Done stats)
        /\ Basic.saved stats = length expenses
        /\ (forall cat,
               Basic.per_category stats !! cat
               = if (count_category cat expenses =? 0)%nat then None
                 else Some (count_category cat expenses))
        /\ (forall cat,
               is_Some (Basic.per_category stats !! cat) ->
               In cat keyword_labels)
        /\ sum_list (List.map snd (map_to_list (Basic.per_category stats)))
           = length expenses
        /\ (forall e,
               In e expenses ->
               String.leb (Basic.first_date stats) (date e) = true
               /\ String.leb (date e) (Basic.last_date stats) = true)
        /\ exists e1 e2,
             In e1 expenses /\ In e2 expenses
             /\ Basic.first_date stats = date e1
             /\ Basic.last_date stats = date e2).
Proof.
  cbv zeta. unfold Basic.main.
  pose proof (basic_run_labels wb) as Hlabels.
  assert (Hsorted : StronglySorted date_le (Basic.extract_expenses wb))
    by apply sort_by_date_sorted.
  destruct (Basic.extract_expenses wb) as [|first rest].
  { split; [reflexivity | intros Hne; now contradiction Hne]. }
  split; [discriminate|]. intros _.
  eexists. split; [reflexivity|].
  cbn [Basic.saved Basic.per_category Basic.first_date Basic.last_date].
  split; [reflexivity|].
  assert (Hcounts : forall cat,
             Basic.category_counts (first :: rest) !! cat
             = if (count_category cat (first :: rest) =? 0)%nat then None
               else Some (count_category cat (first :: rest))).
  { intros cat. unfold Basic.category_counts.
    rewrite category_counts_fold. now rewrite lookup_empty. }
  split; [exact Hcounts|].
  split.
  { intros cat [n Hn]. rewrite Hcounts in Hn.
    destruct (count_category cat (first :: rest)) as [|k] eqn:Ek;
      [discriminate|].
    unfold count_category in Ek.
    destruct (List.filter _ (first :: rest)) as [|e l] eqn:Ef;
      [discriminate|].
    assert (Hin : In e (List.filter
                          (fun e => String.eqb (category e) cat)
                          (first :: rest)))
      by (rewrite Ef; now left).
    apply filter_In in Hin as [Hin Hcat].
    apply String.eqb_eq in Hcat. subst cat. now apply Hlabels. }
  split.
  { unfold Basic.category_counts. rewrite sum_counts_fold.
    now rewrite map_to_list_empty. }
  split.
  { intros e He. now apply sorted_first_last. }
  exists first, (List.last (first :: rest) first).
  split; [now left|]. split; [|split; reflexivity].
  apply last_In. discriminate.
Qed.

End Statistics.

(** ** [main] of [convert_excel_with_subcategories.py] *)

Lemma subcat_csv_rows (l : list expense) :
  Forall (fun e => is_Some (subcategory e)) l ->
  Subcat.csv_rows l = (List.map six_fields l, true).
Proof.
  induction 1 as [|e l [sub Hsub] _ IH]; [reflexivity|].
  cbn [Subcat.csv_rows List.map]. unfold Subcat.csv_row, six_fields at 1.
  rewrite Hsub, IH. reflexivity.
Qed.

Lemma subcat_output_file_inj y1 y2 :
  Subcat.output_file y1 = Subcat.output_file y2 -> y1 = y2.
Proof.
  unfold Subcat.output_file. intros Heq. apply String.app_inj in Heq.
  now apply year_path_inj in Heq.
Qed.

Lemma subcat_save_years (g : gmap Z (list expense)) years files printed
    total_count :
  (forall y l, g !! y = Some l ->
               sort_by_date l = l
               /\ Forall (fun e => is_Some (subcategory e)) l) ->
  fold_left (Subcat.save_year g) years (files, printed, total_count, true)
  = (fold_left
       (fun fs y =>
          <[Subcat.output_file y
            := Subcat.csv_header
               :: List.map six_fields (default [] (g !! y))]> fs)
       years files,
     printed
     ++ List.map (fun y => (y, length (default [] (g !! y)))) years,
     (total_count
      + sum_list (List.map (fun y => length (default [] (g !! y))) years))%nat,
     true).
Proof.
  intros Hg. revert files printed total_count.
  induction years as [|y years IH]; intros files printed total_count.
  - cbn. now rewrite app_nil_r, Nat.add_0_r.
  - cbn [fold_left Subcat.save_year]. unfold Subcat.save_to_csv.
    assert (Hy : sort_by_date (default [] (g !! y)) = default [] (g !! y)
                 /\ Forall (fun e => is_Some (subcategory e))
                      (default [] (g !! y))).
    { destruct (g !! y) as [l|] eqn:E; [now apply (Hg y)|].
      split; [reflexivity | constructor]. }
    destruct Hy as [Hsort Hsub]. rewrite Hsort, (subcat_csv_rows _ Hsub).
    rewrite IH. cbn [List.map].
    rewrite <- app_assoc. cbn [app].
    change (sum_list (?a :: ?l)) with (a + sum_list l)%nat.
    now rewrite Nat.add_assoc.
Qed.

Section SubcatMain.
Context `{PyLib}.

Lemma subcat_run_groups wb g log :
  Subcat.extract_expenses wb = Some (g, log) ->
  forall y l, g !! y = Some l ->
              sort_by_date l = l
              /\ Forall (fun e => is_Some (subcategory e)) l.
Proof.
  intros Hrun y l Hl. split.
  - unfold Subcat.extract_expenses in Hrun.
    destruct (Subcat.collect wb) as [[g0 log0]|]; [|discriminate].
    injection Hrun as <- <-.
    rewrite lookup_fmap in Hl.
    destruct (g0 !! y) as [l0|]; [|discriminate].
    injection Hl as <-. apply sort_by_date_idempotent.
  - eapply (subcat_run_all (fun e => is_Some (subcategory e)));
      [|exact Hrun|exact Hl].
    intros s header d p a ds r k e. unfold Subcat.extract_row.
    destruct r; [discriminate|].
    destruct (negb _ || le_zero _); [discriminate|].
    destruct (negb _); [discriminate|].
    destruct (Subcat.parse_date s _) as [[[? ?] ?]|]; [|discriminate].
    destruct (Subcat.extract_category_and_subcategory _ _ _) as [cat sub].
    destruct (int_num _); [|discriminate].
    intros [= <- <-]. now eexists.
Qed.

(** X17: [main] of [convert_excel_with_subcategories.py] writes one file per
    year, with six fields per row.  Every record that the extraction
    returns has its sub-category, so that writing a row never fails for
    a missing key, and the groups are sorted already, so that sorting
    them again in [main] changes nothing: the file of a year holds the
    rows of the records of the year in the order of their group.  The
    total printed is the number of all records. *)
Theorem subcat_main_writes_every_record (wb : workbook)
    (files : file_store) :
  match Subcat.extract_expenses wb with
  | None => Subcat.main wb files = (files, Failed)
  | Some (g, log) =>
      (forall y l e, g !! y = Some l -> In e l -> is_Some (subcategory e))
      /\ (forall y l, g !! y = Some l -> sort_by_date l = l)
      /\ year_files Subcat.output_file Subcat.csv_header six_fields g
           files (fst (Subcat.main wb files))
      /\ (g = ∅ -> Subcat.main wb files = (files, NoData))
      /\ (g <> ∅ ->
          exists printed,
            snd (Subcat.main wb files) = Done (printed, total_records g)
            /\ year_counts g printed
            /\ total_records g = extracted_total log)
  end.
Proof.
  unfold Subcat.main.
  destruct (Subcat.extract_expenses wb) as [[g log]|] eqn:E;
    [|reflexivity].
  pose proof (subcat_run_groups wb g log E) as Hg.
  split.
  { intros y l e Hl He. destruct (Hg y l Hl) as [_ Hall].
    rewrite List.Forall_forall in Hall. now apply Hall. }
  split; [intros y l Hl; now apply (Hg y l)|].
  destruct (bool_decide (g = ∅)) eqn:Hempty.
  - apply bool_decide_eq_true in Hempty. subst g.
    split; [apply year_files_empty|]. split; [reflexivity|].
    intros Hne. now contradiction Hne.
  - apply bool_decide_eq_false in Hempty.
    rewrite (subcat_save_years g _ _ _ _ Hg). cbn [fst snd app].
    split; [apply year_files_fold, subcat_output_file_inj|].
    split; [intros ->; now contradiction Hempty|].
    intros _. eexists. split; [|split].
    + rewrite sorted_years_total. reflexivity.
    + apply year_counts_sorted_years.
    + apply (subcat_run_counts wb g log E).
Qed.

End SubcatMain.

(** ** [main] of [convert_excel_preserve_categories.py] *)

Lemma string_leb_antisym a b :
  String.leb a b = true -> String.leb b a = true -> a = b.
Proof.
  unfold String.leb. rewrite (String.compare_antisym b a).
  destruct (String.compare a b) eqn:E; cbn; try discriminate.
  intros _ _. now apply String.compare_eq_iff.
Qed.

Lemma same_date_refl e : same_date (date e) e = true.
Proof. apply String.eqb_refl. Qed.

Lemma filter_same_date_In d e l :
  In e (List.filter (same_date d) l) -> In e l.
Proof. intros Hin. now apply filter_In in Hin. Qed.

(** A list sorted by date is determined by its records of each date. *)
Lemma sorted_by_filters (A B : list expense) :
  StronglySorted date_le A -> StronglySorted date_le B ->
  (forall d, List.filter (same_date d) A = List.filter (same_date d) B) ->
  A = B.
Proof.
  revert B. induction A as [|a A IH]; intros B HA HB Hf.
  - destruct B as [|b B]; [reflexivity|].
    specialize (Hf (date b)). cbn [List.filter] in Hf.
    rewrite same_date_refl in Hf. discriminate Hf.
  - destruct B as [|b B].
    { specialize (Hf (date a)). cbn [List.filter] in Hf.
      rewrite same_date_refl in Hf. discriminate Hf. }
    apply StronglySorted_inv in HA as [HA HaA].
    apply StronglySorted_inv in HB as [HB HbB].
    rewrite List.Forall_forall in HaA, HbB.
    assert (Hab : date a = date b).
    { apply string_leb_antisym.
      - assert (Hin : In b (a :: A)).
        { apply (filter_same_date_In (date b)). rewrite Hf.
          cbn [List.filter]. rewrite same_date_refl. now left. }
        destruct Hin as [<-|Hin]; [apply string_leb_refl | now apply HaA].
      - assert (Hin : In a (b :: B)).
        { apply (filter_same_date_In (date a)). rewrite <- Hf.
          cbn [List.filter]. rewrite same_date_refl. now left. }
        destruct Hin as [<-|Hin]; [apply string_leb_refl | now apply HbB]. }
    pose proof (Hf (date a)) as H1. cbn [List.filter] in H1.
    rewrite same_date_refl in H1.
    assert (Hb : same_date (date a) b = true)
      by (unfold same_date; rewrite Hab; apply String.eqb_refl).
    rewrite Hb in H1. injection H1 as -> H1.
    f_equal. apply IH; try assumption.
    intros d. specialize (Hf d). cbn [List.filter] in Hf.
    destruct (same_date d b); [now injection Hf | exact Hf].
Qed.

Lemma sort_by_filters (l1 l2 : list expense) :
  (forall d, List.filter (same_date d) l1 = List.filter (same_date d) l2) ->
  sort_by_date l1 = sort_by_date l2.
Proof.
  intros Hf. apply sorted_by_filters; try apply sort_by_date_sorted.
  intros d. now rewrite !sort_by_date_stable.
Qed.

(** The key of a month is the first seven characters of the dates of its
    records. *)
Lemma substring_app k rest :
  String.substring 0 (String.length k) (k +:+ rest) = k.
Proof.
  induction k as [|c k IH]; cbn; [now destruct rest | now rewrite IH].
Qed.

Lemma month_key_length y m :
  2000 <= y <= 9999 -> 1 <= m <= 12 ->
  String.length (str_int y +:+ "-" +:+ fmt_0d 2 m) = 7%nat.
Proof.
  intros Hy Hm. rewrite <- str_int_four_digits by lia.
  rewrite !length_app, length_fmt_0d, fmt_0d_two by lia.
  pose proof (length_str_int_4 y ltac:(lia)). cbn [String.length]. lia.
Qed.

Lemma month_key_of_date k e :
  dated_in_month k e -> k = String.substring 0 7 (date e).
Proof.
  intros (y & m & d & Hy & (_ & Hm & _) & Hk & Hd).
  rewrite Hd. rewrite <- (month_key_length y m Hy Hm), <- Hk.
  symmetry. apply substring_app.
Qed.

Lemma year_of_month_key y m :
  2000 <= y <= 9999 -> 0 <= m ->
  Preserve.year_of_key (str_int y +:+ "-" +:+ fmt_0d 2 m) = str_int y.
Proof.
  intros Hy Hm. unfold Preserve.year_of_key.
  change ("-" +:+ fmt_0d 2 m) with (String "-" (fmt_0d 2 m)).
  rewrite split_digits_then; [reflexivity|].
  rewrite <- str_int_four_digits by lia. apply all_digits_fmt_0d. lia.
Qed.

(** The first loop of [main]. *)
Lemma months_of_none Y items :
  existsb (fun item => String.eqb (Preserve.year_of_key (fst item)) Y) items
  = false ->
  months_of Y items = [].
Proof.
  unfold months_of. induction items as [|[k l] items IH]; [reflexivity|].
  cbn [existsb List.filter fst].
  destruct (String.eqb (Preserve.year_of_key k) Y); [discriminate|].
  exact IH.
Qed.

Lemma join_years_fold items (acc : gmap string (list expense)) Y :
  fold_left
    (fun by_year item =>
       let year := Preserve.year_of_key (fst item) in
       <[year := default [] (by_year !! year) ++ snd item]> by_year)
    items acc !! Y
  = if existsb
         (fun item => String.eqb (Preserve.year_of_key (fst item)) Y) items
    then Some (default [] (acc !! Y) ++ months_of Y items)
    else acc !! Y.
Proof.
  revert acc. induction items as [|[k l] items IH]; intros acc;
    [reflexivity|].
  cbn [fold_left existsb fst snd]. rewrite IH. cbv zeta.
  destruct (String.eqb_spec (Preserve.year_of_key k) Y) as [Heq|Hne].
  - cbn [orb]. rewrite Heq, lookup_insert_eq. cbn [default].
    assert (Hm : months_of Y ((k, l) :: items) = l ++ months_of Y items).
    { unfold months_of. cbn [List.filter fst].
      now rewrite Heq, String.eqb_refl. }
    destruct (existsb _ items) eqn:Ex.
    + now rewrite Hm, app_assoc.
    + now rewrite Hm, (months_of_none _ _ Ex), app_nil_r.
  - cbn [orb]. rewrite lookup_insert_ne by assumption.
    assert (Hm : months_of Y ((k, l) :: items) = months_of Y items).
    { unfold months_of. cbn [List.filter fst].
      destruct (String.eqb_spec (Preserve.year_of_key k) Y);
        [contradiction | reflexivity]. }
    now rewrite Hm.
Qed.

Lemma join_years_lookup items Y :
  Preserve.join_years items !! Y
  = if existsb
         (fun item => String.eqb (Preserve.year_of_key (fst item)) Y) items
    then Some (months_of Y items)
    else None.
Proof.
  unfold Preserve.join_years. rewrite join_years_fold.
  now rewrite lookup_empty.
Qed.

Lemma join_years_default items Y :
  default [] (Preserve.join_years items !! Y) = months_of Y items.
Proof.
  rewrite join_years_lookup.
  destruct (existsb _ items) eqn:Ex; [reflexivity|].
  now rewrite (months_of_none _ _ Ex).
Qed.

Lemma join_years_is_Some items Y :
  is_Some (Preserve.join_years items !! Y)
  <-> exists item, In item items /\ Preserve.year_of_key (fst item) = Y.
Proof.
  rewrite join_years_lookup.
  destruct (existsb _ items) eqn:Ex.
  - apply existsb_exists in Ex as (item & Hin & Heq).
    apply String.eqb_eq in Heq. split; [now exists item | now eexists].
  - split; [now intros [x Hx]|].
    intros (item & Hin & Heq).
    assert (Ht : existsb
                   (fun item =>
                      String.eqb (Preserve.year_of_key (fst item)) Y)
                   items = true).
    { apply existsb_exists. exists item. split; [exact Hin|].
      now apply String.eqb_eq. }
    rewrite Ht in Ex. discriminate Ex.
Qed.

(** The records of one date, in the months of a year. *)
Lemma filter_months_of d Y items :
  List.filter (same_date d) (months_of Y items)
  = concat
      (List.map
         (fun item =>
            if String.eqb (Preserve.year_of_key (fst item)) Y
            then List.filter (same_date d) (snd item)
            else [])
         items).
Proof.
  unfold months_of. induction items as [|[k l] items IH]; [reflexivity|].
  cbn [List.filter List.map concat fst snd].
  destruct (String.eqb (Preserve.year_of_key k) Y).
  - cbn [List.map concat snd]. now rewrite List.filter_app, IH.
  - exact IH.
Qed.

(** When at most the list of one key counts, the order of the items does
    not. *)
Lemma concat_single {A} (F : string * list expense -> list A)
    (items : list (string * list expense)) (k0 : string) :
  NoDup items.*1 ->
  (forall item, In item items -> F item <> [] -> fst item = k0) ->
  concat (List.map F items)
  = match (list_to_map items : gmap string (list expense)) !! k0 with
    | Some l => F (k0, l)
    | None => []
    end.
Proof.
  induction items as [|[k l] items IH]; intros Hnd HF.
  - cbn. now rewrite lookup_empty.
  - rewrite fmap_cons in Hnd. apply NoDup_cons in Hnd as [Hk Hnd].
    cbn [List.map concat list_to_map foldr].
    specialize (IH Hnd (fun item Hin => HF item (or_intror Hin))).
    destruct (decide (k = k0)) as [->|Hne].
    + change (list_to_map ((k0, l) :: items))
        with (<[k0 := l]> (list_to_map items : gmap string (list expense))).
      rewrite lookup_insert_eq. rewrite IH.
      rewrite (not_elem_of_list_to_map_1 _ _ Hk). apply app_nil_r.
    + change (list_to_map ((k, l) :: items))
        with (<[k := l]> (list_to_map items : gmap string (list expense))).
      rewrite lookup_insert_ne by assumption. rewrite <- IH.
      destruct (F (k, l)) as [|x xs] eqn:EF; [reflexivity|].
      exfalso. apply Hne.
      apply (HF (k, l)); [now left | rewrite EF; discriminate].
Qed.

Lemma filter_months_perm (g : gmap string (list expense)) items d Y :
  Permutation items (map_to_list g) ->
  groups_keyed dated_in_month g ->
  List.filter (same_date d) (months_of Y items)
  = match g !! String.substring 0 7 d with
    | Some l =>
        if String.eqb (Preserve.year_of_key (String.substring 0 7 d)) Y
        then List.filter (same_date d) l
        else []
    | None => []
    end.
Proof.
  intros Hperm Hkeyed. rewrite filter_months_of.
  rewrite (concat_single _ items (String.substring 0 7 d)).
  - rewrite <- (list_to_map_flip g items) by (now symmetry). reflexivity.
  - rewrite Hperm. apply NoDup_fst_map_to_list.
  - intros [k l] Hin HF. cbn [fst snd] in *.
    destruct (String.eqb (Preserve.year_of_key k) Y);
      [|now contradiction HF].
    destruct (List.filter (same_date d) l) as [|e rest] eqn:Ef;
      [now contradiction HF|].
    assert (He : In e (List.filter (same_date d) l))
      by (rewrite Ef; now left).
    apply filter_In in He as [He Hd].
    apply String.eqb_eq in Hd. subst d.
    apply month_key_of_date.
    apply list_elem_of_In in Hin. rewrite Hperm in Hin.
    apply elem_of_map_to_list in Hin.
    pose proof (Hkeyed k l Hin) as Hall.
    rewrite List.Forall_forall in Hall. now apply Hall.
Qed.

Lemma sort_months_perm (g : gmap string (list expense)) items Y :
  Permutation items (map_to_list g) ->
  groups_keyed dated_in_month g ->
  sort_by_date (months_of Y items)
  = sort_by_date (months_of Y (map_to_list g)).
Proof.
  intros Hperm Hkeyed. apply sort_by_filters. intros d.
  rewrite (filter_months_perm g items d Y Hperm Hkeyed).
  now rewrite (filter_months_perm g (map_to_list g) d Y).
Qed.

(** The years in the order of their names. *)
Lemma string_le_total a b : string_le a b \/ string_le b a.
Proof.
  unfold string_le, String.leb. rewrite (String.compare_antisym b a).
  destruct (String.compare a b); cbn; auto.
Qed.

Lemma sorted_names_perm (m : gmap string (list expense)) :
  Permutation (Preserve.sorted_names m) (List.map fst (map_to_list m)).
Proof. unfold Preserve.sorted_names. apply merge_sort_Permutation. Qed.

Lemma sorted_names_NoDup (m : gmap string (list expense)) :
  NoDup (Preserve.sorted_names m).
Proof.
  rewrite sorted_names_perm, map_fmap. apply NoDup_fst_map_to_list.
Qed.

Lemma sorted_names_In (m : gmap string (list expense)) Y :
  In Y (Preserve.sorted_names m) <-> is_Some (m !! Y).
Proof.
  rewrite <- list_elem_of_In, sorted_names_perm, map_fmap, list_elem_of_fmap.
  split.
  - intros [[k l] [-> Hin]]. apply elem_of_map_to_list in Hin.
    now exists l.
  - intros [l Hl]. exists (Y, l). split; [reflexivity|].
    now apply elem_of_map_to_list.
Qed.

Lemma sorted_names_sorted (m : gmap string (list expense)) :
  StronglySorted string_le (Preserve.sorted_names m).
Proof.
  unfold Preserve.sorted_names. apply StronglySorted_merge_sort.
  - intros a b c. apply string_leb_trans.
  - intros a b. apply string_le_total.
Qed.

Lemma sorted_names_eq (m1 m2 : gmap string (list expense)) :
  (forall Y, is_Some (m1 !! Y) <-> is_Some (m2 !! Y)) ->
  Preserve.sorted_names m1 = Preserve.sorted_names m2.
Proof.
  intros Hdom.
  apply (@StronglySorted_unique string string_le string_leb_antisym);
    try apply sorted_names_sorted.
  apply NoDup_Permutation; try apply sorted_names_NoDup.
  intros Y. rewrite !list_elem_of_In, !sorted_names_In. apply Hdom.
Qed.

Lemma sorted_names_total (m : gmap string (list expense))
    (c : string -> list expense) :
  (forall Y, length (c Y) = length (default [] (m !! Y))) ->
  sum_list (List.map (fun Y => length (c Y)) (Preserve.sorted_names m))
  = total_records m.
Proof.
  intros Hc.
  rewrite (sum_list_perm _ _
             (Permutation_map _ (sorted_names_perm m))).
  unfold total_records. rewrite List.map_map. f_equal.
  apply List.map_ext_in. intros [k l] Hin. cbn [fst snd].
  apply list_elem_of_In, elem_of_map_to_list in Hin.
  now rewrite Hc, Hin.
Qed.

Lemma join_years_fold_total items (acc : gmap string (list expense)) :
  total_records
    (fold_left
       (fun by_year item =>
          let year := Preserve.year_of_key (fst item) in
          <[year := default [] (by_year !! year) ++ snd item]> by_year)
       items acc)
  = (total_records acc
     + sum_list (List.map (fun kl => length (snd kl)) items))%nat.
Proof.
  revert acc. induction items as [|[k l] items IH]; intros acc.
  - cbn. lia.
  - cbn [fold_left fst snd]. rewrite IH. cbv zeta.
    pose proof (total_records_insert acc (Preserve.year_of_key k)
                  (default [] (acc !! Preserve.year_of_key k) ++ l)) as Hi.
    rewrite List.length_app in Hi.
    change (sum_list (List.map (fun kl => length (snd kl)) ((k, l) :: items)))
      with (length l
            + sum_list
                (List.map (fun kl : string * list expense => length (snd kl))
                   items))%nat.
    lia.
Qed.

Lemma join_years_total (g : gmap string (list expense)) items :
  Permutation items (map_to_list g) ->
  total_records (Preserve.join_years items) = total_records g.
Proof.
  intros Hperm. unfold Preserve.join_years.
  rewrite join_years_fold_total.
  pose proof (@total_records_empty string _ _) as Hempty.
  rewrite Hempty. cbn [Nat.add]. unfold total_records at 1.
  now apply sum_list_lengths_perm.
Qed.

Lemma preserve_output_file_inj y1 y2 :
  Preserve.output_file y1 = Preserve.output_file y2 -> y1 = y2.
Proof.
  unfold Preserve.output_file. intros Heq.
  apply String.app_inj, String.app_inj in Heq.
  now apply append_inv_tail in Heq.
Qed.

Lemma preserve_save_years (by_year : gmap string (list expense))
    (c : string -> list expense) names files printed total_count :
  (forall Y, sort_by_date (default [] (by_year !! Y)) = c Y) ->
  fold_left (Preserve.save_year by_year) names (files, printed, total_count)
  = (fold_left
       (fun fs Y =>
          <[Preserve.output_file Y
            := Preserve.csv_header :: List.map Preserve.csv_row (c Y)]> fs)
       names files,
     printed ++ List.map (fun Y => (Y, length (c Y))) names,
     (total_count + sum_list (List.map (fun Y => length (c Y)) names))%nat).
Proof.
  intros Hc. revert files printed total_count.
  induction names as [|Y names IH]; intros files printed total_count.
  - cbn. now rewrite app_nil_r, Nat.add_0_r.
  - cbn [fold_left Preserve.save_year]. rewrite Hc, IH.
    unfold Preserve.save_to_csv. cbn [List.map].
    rewrite <- app_assoc. cbn [app].
    change (sum_list (?a :: ?l)) with (a + sum_list l)%nat.
    now rewrite Nat.add_assoc.
Qed.

(** [main_from] for any order of the items, by the items in the order of
    [map_to_list]. *)
Lemma main_from_canonical (g : gmap string (list expense)) items files :
  Permutation items (map_to_list g) ->
  groups_keyed dated_in_month g ->
  let c := fun Y => sort_by_date (months_of Y (map_to_list g)) in
  let names := Preserve.sorted_names (Preserve.join_years (map_to_list g)) in
  Preserve.main_from items files
  = (fold_left
       (fun fs Y =>
          <[Preserve.output_file Y
            := Preserve.csv_header :: List.map Preserve.csv_row (c Y)]> fs)
       names files,
     Done (List.map (fun Y => (Y, length (c Y))) names,
           sum_list (List.map (fun Y => length (c Y)) names))).
Proof.
  intros Hperm Hkeyed c names. unfold Preserve.main_from.
  rewrite (preserve_save_years _ c).
  2:{ intros Y. rewrite join_years_default.
      now apply sort_months_perm. }
  rewrite (sorted_names_eq (Preserve.join_years items)
             (Preserve.join_years (map_to_list g))).
  2:{ intros Y. rewrite !join_years_is_Some.
      split; intros (item & Hin & Heq); exists item; (split; [|exact Heq]).
      - apply list_elem_of_In. rewrite <- Hperm. now apply list_elem_of_In.
      - apply list_elem_of_In. rewrite Hperm. now apply list_elem_of_In. }
  reflexivity.
Qed.

Lemma months_of_In Y items e :
  In e (months_of Y items)
  <-> exists k l, In (k, l) items /\ Preserve.year_of_key k = Y /\ In e l.
Proof.
  unfold months_of. rewrite in_concat. split.
  - intros (l & Hl & He). apply in_map_iff in Hl as ([k l'] & <- & Hin).
    apply filter_In in Hin as [Hin Hy]. apply String.eqb_eq in Hy.
    now exists k, l'.
  - intros (k & l & Hin & Hy & He). exists l. split; [|exact He].
    apply in_map_iff. exists (k, l). split; [reflexivity|].
    apply filter_In. split; [exact Hin|]. now apply String.eqb_eq.
Qed.

Section PreserveMain.
Context `{PyLib}.

(** X18: [main] of [convert_excel_preserve_categories.py] joins the months of
    a year and writes one file per year.  The order in which the dict
    hands the months over is of no effect: for the items in any order,
    the files and the figures are those of the model's [main].  The file
    of a year holds the rows of the records of its months, sorted by
    date, the records of one date in the order of their month's group;
    the dates of its rows begin with the year; no other file is touched,
    and the total printed is the number of all records. *)
Theorem preserve_main_joins_the_months (wb : workbook)
    (files : file_store) (g : gmap string (list expense))
    (log : list message) (items : list (string * list expense)) :
  Preserve.extract_expenses wb = Some (g, log) ->
  g <> ∅ ->
  Permutation items (map_to_list g) ->
  Preserve.main_from items files = Preserve.main wb files
  /\ (forall key lk,
         g !! key = Some lk ->
         exists l,
           fst (Preserve.main wb files)
             !! Preserve.output_file (Preserve.year_of_key key)
           = Some (Preserve.csv_header :: List.map Preserve.csv_row l)
           /\ sorted_stably l (months_of (Preserve.year_of_key key) items)
           /\ forall e,
               In e l ->
               exists rest,
                 date e = Preserve.year_of_key key +:+ "-" +:+ rest)
  /\ (forall p,
         (forall key, is_Some (g !! key) ->
                      p <> Preserve.output_file (Preserve.year_of_key key)) ->
         fst (Preserve.main wb files) !! p = files !! p)
  /\ exists printed,
       snd (Preserve.main wb files) = Done (printed, total_records g).
Proof.
  intros Hrun Hne Hperm.
  pose proof (preserve_run_keyed wb g log Hrun) as Hkeyed.
  assert (Hmain : Preserve.main wb files
                  = Preserve.main_from (map_to_list g) files).
  { unfold Preserve.main. rewrite Hrun.
    destruct (bool_decide (g = ∅)) eqn:Hempty; [|reflexivity].
    apply bool_decide_eq_true in Hempty. contradiction. }
  rewrite Hmain.
  rewrite (main_from_canonical g items files Hperm Hkeyed).
  rewrite (main_from_canonical g (map_to_list g) files
             (Permutation_refl _) Hkeyed).
  cbv zeta. cbn [fst snd].
  split; [reflexivity|].
  destruct (fold_insert_lookup Preserve.output_file
              (fun Y =>
                 Preserve.csv_header
                 :: List.map Preserve.csv_row
                      (sort_by_date (months_of Y (map_to_list g))))
              (Preserve.sorted_names (Preserve.join_years (map_to_list g)))
              files preserve_output_file_inj (sorted_names_NoDup _))
    as [Hfile Hother].
  split; [|split].
  - intros key lk Hkey.
    exists (sort_by_date (months_of (Preserve.year_of_key key)
                            (map_to_list g))).
    split; [|split].
    + apply Hfile. apply sorted_names_In, join_years_is_Some.
      exists (key, lk). split; [|reflexivity].
      now apply list_elem_of_In, elem_of_map_to_list.
    + rewrite <- (sort_months_perm g items _ Hperm Hkeyed).
      apply sort_by_date_sorted_stably.
    + intros e He.
      apply (Permutation_in _ (sort_by_date_perm _)) in He.
      apply months_of_In in He as (k & l & Hin & Hy & He).
      apply list_elem_of_In, elem_of_map_to_list in Hin.
      pose proof (Hkeyed k l Hin) as Hall.
      rewrite List.Forall_forall in Hall.
      destruct (Hall e He) as (y & m & d & Hyr & (_ & Hm & _) & Hk & Hd).
      rewrite <- Hy, Hd, Hk, year_of_month_key by lia.
      exists (fmt_0d 2 m +:+ "-" +:+ fmt_0d 2 d).
      now rewrite !string_app_assoc.
  - intros p Hp. apply Hother. intros Y HY.
    apply sorted_names_In, join_years_is_Some in HY
      as ([k l] & Hin & Heq).
    rewrite <- Heq. apply Hp.
    apply list_elem_of_In, elem_of_map_to_list in Hin. now exists l.
  - eexists. f_equal. f_equal.
    rewrite sorted_names_total.
    + now apply join_years_total.
    + intros Y. rewrite join_years_default.
      apply Permutation_length, sort_by_date_perm.
Qed.

End PreserveMain.

Lemma preserve_main_joins_the_months_witness :
  Preserve.main_from
    [("2024-08",
      [{| date := "2024-08-02"; category := "その他"; subcategory := None;
          amount := 480; place := "Bakery"; description := "bread" |}]);
     ("2024-06",
      [{| date := "2024-06-03"; category := "その他"; subcategory := None;
          amount := 0; place := "Kiosk"; description := "candy" |};
       {| date := "2024-06-15"; category := "その他"; subcategory := None;
          amount := 1200; place := "SuperMart";
          description := "groceries" |}])]
    ∅
  = @Preserve.main ascii_pylib [sample_sheet; later_sheet] ∅.
Proof.
  refine (proj1 (@preserve_main_joins_the_months ascii_pylib
                   [sample_sheet; later_sheet] ∅ _ _ _ _ _ _)).
  - vm_compute. reflexivity.
  - intros Hx. apply (f_equal (fun m => m !! "2024-06")) in Hx.
    vm_compute in Hx. discriminate Hx.
  - vm_compute. apply perm_swap.
Defined.

(** ** Sheets named after no month *)

Lemma no_date_for_no_month (sheet_name g1 g2 : string) (yy m : Z)
    (day : cell) :
  re_match_period sheet_name = Some (g1, g2) ->
  int_str g1 = Some yy -> int_str g2 = Some m ->
  m < 1 \/ 12 < m \/ 7999 < yy ->
  parse_date_with sheet_name day 0 = None.
Proof.
  intros Hre Hy Hm Hout.
  destruct (parse_date_with sheet_name day 0) as [[[date_str y] mm]|] eqn:Hp;
    [|reflexivity].
  apply parse_date_with_exact in Hp
    as (g1' & g2' & yy' & dd & Hre' & Hy' & Hm' & -> & Hle & _ & _
        & (_ & Hmm & _) & _).
  rewrite Hre in Hre'. injection Hre' as <- <-.
  rewrite Hy in Hy'. injection Hy' as <-.
  rewrite Hm in Hm'. injection Hm' as <-. lia.
Qed.

Section NoMonth.
Context `{PyLib}.

(** X19: A sheet is processed when its name begins with digits, a period and
    digits, whatever the numbers are.  When the second number is no
    month, or the first is above 7999 (the year would need five digits),
    no row of the sheet becomes a record, in any of the five scripts,
    and no error is raised for it. *)
Theorem sheet_of_no_month_yields_nothing (sheet_name g1 g2 : string)
    (yy m : Z) :
  re_match_period sheet_name = Some (g1, g2) ->
  int_str g1 = Some yy -> int_str g2 = Some m ->
  m < 1 \/ 12 < m \/ 7999 < yy ->
  is_month_sheet sheet_name = true
  /\ (forall r, Basic.extract_row sheet_name r = None)
  /\ (forall r, Split.extract_row sheet_name r = None)
  /\ (forall d p a ds r, Final.extract_row sheet_name d p a ds r = None)
  /\ (forall c d p a ds r,
         Preserve.extract_row sheet_name c d p a ds r = None)
  /\ (forall c d p a ds r,
         Subcat.extract_row sheet_name c d p a ds r = None).
Proof.
  intros Hre Hy Hm Hout.
  pose proof (fun day =>
                no_date_for_no_month sheet_name g1 g2 yy m day Hre Hy Hm Hout)
    as Hnone.
  split; [unfold is_month_sheet; now rewrite Hre|].
  split; [|split; [|split; [|split]]].
  - intros r. unfold Basic.extract_row, Basic.parse_date.
    destruct r; [reflexivity|]. rewrite Hnone.
    destruct (length _ <? 8)%nat; [reflexivity|].
    destruct (negb _ || le_zero _); [reflexivity|].
    now destruct (truthy _ && is_str _).
  - intros r. unfold Split.extract_row, Split.parse_date.
    destruct r; [reflexivity|]. rewrite Hnone.
    destruct (length _ <? 8)%nat; [reflexivity|].
    destruct (negb _ || le_zero _); [reflexivity|].
    now destruct (negb _).
  - intros d p a ds r. unfold Final.extract_row, Final.parse_date.
    destruct r; [reflexivity|]. rewrite Hnone.
    destruct (negb _ || le_zero _); [reflexivity|].
    now destruct (negb _).
  - intros c d p a ds r. unfold Preserve.extract_row, Preserve.parse_date.
    destruct r; [reflexivity|]. rewrite Hnone.
    destruct (negb _ || le_zero _); [reflexivity|].
    now destruct (negb _).
  - intros c d p a ds r. unfold Subcat.extract_row, Subcat.parse_date.
    destruct r; [reflexivity|]. rewrite Hnone.
    destruct (negb _ || le_zero _); [reflexivity|].
    now destruct (negb _).
Qed.

End NoMonth.

Lemma sheet_of_no_month_yields_nothing_witness :
  is_month_sheet "24.13" = true
  /\ (forall r, @Basic.extract_row ascii_pylib "24.13" r = None)
  /\ (forall r, @Split.extract_row ascii_pylib "24.13" r = None)
  /\ (forall d p a ds r,
         @Final.extract_row ascii_pylib "24.13" d p a ds r = None)
  /\ (forall c d p a ds r,
         @Preserve.extract_row ascii_pylib "24.13" c d p a ds r = None)
  /\ (forall c d p a ds r,
         @Subcat.extract_row ascii_pylib "24.13" c d p a ds r = None).
Proof.
  apply (@sheet_of_no_month_yields_nothing ascii_pylib "24.13" "24" "13"
           24 13).
  - vm_compute. reflexivity.
  - vm_compute. reflexivity.
  - vm_compute. reflexivity.
  - lia.
Defined.
